(** * Offline mutation queue and sync engine of the rep dashboard

    A shallow embedding of [services/offline.ts] (the localforage-backed
    store and the mutation queue), [services/sync.ts] (syncDown, syncUp,
    processMutation, withOfflineFallback) and of [handleStartVisit] of the
    VisitStart page, followed by the properties of the specification that
    concern them.

    Promise-returning functions are computations in a state monad over a
    [World] whose outcome is a resolved value or a rejection; what a
    rejected computation did before it threw stays done.  The remote store
    is reached through an interface ([RemoteStore]): the engine is proved
    against every implementation of it, and an in-memory relational
    implementation gives the filter semantics and concrete runs. *)

From stdpp Require Import gmap strings list fin_maps pretty.
From Stdlib Require Import ZArith Lia Ascii.
From Stdlib Require QArith Qminmax.

Open Scope string_scope.

(** ** Values, rows and the mutation queue entry *)

(** JavaScript values that occur as row fields and promise results. *)
Inductive Val :=
| VUndefined
| VNull
| VNaN
| VNum (n : Z)
| VStr (s : string).

#[global] Instance Val_eq_dec : EqDecision Val.
Proof. solve_decision. Defined.

(** A row object: field name to value. *)
Abbreviation Row := (gmap string Val).

(** [operation: 'insert' | 'update' | 'upsert' | 'delete'] *)
Inductive Operation := OpInsert | OpUpdate | OpUpsert | OpDelete.

#[global] Instance Operation_eq_dec : EqDecision Operation.
Proof. solve_decision. Defined.

(** [MutationQueueItem] *)
Record MutationQueueItem := {
  mq_id : string;
  mq_table : string;
  mq_operation : Operation;
  mq_payload : Row;
  mq_key : option string;
  mq_timestamp : string;
  mq_synced : bool
}.

(** [Omit<MutationQueueItem, 'id' | 'timestamp' | 'synced'>] *)
Record Mutation := {
  mu_table : string;
  mu_operation : Operation;
  mu_payload : Row;
  mu_key : option string
}.

(** [ActiveVisit] *)
Record ActiveVisit := {
  visit_id : string;
  av_client_id : string;
  start_time : string;
  notes : option string
}.

(** [status: 'active' | 'inactive'] of [Client] *)
Inductive ClientStatus := active | inactive.

(** [Client] *)
Record Client := {
  c_id : string;
  c_name : string;
  c_email : option string;
  c_phone : option string;
  c_address : option string;
  c_status : ClientStatus;
  c_created_at : string
}.

(** ** Errors *)

(** The error object of a remote response. *)
Record PgError := { code : string; message : string }.

(** What a [throw] carries: [new Error(message)] or a remote error object. *)
Inductive Exn :=
| JsError (msg : string)
| PgErr (e : PgError).

(** ** The remote store boundary *)

(** Query-builder filters: [.eq], [.in], [.gte], [.lt]. *)
Inductive Filter :=
| FEq (col : string) (v : Val)
| FIn (col : string) (vs : list Val)
| FGte (col : string) (v : Val)
| FLt (col : string) (v : Val).

(** One request built on [supabase.from(table)]. *)
Inductive Request :=
| RSelect (table : string) (filters : list Filter)
| RInsert (table : string) (payload : Row)
| RUpdate (table : string) (payload : Row) (filters : list Filter)
| RUpsert (table : string) (payload : Row)
| RDelete (table : string) (filters : list Filter).

(** The [{ data, error }] pair every request resolves to. *)
Record Response := { data : list Row; error : option PgError }.

(** The remote store as a capability: a request runs against the store's
    state and yields a response and the next state. *)
Class RemoteStore (R : Type) := { rs_exec : Request -> R -> Response * R }.

(** ** Platform objects *)

(** A [Date] object, through its accessors: the local year, month index
    (0 to 11) and day of the month, and the ISO timestamp. *)
Record JsDate := {
  getFullYear : Z;
  getMonth : Z;
  getDate : Z;
  toISOString : string
}.

(** Console output. *)
Inductive ConsoleMsg :=
| Log (text : string)
| Warn (text : string) (e : Exn)
| Error (text : string) (e : Exn).

(** [String.prototype.padStart(2, '0')] *)
Definition padStart2 (s : string) : string :=
  match String.length s with
  | 0 => "00"
  | 1 => "0" ++ s
  | _ => s
  end.

(** [String(n)] for an integer. *)
Definition String_of (n : Z) : string := pretty n.

(** Decimal digit value of a character. *)
Definition digit_of (c : Ascii.ascii) : option Z :=
  let n := Z.of_N (Ascii.N_of_ascii c) in
  if (48 <=? n)%Z && (n <=? 57)%Z then Some (n - 48)%Z else None.

(** The digits at the front of a string, read as a decimal number. *)
Fixpoint leading_digits (acc : option Z) (s : string) : option Z :=
  match s with
  | EmptyString => acc
  | String c s' =>
    match digit_of c with
    | Some d => leading_digits (Some (10 * default 0%Z acc + d)%Z) s'
    | None => acc
    end
  end.

(** [parseInt(s)] on a string with no leading white space. *)
Definition parseInt (s : string) : Val :=
  match s with
  | String "-"%char s' =>
    match leading_digits None s' with Some n => VNum (- n) | None => VNaN end
  | String "+"%char s' =>
    match leading_digits None s' with Some n => VNum n | None => VNaN end
  | _ =>
    match leading_digits None s with Some n => VNum n | None => VNaN end
  end.

(** [s.split('T')[0]] *)
Fixpoint split_T_0 (s : string) : string :=
  match s with
  | EmptyString => EmptyString
  | String c s' => if Ascii.eqb c "T"%char then EmptyString else String c (split_T_0 s')
  end.

(** ** Storage keys *)

Module STORAGE_KEYS.
Definition clients := "clients".
Definition products := "products".
Definition visits := "visits".
Definition orders := "orders".
Definition order_items := "order_items".
Definition client_products := "client_products".
Definition rep_tasks := "rep_tasks".
Definition budgets := "budgets".
Definition client_followups := "client_followups".
Definition active_visit := "active_visit".
Definition mutation_queue := "mutation_queue".
End STORAGE_KEYS.

(** The keys under which offline.ts keeps arrays of rows: the keys of
    [STORAGE_KEYS] other than [active_visit] and [mutation_queue].  Those
    two hold the visit record and the queue array, and the code reads and
    writes them through localforage directly; [setData] and [getData] are
    called by the [offlineStorage] accessors only, with the nine keys
    below, and are modelled on these. *)
Module Collection.
Inductive key :=
| clients | products | visits | orders | order_items
| client_products | rep_tasks | budgets | client_followups.
End Collection.

(** [STORAGE_KEYS[key]] *)
Definition storage_key (key : Collection.key) : string :=
  match key with
  | Collection.clients => STORAGE_KEYS.clients
  | Collection.products => STORAGE_KEYS.products
  | Collection.visits => STORAGE_KEYS.visits
  | Collection.orders => STORAGE_KEYS.orders
  | Collection.order_items => STORAGE_KEYS.order_items
  | Collection.client_products => STORAGE_KEYS.client_products
  | Collection.rep_tasks => STORAGE_KEYS.rep_tasks
  | Collection.budgets => STORAGE_KEYS.budgets
  | Collection.client_followups => STORAGE_KEYS.client_followups
  end.

(** ** Promise outcomes *)

(** How an awaited promise ends.  [Unsettled] is a loop that was cut off
    before it finished; [syncUp_settles] shows syncUp never ends so. *)
Inductive Outcome (A : Type) :=
| Resolved (a : A)
| Rejected (e : Exn)
| Unsettled.

Arguments Resolved {A} a.
Arguments Rejected {A} e.
Arguments Unsettled {A}.

Section Engine.

Context {R : Type} `{RemoteStore R}.

(** ** The world the code runs in *)

(** localforage, by the type kept under each key: the arrays of rows
    under the collection keys ([lf_rows], written and read by [setData]
    and [getData] at [storage_key] of a collection key only), the record
    under [active_visit] and the array under [mutation_queue].  [None] is
    a key that holds nothing ([getItem] gives [null]).  Reads and writes
    of the device store always succeed. *)
Record LocalForage := {
  lf_rows : gmap string (list Row);
  lf_active_visit : option ActiveVisit;
  lf_mutation_queue : option (list MutationQueueItem)
}.

(** The module state of sync.ts ([isOnline]), the device store, the remote
    store, the sources of [uuidv4()] and [new Date()] with the number of
    draws made so far, the requests sent and the console. *)
Record World := {
  isOnline : bool;
  localforage : LocalForage;
  supabase : R;
  uuid_src : nat -> string;
  uuid_calls : nat;
  clock : nat -> JsDate;
  clock_reads : nat;
  requests : list Request;
  console : list ConsoleMsg
}.

Definition set_localforage (f : LocalForage -> LocalForage) (w : World) : World :=
  {| isOnline := isOnline w; localforage := f (localforage w);
     supabase := supabase w;
     uuid_src := uuid_src w; uuid_calls := uuid_calls w;
     clock := clock w; clock_reads := clock_reads w;
     requests := requests w; console := console w |}.

Definition set_rows (k : string) (rows : list Row) (s : LocalForage) : LocalForage :=
  {| lf_rows := <[k := rows]> (lf_rows s);
     lf_active_visit := lf_active_visit s;
     lf_mutation_queue := lf_mutation_queue s |}.

Definition set_active_visit (v : option ActiveVisit) (s : LocalForage) : LocalForage :=
  {| lf_rows := lf_rows s;
     lf_active_visit := v;
     lf_mutation_queue := lf_mutation_queue s |}.

Definition set_mutation_queue (q : list MutationQueueItem) (s : LocalForage) : LocalForage :=
  {| lf_rows := lf_rows s;
     lf_active_visit := lf_active_visit s;
     lf_mutation_queue := Some q |}.

Definition set_remote (r : R) (req : Request) (w : World) : World :=
  {| isOnline := isOnline w; localforage := localforage w;
     supabase := r;
     uuid_src := uuid_src w; uuid_calls := uuid_calls w;
     clock := clock w; clock_reads := clock_reads w;
     requests := requests w ++ [req]; console := console w |}.

Definition draw_uuid (w : World) : World :=
  {| isOnline := isOnline w; localforage := localforage w;
     supabase := supabase w;
     uuid_src := uuid_src w; uuid_calls := S (uuid_calls w);
     clock := clock w; clock_reads := clock_reads w;
     requests := requests w; console := console w |}.

Definition read_clock (w : World) : World :=
  {| isOnline := isOnline w; localforage := localforage w;
     supabase := supabase w;
     uuid_src := uuid_src w; uuid_calls := uuid_calls w;
     clock := clock w; clock_reads := S (clock_reads w);
     requests := requests w; console := console w |}.

Definition set_online (b : bool) (w : World) : World :=
  {| isOnline := b; localforage := localforage w;
     supabase := supabase w;
     uuid_src := uuid_src w; uuid_calls := uuid_calls w;
     clock := clock w; clock_reads := clock_reads w;
     requests := requests w; console := console w |}.

Definition print (m : ConsoleMsg) (w : World) : World :=
  {| isOnline := isOnline w; localforage := localforage w;
     supabase := supabase w;
     uuid_src := uuid_src w; uuid_calls := uuid_calls w;
     clock := clock w; clock_reads := clock_reads w;
     requests := requests w; console := console w ++ [m] |}.

(** ** Promises *)

Definition Async (A : Type) : Type := World -> Outcome A * World.

Definition ret {A} (a : A) : Async A := fun w => (Resolved a, w).

Definition throw {A} (e : Exn) : Async A := fun w => (Rejected e, w).

Definition bind {A B} (m : Async A) (k : A -> Async B) : Async B :=
  fun w =>
    match m w with
    | (Resolved a, w') => k a w'
    | (Rejected e, w') => (Rejected e, w')
    | (Unsettled, w') => (Unsettled, w')
    end.

(** [try { m } catch (error) { h error }] *)
Definition try_catch {A} (m : Async A) (h : Exn -> Async A) : Async A :=
  fun w =>
    match m w with
    | (Rejected e, w') => h e w'
    | r => r
    end.

Definition gets {A} (f : World -> A) : Async A := fun w => (Resolved (f w), w).

Definition modify (f : World -> World) : Async unit := fun w => (Resolved tt, f w).

Local Notation "x <~ m ;; k" := (bind m (fun x => k))
  (at level 100, m at next level, right associativity).
Local Notation "m ;;; k" := (bind m (fun _ => k))
  (at level 100, right associativity).

Definition console_log (text : string) : Async unit := modify (print (Log text)).
Definition console_warn (text : string) (e : Exn) : Async unit := modify (print (Warn text e)).
Definition console_error (text : string) (e : Exn) : Async unit := modify (print (Error text e)).

(** [uuidv4()] *)
Definition uuidv4 : Async string :=
  fun w => (Resolved (uuid_src w (uuid_calls w)), draw_uuid w).

(** [new Date()] *)
Definition new_Date : Async JsDate :=
  fun w => (Resolved (clock w (clock_reads w)), read_clock w).

(** Awaiting a request built on the supabase client. *)
Definition supabase_call (req : Request) : Async Response :=
  fun w => let (resp, r') := rs_exec req (supabase w) in (Resolved resp, set_remote r' req w).

(** ** offline.ts: generic storage functions *)

(** [setData(key, data)]: [localforage.setItem(STORAGE_KEYS[key], data)],
    for a collection key. *)
Definition setData (key : Collection.key) (rows : list Row) : Async unit :=
  modify (set_localforage (set_rows (storage_key key) rows)).

(** [getData(key)]: [localforage.getItem(STORAGE_KEYS[key])], then
    [data || []], for a collection key. *)
Definition getData (key : Collection.key) : Async (list Row) :=
  gets (fun w => default [] (lf_rows (localforage w) !! storage_key key)).

(** [storageSetActiveVisit(visit)]: store the record, or remove the key on null. *)
Definition storageSetActiveVisit (visit : option ActiveVisit) : Async unit :=
  match visit with
  | Some v => modify (set_localforage (set_active_visit (Some v)))
  | None => modify (set_localforage (set_active_visit None))
  end.

(** [storageGetActiveVisit()] *)
Definition storageGetActiveVisit : Async (option ActiveVisit) :=
  gets (fun w => lf_active_visit (localforage w)).

(** [offlineStorage]: the accessors used by the sync engine and the pages. *)
Definition offlineStorage_setClients := setData Collection.clients.
Definition offlineStorage_getClients := getData Collection.clients.
Definition offlineStorage_setProducts := setData Collection.products.
Definition offlineStorage_setClientProducts := setData Collection.client_products.
Definition offlineStorage_setRepTasks := setData Collection.rep_tasks.
Definition offlineStorage_setBudgets := setData Collection.budgets.
Definition offlineStorage_setClientFollowups := setData Collection.client_followups.
Definition offlineStorage_setActiveVisit := storageSetActiveVisit.
Definition offlineStorage_getActiveVisit := storageGetActiveVisit.

(** ** offline.ts: mutation queue functions *)

(** [await localforage.getItem(STORAGE_KEYS.mutation_queue) || []] *)
Definition stored_queue (w : World) : list MutationQueueItem :=
  default [] (lf_mutation_queue (localforage w)).

Definition put_queue (q : list MutationQueueItem) : Async unit :=
  modify (set_localforage (set_mutation_queue q)).

Definition enqueueMutation (mutation : Mutation) : Async unit :=
  queue <~ gets stored_queue ;;
  id <~ uuidv4 ;;
  now <~ new_Date ;;
  let queueItem :=
    {| mq_id := id;
       mq_table := mu_table mutation;
       mq_operation := mu_operation mutation;
       mq_payload := mu_payload mutation;
       mq_key := mu_key mutation;
       mq_timestamp := toISOString now;
       mq_synced := false |} in
  put_queue (queue ++ [queueItem]).

Definition dequeueMutation : Async (option MutationQueueItem) :=
  queue <~ gets stored_queue ;;
  match queue with
  | [] => ret None
  | item :: rest => put_queue rest ;;; ret (Some item)
  end.

Definition peekAllMutations : Async (list MutationQueueItem) := gets stored_queue.

(** [{ ...item, synced: true }] *)
Definition with_synced (item : MutationQueueItem) : MutationQueueItem :=
  {| mq_id := mq_id item;
     mq_table := mq_table item;
     mq_operation := mq_operation item;
     mq_payload := mq_payload item;
     mq_key := mq_key item;
     mq_timestamp := mq_timestamp item;
     mq_synced := true |}.

Definition mark_in (mutationId : string) (queue : list MutationQueueItem) :=
  map (fun item => if String.eqb (mq_id item) mutationId then with_synced item else item) queue.

Definition markMutationSynced (mutationId : string) : Async unit :=
  queue <~ gets stored_queue ;;
  let updatedQueue := mark_in mutationId queue in
  put_queue updatedQueue.

Definition unsynced (queue : list MutationQueueItem) : list MutationQueueItem :=
  List.filter (fun item => negb (mq_synced item)) queue.

Definition removeSyncedMutations : Async unit :=
  queue <~ gets stored_queue ;;
  let unsyncedQueue := unsynced queue in
  put_queue unsyncedQueue.

Definition getPendingMutationsCount : Async nat :=
  queue <~ gets stored_queue ;;
  ret (length (unsynced queue)).

(** ** sync.ts *)

(** [REP_ID] of the configuration module. *)
Variable REP_ID : string.

Definition getCurrentRepId : string := REP_ID.

(** The value [getCurrentMonth] builds from the date it has read. *)
Definition currentMonth_of (now : JsDate) : string :=
  String_of (getFullYear now) ++ padStart2 (String_of (getMonth now + 1)).

Definition getCurrentMonth : Async string :=
  now <~ new_Date ;;
  ret (currentMonth_of now).

(** The value [getDateRange] builds from the date it has read. *)
Definition dateRange_of (now : JsDate) : string * string :=
  let currentMonth := getMonth now in
  let currentYear := getFullYear now in
  let prevMonth := if (currentMonth =? 0)%Z then 11%Z else (currentMonth - 1)%Z in
  let prevYear := if (currentMonth =? 0)%Z then (currentYear - 1)%Z else currentYear in
  let nextMonth := if (currentMonth =? 11)%Z then 0%Z else (currentMonth + 1)%Z in
  let nextYear := if (currentMonth =? 11)%Z then (currentYear + 1)%Z else currentYear in
  let startDate := String_of prevYear ++ "-" ++ padStart2 (String_of (prevMonth + 1)) ++ "-01" in
  let endDate := String_of nextYear ++ "-" ++ padStart2 (String_of (nextMonth + 1)) ++ "-01" in
  (startDate, endDate).

Definition getDateRange : Async (string * string) :=
  now <~ new_Date ;;
  ret (dateRange_of now).

(** [const { data, error } = await query; if (error) throw error;] *)
Definition fetch_rows (query : Request) : Async (list Row) :=
  r <~ supabase_call query ;;
  match error r with
  | Some e => throw (PgErr e)
  | None => ret (data r)
  end.

Definition clients_query : Request :=
  RSelect "clients" [FIn "status" [VStr "active"; VStr "inactive"]].

Definition budgets_query (repId : string) (currentMonth : Val) : Request :=
  RSelect "budgets" [FEq "rep_id" (VStr repId); FEq "month" currentMonth].

Definition rep_tasks_query (repId startDate endDate : string) : Request :=
  RSelect "rep_tasks"
    [FEq "rep_id" (VStr repId); FGte "end_date" (VStr startDate); FLt "end_date" (VStr endDate)].

Definition syncDown (repId : string) : Async Val :=
  online <~ gets isOnline ;;
  if negb online then throw (JsError "Cannot sync while offline") else
  try_catch
    (console_log "Starting sync down..." ;;;
     clients <~ fetch_rows clients_query ;;
     offlineStorage_setClients clients ;;;
     products <~ fetch_rows (RSelect "products" []) ;;
     offlineStorage_setProducts products ;;;
     clientProducts <~ fetch_rows (RSelect "client_products" []) ;;
     offlineStorage_setClientProducts clientProducts ;;;
     month <~ getCurrentMonth ;;
     let currentMonth := parseInt month in
     budgets <~ fetch_rows (budgets_query repId currentMonth) ;;
     offlineStorage_setBudgets budgets ;;;
     range <~ getDateRange ;;
     let startDate := fst range in
     let endDate := snd range in
     repTasks <~ fetch_rows (rep_tasks_query repId startDate endDate) ;;
     offlineStorage_setRepTasks repTasks ;;;
     clientFollowups <~ fetch_rows (RSelect "client_followups" []) ;;
     offlineStorage_setClientFollowups clientFollowups ;;;
     console_log "Sync down completed successfully" ;;;
     ret VUndefined)
    (fun error =>
       console_error "Sync down failed:" error ;;;
       throw error).

(** [!key] for [key?: string] *)
Definition no_key (key : option string) : bool :=
  match key with
  | None => true
  | Some k => String.eqb k ""
  end.

Definition key_filter (key : option string) : list Filter :=
  [FEq "id" (VStr (default "" key))].

Definition processMutation (mutation : MutationQueueItem) : Async unit :=
  let table := mq_table mutation in
  let operation := mq_operation mutation in
  let payload := mq_payload mutation in
  let key := mq_key mutation in
  match operation with
  | OpInsert =>
    r <~ supabase_call (RInsert table payload) ;;
    match error r with
    | Some insertError =>
      if String.eqb (code insertError) "23505"
      then console_log ("Duplicate key for " ++ table ++ ", treating as success")
      else throw (PgErr insertError)
    | None => ret tt
    end
  | OpUpdate =>
    if no_key key then throw (JsError "Update operation requires a key") else
    r <~ supabase_call (RUpdate table payload (key_filter key)) ;;
    match error r with
    | Some updateError => throw (PgErr updateError)
    | None => ret tt
    end
  | OpUpsert =>
    r <~ supabase_call (RUpsert table payload) ;;
    match error r with
    | Some upsertError => throw (PgErr upsertError)
    | None => ret tt
    end
  | OpDelete =>
    if no_key key then throw (JsError "Delete operation requires a key") else
    r <~ supabase_call (RDelete table (key_filter key)) ;;
    match error r with
    | Some deleteError => throw (PgErr deleteError)
    | None => ret tt
    end
  end.

(** The mutation handed back to [enqueueMutation] by the catch block. *)
Definition requeued (mutation : MutationQueueItem) : Mutation :=
  {| mu_table := mq_table mutation;
     mu_operation := mq_operation mutation;
     mu_payload := mq_payload mutation;
     mu_key := mq_key mutation |}.

(** The [while ((mutation = await dequeueMutation()) !== null)] loop, cut
    off after [fuel] iterations. *)
Fixpoint syncUp_loop (fuel : nat) (processedCount : nat) : Async nat :=
  match fuel with
  | O => fun w => (Unsettled, w)
  | S fuel' =>
    mutation <~ dequeueMutation ;;
    match mutation with
    | None => ret processedCount
    | Some mutation =>
      processedCount' <~
        try_catch
          (processMutation mutation ;;;
           markMutationSynced (mq_id mutation) ;;;
           ret (S processedCount))
          (fun error =>
             console_error ("Failed to sync mutation " ++ mq_id mutation ++ ":") error ;;;
             enqueueMutation (requeued mutation) ;;;
             throw error) ;;
      syncUp_loop fuel' processedCount'
    end
  end.

(** [syncUp(): Promise<void>].  Every iteration of the loop takes one
    entry off the queue and none is added unless the loop is left, so one
    more iteration than the queue is long is enough. *)
Definition syncUp : Async Val :=
  online <~ gets isOnline ;;
  if negb online then throw (JsError "Cannot sync while offline") else
  try_catch
    (console_log "Starting sync up..." ;;;
     queue <~ gets stored_queue ;;
     processedCount <~ syncUp_loop (S (length queue)) 0 ;;
     removeSyncedMutations ;;;
     console_log ("Sync up completed: " ++ pretty processedCount ++ " mutations processed") ;;;
     ret VUndefined)
    (fun error =>
       console_error "Sync up failed:" error ;;;
       throw error).

Definition isNetworkOnline : Async bool := gets isOnline.

(** The [online] and [offline] event listeners. *)
Definition on_online : Async unit :=
  modify (set_online true) ;;;
  console_log "Network connection restored" ;;;
  try_catch
    (syncUp ;;;
     syncDown getCurrentRepId ;;;
     ret tt)
    (fun error => console_error "Auto-sync failed:" error).

Definition on_offline : Async unit :=
  modify (set_online false) ;;;
  console_log "Network connection lost".

Definition withOfflineFallback {T} (supabaseOperation offlineOperation : Async T)
    (fallbackValue : T) : Async T :=
  online <~ gets isOnline ;;
  if negb online then
    try_catch offlineOperation
      (fun error =>
         console_warn "Offline operation failed:" error ;;;
         ret fallbackValue)
  else
    try_catch supabaseOperation
      (fun error =>
         console_warn "Supabase operation failed, falling back to offline:" error ;;;
         try_catch offlineOperation
           (fun offlineError =>
              console_warn "Offline fallback failed:" offlineError ;;;
              ret fallbackValue)).

(** ** VisitStart page: starting a visit *)

(** What the page shows or does besides its own state. *)
Inductive UiEvent :=
| ToastError (text : string)
| ToastSuccess (text : string)
| Navigate (url : string).

(** The React state of [VisitStart] that [handleStartVisit] reads or sets,
    with the toasts and navigations issued so far. *)
Record VisitStart := {
  selectedClient : option Client;
  activeVisit : option ActiveVisit;
  isStartingVisit : bool;
  ui : list UiEvent
}.

Definition emit (e : UiEvent) (st : VisitStart) : VisitStart :=
  {| selectedClient := selectedClient st; activeVisit := activeVisit st;
     isStartingVisit := isStartingVisit st; ui := ui st ++ [e] |}.

Definition setIsStartingVisit (b : bool) (st : VisitStart) : VisitStart :=
  {| selectedClient := selectedClient st; activeVisit := activeVisit st;
     isStartingVisit := b; ui := ui st |}.

Definition setActiveVisit (v : option ActiveVisit) (st : VisitStart) : VisitStart :=
  {| selectedClient := selectedClient st; activeVisit := v;
     isStartingVisit := isStartingVisit st; ui := ui st |}.

(** The [newVisit] object literal. *)
Definition newVisit_row (visitId clientId now : string) : Row :=
  list_to_map
    [("id", VStr visitId);
     ("rep_id", VStr REP_ID);
     ("client_id", VStr clientId);
     ("visit_date", VStr (split_T_0 now));
     ("check_in_time", VStr now);
     ("notes", VNull);
     ("created_at", VStr now);
     ("updated_at", VStr now)].

Definition handleStartVisit (st : VisitStart) : Async VisitStart :=
  match selectedClient st with
  | None => ret (emit (ToastError "Please select a client") st)
  | Some client =>
    match activeVisit st with
    | Some _ =>
      ret (emit (ToastError "Please end your current visit before starting a new one") st)
    | None =>
      let st := setIsStartingVisit true st in
      st' <~
        try_catch
          (visitId <~ uuidv4 ;;
           date <~ new_Date ;;
           let now := toISOString date in
           let newVisit := newVisit_row visitId (c_id client) now in
           let newActiveVisit :=
             {| visit_id := visitId; av_client_id := c_id client;
                start_time := now; notes := None |} in
           online <~ isNetworkOnline ;;
           st1 <~
             (if online then
                r <~ supabase_call (RInsert "visits" newVisit) ;;
                match error r with
                | Some e => throw (PgErr e)
                | None => ret (emit (ToastSuccess "Visit started successfully") st)
                end
              else
                enqueueMutation
                  {| mu_table := "visits"; mu_operation := OpInsert;
                     mu_payload := newVisit; mu_key := None |} ;;;
                ret (emit (ToastSuccess "Visit started (will sync when online)") st)) ;;
           offlineStorage_setActiveVisit (Some newActiveVisit) ;;;
           ret (emit (Navigate ("/visit/client?visit_id=" ++ visitId ++
                                "&client_id=" ++ c_id client))
                  (setActiveVisit (Some newActiveVisit) st1)))
          (fun error =>
             console_error "Failed to start visit:" error ;;;
             ret (emit (ToastError "Failed to start visit") st)) ;;
      ret (setIsStartingVisit false st')
    end
  end.

(** ** Runs in terms of which the properties are stated *)

(** Processing the entries of a list one after the other, in list order. *)
Fixpoint process_all (ms : list MutationQueueItem) : Async unit :=
  match ms with
  | [] => ret tt
  | m :: ms' => processMutation m ;;; process_all ms'
  end.

(** The entry [enqueueMutation (requeued m)] appends in world [w]. *)
Definition fresh_copy (m : MutationQueueItem) (w : World) : MutationQueueItem :=
  {| mq_id := uuid_src w (uuid_calls w);
     mq_table := mq_table m;
     mq_operation := mq_operation m;
     mq_payload := mq_payload m;
     mq_key := mq_key m;
     mq_timestamp := toISOString (clock w (clock_reads w));
     mq_synced := false |}.

(** The world with the stored queue replaced, everything else as it is. *)
Definition with_queue (qo : option (list MutationQueueItem)) (w : World) : World :=
  set_localforage
    (fun s => {| lf_rows := lf_rows s;
                 lf_active_visit := lf_active_visit s;
                 lf_mutation_queue := qo |}) w.

(** The world right after syncUp has logged that it starts. *)
Definition syncUp_started (w : World) : World := print (Log "Starting sync up...") w.

(** What the [markMutationSynced] calls for the entries of [done], made in
    order, leave of the entries [rest] still queued. *)
Definition marks (done rest : list MutationQueueItem) : list MutationQueueItem :=
  foldl (fun queue m => mark_in (mq_id m) queue) rest done.

(** Entries that differ in their [synced] flag at most. *)
Definition sim (m m' : MutationQueueItem) : Prop :=
  requeued m = requeued m' ∧ mq_id m = mq_id m'.

(** Writing fetched rows under their keys, one collection after the other. *)
Definition store_all (got : list (string * list Row)) (rows : gmap string (list Row))
    : gmap string (list Row) :=
  foldl (fun acc kv => <[kv.1 := kv.2]> acc) rows got.

(** The six fetches of [syncDown] in the order it makes them, each with the
    storage key its rows go to; [d1] and [d2] are the dates read for the
    budgets and the rep-tasks queries. *)
Definition syncDown_fetches (repId : string) (d1 d2 : JsDate) : list (string * Request) :=
  [ (STORAGE_KEYS.clients, clients_query);
    (STORAGE_KEYS.products, RSelect "products" []);
    (STORAGE_KEYS.client_products, RSelect "client_products" []);
    (STORAGE_KEYS.budgets, budgets_query repId (parseInt (currentMonth_of d1)));
    (STORAGE_KEYS.rep_tasks,
       rep_tasks_query repId (fst (dateRange_of d2)) (snd (dateRange_of d2)));
    (STORAGE_KEYS.client_followups, RSelect "client_followups" []) ].

(** Fetches run in order against the remote store up to the first error:
    the rows obtained before it, the error if there is one, and the store
    afterwards. *)
Fixpoint fetch_until_error (plan : list (string * Request)) (r : R)
    : list (string * list Row) * option PgError * R :=
  match plan with
  | [] => ([], None, r)
  | (key, query) :: rest =>
    let (resp, r') := rs_exec query r in
    match error resp with
    | Some e => ([], Some e, r')
    | None =>
      let '(got, err, r'') := fetch_until_error rest r' in
      ((key, data resp) :: got, err, r'')
    end
  end.

(** ** VisitClient page: updating the visit notes *)

(** The state of [VisitClient] that [handleNotesUpdate] reads: the
    [visit_id] search parameter and the notes being edited, with the toasts
    issued so far. *)
Record VisitClient := {
  visitId : option string;
  visitNotes : string;
  vc_ui : list UiEvent
}.

Definition vc_emit (e : UiEvent) (st : VisitClient) : VisitClient :=
  {| visitId := visitId st; visitNotes := visitNotes st; vc_ui := vc_ui st ++ [e] |}.

(** [{ notes: visitNotes }] *)
Definition notes_row (visitNotes : string) : Row := {[ "notes" := VStr visitNotes ]}.

Definition handleNotesUpdate (st : VisitClient) : Async VisitClient :=
  if no_key (visitId st) then ret st else
  try_catch
    (let updateData := notes_row (visitNotes st) in
     online <~ isNetworkOnline ;;
     (if online then
        r <~ supabase_call (RUpdate "visits" updateData (key_filter (visitId st))) ;;
        match error r with
        | Some e => throw (PgErr e)
        | None => ret tt
        end
      else
        enqueueMutation
          {| mu_table := "visits"; mu_operation := OpUpdate;
             mu_payload := updateData; mu_key := visitId st |}) ;;;
     ret (vc_emit (ToastSuccess "Notes updated") st))
    (fun error =>
       console_error "Failed to update notes:" error ;;;
       ret (vc_emit (ToastError "Failed to update notes") st)).

(** ** SyncButton: the manual sync *)

(** The React state of [SyncButton], with the toasts issued so far. *)
Record SyncButton := {
  isLoading : bool;
  pendingCount : nat;
  sb_isOnline : bool;
  sb_ui : list UiEvent
}.

Definition sb_emit (e : UiEvent) (st : SyncButton) : SyncButton :=
  {| isLoading := isLoading st; pendingCount := pendingCount st;
     sb_isOnline := sb_isOnline st; sb_ui := sb_ui st ++ [e] |}.

Definition setIsLoading (b : bool) (st : SyncButton) : SyncButton :=
  {| isLoading := b; pendingCount := pendingCount st;
     sb_isOnline := sb_isOnline st; sb_ui := sb_ui st |}.

Definition setPendingCount (n : nat) (st : SyncButton) : SyncButton :=
  {| isLoading := isLoading st; pendingCount := n;
     sb_isOnline := sb_isOnline st; sb_ui := sb_ui st |}.

Definition handleSync (st : SyncButton) : Async SyncButton :=
  if negb (sb_isOnline st) then
    ret (sb_emit (ToastError "Cannot sync while offline") st)
  else
    let st := setIsLoading true st in
    st' <~
      try_catch
        (syncUp ;;;
         syncDown REP_ID ;;;
         count <~ getPendingMutationsCount ;;
         ret (sb_emit (ToastSuccess "Sync completed successfully")
                (setPendingCount count st)))
        (fun error =>
           console_error "Sync failed:" error ;;;
           ret (sb_emit (ToastError "Sync failed. Please try again.") st)) ;;
    ret (setIsLoading false st').

(** ** Runs of the queue functions *)

(** Enqueueing mutations one after the other. *)
Fixpoint enqueue_all (mus : list Mutation) : Async unit :=
  match mus with
  | [] => ret tt
  | mu :: rest => enqueueMutation mu ;;; enqueue_all rest
  end.

(** Calling [dequeueMutation] up to [n] times, stopping at the first
    [null]: the entries that came out, in the order they came. *)
Fixpoint dequeue_n (n : nat) : Async (list MutationQueueItem) :=
  match n with
  | O => ret []
  | S n' =>
    item <~ dequeueMutation ;;
    match item with
    | None => ret []
    | Some m => rest <~ dequeue_n n' ;; ret (m :: rest)
    end
  end.

(** One call on the queue: the queue functions of offline.ts, and syncUp. *)
Inductive QueueCall :=
| CallEnqueue (mutation : Mutation)
| CallDequeue
| CallMarkSynced (mutationId : string)
| CallRemoveSynced
| CallSyncUp.

(** The world after a call, whatever its outcome. *)
Definition after_call (c : QueueCall) (w : World) : World :=
  match c with
  | CallEnqueue mutation => snd (enqueueMutation mutation w)
  | CallDequeue => snd (dequeueMutation w)
  | CallMarkSynced mutationId => snd (markMutationSynced mutationId w)
  | CallRemoveSynced => snd (removeSyncedMutations w)
  | CallSyncUp => snd (syncUp w)
  end.

Definition after_calls (cs : list QueueCall) (w : World) : World :=
  foldl (fun acc c => after_call c acc) w cs.

(** Requests that write: everything but a select. *)
Definition is_write (req : Request) : bool :=
  match req with
  | RSelect _ _ => false
  | _ => true
  end.

Definition is_select (req : Request) : bool := negb (is_write req).

(** What a drain leaves alone: the online flag, the cached collections,
    the active-visit marker and the uuid and date sources. *)
Definition drain_frame (w w' : World) : Prop :=
  isOnline w' = isOnline w ∧
  lf_rows (localforage w') = lf_rows (localforage w) ∧
  lf_active_visit (localforage w') = lf_active_visit (localforage w) ∧
  uuid_src w' = uuid_src w ∧
  clock w' = clock w.

(** The ids in the queue are distinct and were all drawn from the uuid
    source. *)
Definition ids_drawn (u : nat → string) (w : World) : Prop :=
  uuid_src w = u ∧
  NoDup (mq_id <$> stored_queue w) ∧
  ∀ id, id ∈ mq_id <$> stored_queue w → ∃ i, (i < uuid_calls w)%nat ∧ id = u i.

(** The request [processMutation] builds for an entry. *)
Definition request_for (m : MutationQueueItem) : Request :=
  match mq_operation m with
  | OpInsert => RInsert (mq_table m) (mq_payload m)
  | OpUpdate => RUpdate (mq_table m) (mq_payload m) (key_filter (mq_key m))
  | OpUpsert => RUpsert (mq_table m) (mq_payload m)
  | OpDelete => RDelete (mq_table m) (key_filter (mq_key m))
  end.

(** An update or a delete whose key is missing or empty. *)
Definition keyless (m : MutationQueueItem) : bool :=
  match mq_operation m with
  | OpUpdate | OpDelete => no_key (mq_key m)
  | _ => false
  end.

(** The error [processMutation] throws for a keyless entry. *)
Definition key_required (op : Operation) : Exn :=
  match op with
  | OpDelete => JsError "Delete operation requires a key"
  | _ => JsError "Update operation requires a key"
  end.

(** The world after [n] runs of syncUp in a row. *)
Definition after_syncUps (n : nat) (w : World) : World :=
  Nat.iter n (fun acc => snd (syncUp acc)) w.

End Engine.

Arguments World R : clear implicits.
Arguments Async R A : clear implicits.

(** ** An in-memory remote store

    A reference implementation of [RemoteStore]: named tables of rows with
    [id] as primary key, the query-builder filters evaluated row by row,
    and a fault plan naming the requests the store rejects. *)

(** [a <= b] and [a < b] as the store compares a column with a literal:
    numbers by value, text in lexicographic order. *)
Definition val_leb (a b : Val) : bool :=
  match a, b with
  | VNum x, VNum y => (x <=? y)%Z
  | VStr x, VStr y => String.leb x y
  | _, _ => false
  end.

Definition val_ltb (a b : Val) : bool :=
  match a, b with
  | VNum x, VNum y => (x <? y)%Z
  | VStr x, VStr y => String.ltb x y
  | _, _ => false
  end.

Definition matches (row : Row) (f : Filter) : bool :=
  match f with
  | FEq col v => bool_decide (row !! col = Some v)
  | FIn col vs =>
    match row !! col with
    | Some x => bool_decide (x ∈ vs)
    | None => false
    end
  | FGte col v =>
    match row !! col with
    | Some x => val_leb v x
    | None => false
    end
  | FLt col v =>
    match row !! col with
    | Some x => val_ltb x v
    | None => false
    end
  end.

Definition matches_all (filters : list Filter) (row : Row) : bool :=
  forallb (matches row) filters.

Record MemRemote := {
  tables : gmap string (list Row);
  faults : Request -> option PgError
}.

Definition rows_of (r : MemRemote) (table : string) : list Row :=
  default [] (tables r !! table).

Definition with_rows (table : string) (rows : list Row) (r : MemRemote) : MemRemote :=
  {| tables := <[table := rows]> (tables r); faults := faults r |}.

(** Two rows carry the same primary key. *)
Definition same_id (a b : Row) : bool :=
  match a !! "id", b !! "id" with
  | Some x, Some y => bool_decide (x = y)
  | _, _ => false
  end.

Definition duplicate_key : PgError :=
  {| code := "23505"; message := "duplicate key value violates unique constraint" |}.

Definition ok (rows : list Row) : Response := {| data := rows; error := None |}.
Definition failed (e : PgError) : Response := {| data := []; error := Some e |}.

Definition mem_exec (req : Request) (r : MemRemote) : Response * MemRemote :=
  match faults r req with
  | Some e => (failed e, r)
  | None =>
    match req with
    | RSelect table filters =>
      (ok (List.filter (matches_all filters) (rows_of r table)), r)
    | RInsert table payload =>
      if existsb (same_id payload) (rows_of r table)
      then (failed duplicate_key, r)
      else (ok [], with_rows table (rows_of r table ++ [payload]) r)
    | RUpdate table payload filters =>
      (ok [], with_rows table
                (map (fun row => if matches_all filters row then payload ∪ row else row)
                     (rows_of r table)) r)
    | RUpsert table payload =>
      if existsb (same_id payload) (rows_of r table)
      then (ok [], with_rows table
                     (map (fun row => if same_id payload row then payload else row)
                          (rows_of r table)) r)
      else (ok [], with_rows table (rows_of r table ++ [payload]) r)
    | RDelete table filters =>
      (ok [], with_rows table
                (List.filter (fun row => negb (matches_all filters row)) (rows_of r table)) r)
    end
  end.

#[global] Instance MemRemote_store : RemoteStore MemRemote := {| rs_exec := mem_exec |}.

(** ** Typed rows and calendar dates *)

Definition opt_str (o : option string) : Val :=
  match o with
  | Some x => VStr x
  | None => VNull
  end.

Definition status_str (st : ClientStatus) : string :=
  match st with
  | active => "active"
  | inactive => "inactive"
  end.

(** A [Client] as the row the remote store holds for it. *)
Definition client_row (c : Client) : Row :=
  list_to_map
    [("id", VStr (c_id c));
     ("name", VStr (c_name c));
     ("email", opt_str (c_email c));
     ("phone", opt_str (c_phone c));
     ("address", opt_str (c_address c));
     ("status", VStr (status_str (c_status c)));
     ("created_at", VStr (c_created_at c))].

(** [YYYY-MM-DD] for a year, a month index (0 to 11) and a day. *)
Definition iso_date (year month day : Z) : string :=
  String_of year ++ "-" ++ padStart2 (String_of (month + 1)) ++ "-" ++ padStart2 (String_of day).

(** Year and month index of the calendar month before and after a date. *)
Definition previous_month (now : JsDate) : Z * Z :=
  if (getMonth now =? 0)%Z then ((getFullYear now - 1)%Z, 11%Z)
  else (getFullYear now, (getMonth now - 1)%Z).

Definition next_month (now : JsDate) : Z * Z :=
  if (getMonth now =? 11)%Z then ((getFullYear now + 1)%Z, 0%Z)
  else (getFullYear now, (getMonth now + 1)%Z).

Definition first_day_of_previous_month (now : JsDate) : string :=
  iso_date (previous_month now).1 (previous_month now).2 1.

Definition first_day_of_next_month (now : JsDate) : string :=
  iso_date (next_month now).1 (next_month now).2 1.

(** The window of the specification, in its words: from one month before
    the current date (the same day of the previous month) up to, and
    excluding, one month after it. *)
Definition one_month_ago (now : JsDate) : string :=
  iso_date (previous_month now).1 (previous_month now).2 (getDate now).

Definition one_month_ahead (now : JsDate) : string :=
  iso_date (next_month now).1 (next_month now).2 (getDate now).

Definition in_spec_window (repId : string) (now : JsDate) (row : Row) : bool :=
  matches_all
    [FEq "rep_id" (VStr repId);
     FGte "end_date" (VStr (one_month_ago now));
     FLt "end_date" (VStr (one_month_ahead now))] row.

(** ** order-utils.ts: order totals and the RPC payload

    The functions only combine JS numbers with the operations below, so
    the arithmetic stays a parameter: what is shown about them holds for
    IEEE doubles as for any other reading of the operations. *)

Class JsNumber (Num : Type) := {
  num_0 : Num;
  num_1 : Num;
  num_100 : Num;
  num_add : Num -> Num -> Num;
  num_sub : Num -> Num -> Num;
  num_mul : Num -> Num -> Num;
  num_div : Num -> Num -> Num;
  Math_max : Num -> Num -> Num;
  Math_min : Num -> Num -> Num;
  (** truthiness of a number: false on 0, -0 and NaN *)
  num_truthy : Num -> bool
}.

Module OrderUtils.

Section WithNumbers.

Context {Num : Type} `{JsNumber Num}.

Record UIOrderItem := {
  id : string;
  product_id : string;
  quantity : Num;
  unit_price : Num;
  is_free : option bool;          (* is_free?: boolean *)
  is_free_stock : option bool;    (* is_free_stock?: boolean *)
  free_stock_reason : Val
}.

Record Order := {
  paid_total : Num;
  free_stock_total : Num;
  discount_value : Num;
  order_is_free_stock : bool
}.

Record OrderTotalsResult := {
  order : Order;
  orderItems : list UIOrderItem;
  paidSubtotal : Num;
  freeStockTotal : Num;
  discountValue : Num;
  grandTotal : Num
}.

Record RpcItem := {
  rpc_product_id : string;
  rpc_quantity : Num;
  price : Num
}.

(** Truthiness of an optional boolean field. *)
Definition truthy (flag : option bool) : bool :=
  match flag with Some b => b | None => false end.

(** [x || 0] *)
Definition or_0 (x : Num) : Num := if num_truthy x then x else num_0.

Definition normalizeFreeFlag (item : UIOrderItem) : UIOrderItem :=
  let isFree :=
    match is_free item with
    | Some b => b
    | None => match is_free_stock item with Some b => b | None => false end
    end in
  {| id := id item; product_id := product_id item; quantity := quantity item;
     unit_price := unit_price item;
     is_free := Some (negb (negb isFree));
     is_free_stock := is_free_stock item;
     free_stock_reason := free_stock_reason item |}.

(** The reducer of both subtotals. *)
Definition add_line (sum : Num) (i : UIOrderItem) : Num :=
  num_add sum (num_mul (quantity i) (or_0 (unit_price i))).

(** [Math.max(0, Math.min(100, discountPercent))] *)
Definition clamp_percent (discountPercent : Num) : Num :=
  Math_max num_0 (Math_min num_100 discountPercent).

Definition calculateOrderTotals (orderItemsIn : list UIOrderItem)
    (discountPercent : option Num) : OrderTotalsResult :=
  let discountPercent := default num_0 discountPercent in
  let items := map normalizeFreeFlag orderItemsIn in
  let paidItems := List.filter (fun i => negb (truthy (is_free i))) items in
  let freeItems := List.filter (fun i => truthy (is_free i)) items in
  let paidSubtotal := fold_left add_line paidItems num_0 in
  let freeStockTotal := fold_left add_line freeItems num_0 in
  let discountValue :=
    num_mul paidSubtotal (num_div (clamp_percent discountPercent) num_100) in
  let grandTotal := num_sub paidSubtotal discountValue in
  let isEntireOrderFree :=
    (0 <? length items)%nat && forallb (fun i => truthy (is_free i)) items in
  {| order := {| paid_total := paidSubtotal;
                 free_stock_total := freeStockTotal;
                 discount_value := discountValue;
                 order_is_free_stock := isEntireOrderFree |};
     orderItems := items;
     paidSubtotal := paidSubtotal;
     freeStockTotal := freeStockTotal;
     discountValue := discountValue;
     grandTotal := grandTotal |}.

Definition buildRpcItems (orderItemsIn : list UIOrderItem)
    (discountPercent : Num) : list RpcItem :=
  let items := map normalizeFreeFlag orderItemsIn in
  let factor := num_sub num_1 (num_div (clamp_percent discountPercent) num_100) in
  map (fun i => {| rpc_product_id := product_id i;
                   rpc_quantity := quantity i;
                   price := if truthy (is_free i) then num_0
                            else num_mul (or_0 (unit_price i)) factor |})
      items.

(** The lines of an order that are paid for. *)
Definition paid_lines (orderItemsIn : list UIOrderItem) : list UIOrderItem :=
  List.filter (fun i => negb (truthy (is_free (normalizeFreeFlag i)))) orderItemsIn.

End WithNumbers.

Arguments UIOrderItem Num : clear implicits.
Arguments Order Num : clear implicits.
Arguments OrderTotalsResult Num : clear implicits.
Arguments RpcItem Num : clear implicits.

End OrderUtils.

(** ** Concrete devices and remote stores *)

Module Scenario.

(** 15 November 2026, and the date of the entries queued the day before. *)
Definition mid_november : JsDate :=
  {| getFullYear := 2026; getMonth := 10; getDate := 15;
     toISOString := "2026-11-15T08:00:00.000Z" |}.

Definition entry (id table : string) (op : Operation) (payload : Row) (key : option string)
    : MutationQueueItem :=
  {| mq_id := id; mq_table := table; mq_operation := op; mq_payload := payload;
     mq_key := key; mq_timestamp := "2026-11-14T17:30:00.000Z"; mq_synced := false |}.

Definition store (rows : gmap string (list Row)) (marker : option ActiveVisit)
    (queue : option (list MutationQueueItem)) : LocalForage :=
  {| lf_rows := rows; lf_active_visit := marker; lf_mutation_queue := queue |}.

Definition device (online : bool) (s : LocalForage) (remote : MemRemote) : World MemRemote :=
  {| isOnline := online; localforage := s; supabase := remote;
     uuid_src := fun n => "uuid-" ++ pretty n; uuid_calls := 0;
     clock := fun _ => mid_november; clock_reads := 0;
     requests := []; console := [] |}.

Definition no_faults : Request → option PgError := fun _ => None.

Definition permission_denied : PgError :=
  {| code := "42501"; message := "permission denied for table orders" |}.

(** A store that refuses every insert into [orders]. *)
Definition orders_refused : Request → option PgError :=
  fun req =>
    match req with
    | RInsert table _ => if String.eqb table "orders" then Some permission_denied else None
    | _ => None
    end.

(** A store that refuses every request on [products]. *)
Definition products_down : Request → option PgError :=
  fun req =>
    match req with
    | RSelect table _ => if String.eqb table "products" then Some permission_denied else None
    | _ => None
    end.

Definition acme : Row := list_to_map [("id", VStr "c1"); ("name", VStr "Acme")].
Definition order7 : Row := list_to_map [("id", VStr "o7"); ("client_id", VStr "c1")].

Definition A : MutationQueueItem := entry "a" "orders" OpInsert order7 None.
Definition B : MutationQueueItem := entry "b" "clients" OpInsert acme None.

(** The copy of [A] that a requeue on this device appends. *)
Definition A_again : MutationQueueItem :=
  {| mq_id := "uuid-0"; mq_table := "orders"; mq_operation := OpInsert;
     mq_payload := order7; mq_key := None;
     mq_timestamp := "2026-11-15T08:00:00.000Z"; mq_synced := false |}.

(** Queue [A, B] against a store on which processing [A] fails. *)
Definition w_requeue : World MemRemote :=
  device true (store ∅ None (Some [A; B])) {| tables := ∅; faults := orders_refused |}.

(** One queued insert of a row the remote store already holds. *)
Definition w_duplicate : World MemRemote :=
  device true (store ∅ None (Some [B]))
    {| tables := {["clients" := [acme]]}; faults := no_faults |}.

(** One queued insert that the remote store accepts. *)
Definition w_one_insert : World MemRemote :=
  device true (store ∅ None (Some [B])) {| tables := ∅; faults := no_faults |}.

(** Queue [B, A] against a store that accepts both. *)
Definition w_two_inserts : World MemRemote :=
  device true (store ∅ None (Some [B; A])) {| tables := ∅; faults := no_faults |}.

Definition client (id name : string) (st : ClientStatus) : Client :=
  {| c_id := id; c_name := name; c_email := None; c_phone := None; c_address := None;
     c_status := st; c_created_at := "2026-01-05T09:00:00.000Z" |}.

Definition three_clients : list Client :=
  [client "c1" "Acme" active; client "c2" "Bolt" inactive; client "c3" "Cord" active].

Definition stale_product : Row := list_to_map [("id", VStr "p0"); ("name", VStr "Old")].

Definition stale_rows : gmap string (list Row) :=
  {[ "clients" := [acme]; "products" := [stale_product]; "budgets" := [acme] ]}.

(** A remote store with three clients and nothing else, pulled onto a
    device whose cache is not empty. *)
Definition w_pull : World MemRemote :=
  device true (store stale_rows None (Some [B]))
    {| tables := {["clients" := client_row <$> three_clients]}; faults := no_faults |}.

(** The same pull with the products fetch failing. *)
Definition w_pull_fails : World MemRemote :=
  device true (store stale_rows None (Some [B]))
    {| tables := {["clients" := client_row <$> three_clients]}; faults := products_down |}.

(** An offline device with a queue and a cache. *)
Definition w_offline : World MemRemote :=
  device false (store stale_rows None (Some [A; B]))
    {| tables := ∅; faults := no_faults |}.

(** The clients read of the VisitStart page: remote first, cache second. *)
Definition read_clients_remote : Async MemRemote (list Row) :=
  fetch_rows (RSelect "clients" [FEq "status" (VStr "active")]).

Definition read_clients_local : Async MemRemote (list Row) :=
  offlineStorage_getClients.

Definition task (id repId due : string) : Row :=
  list_to_map [("id", VStr id); ("rep_id", VStr repId); ("end_date", VStr due)].

Definition task_early_october : Row := task "t1" "rep1" "2026-10-05".
Definition task_december : Row := task "t2" "rep1" "2026-12-10".
Definition task_november : Row := task "t3" "rep1" "2026-11-20".
Definition task_other_rep : Row := task "t4" "rep2" "2026-11-20".

(** Tasks due before, within and after the month around 15 November. *)
Definition w_tasks : World MemRemote :=
  device true (store ∅ None None)
    {| tables := {["rep_tasks" :=
                     [task_early_october; task_december; task_november; task_other_rep]]};
       faults := no_faults |}.

Definition visit_in_progress : ActiveVisit :=
  {| visit_id := "v0"; av_client_id := "c2";
     start_time := "2026-11-15T07:00:00.000Z"; notes := None |}.

(** A device whose store holds an active visit. *)
Definition w_visiting : World MemRemote :=
  device true (store ∅ (Some visit_in_progress) None)
    {| tables := ∅; faults := no_faults |}.

(** The page with a client selected: once knowing of the visit in
    progress, once with a state that does not show it. *)
Definition page_aware : VisitStart :=
  {| selectedClient := Some (client "c1" "Acme" active);
     activeVisit := Some visit_in_progress;
     isStartingVisit := false; ui := [] |}.

Definition page_unaware : VisitStart :=
  {| selectedClient := Some (client "c1" "Acme" active);
     activeVisit := None;
     isStartingVisit := false; ui := [] |}.

End Scenario.

(** ** Further devices, pages and orders *)

Module Cases.

Import Scenario.

(** An online and an offline device with nothing stored. *)
Definition w_online_empty : World MemRemote :=
  device true (store ∅ None None) {| tables := ∅; faults := no_faults |}.

Definition w_offline_empty : World MemRemote :=
  device false (store ∅ None None) {| tables := ∅; faults := no_faults |}.

(** The insert that starting a visit with [page_unaware] on these devices
    sends or queues. *)
Definition visit_insert : Request :=
  RInsert "visits" (newVisit_row "rep1" "uuid-0" "c1" "2026-11-15T08:00:00.000Z").

(** A queue that holds one entry already flagged as synced. *)
Definition w_flagged : World MemRemote :=
  device true (store ∅ None (Some [with_synced B])) {| tables := ∅; faults := no_faults |}.

(** An update queued without a key. *)
Definition K : MutationQueueItem := entry "k" "visits" OpUpdate (notes_row "moved") None.

Definition w_keyless : World MemRemote :=
  device true (store ∅ None (Some [K])) {| tables := ∅; faults := no_faults |}.

(** Calls on the queue of a device whose remote store refuses orders. *)
Definition w_orders_refused : World MemRemote :=
  device true (store ∅ None None) {| tables := ∅; faults := orders_refused |}.

Definition calls : list QueueCall :=
  [CallEnqueue (requeued A); CallEnqueue (requeued B); CallSyncUp;
   CallMarkSynced "uuid-2"; CallEnqueue (requeued A); CallDequeue; CallRemoveSynced].

(** A clients table with an active client, a row whose status is null
    and an inactive client that carries a further column. *)
Definition lead : Row :=
  list_to_map [("id", VStr "c5"); ("name", VStr "Echo"); ("status", VNull)].

Definition visited_client : Row :=
  <["last_visit_date" := VStr "2026-11-10"]> (client_row (client "c4" "Dune" inactive)).

Definition w_mixed_clients : World MemRemote :=
  device true (store ∅ None None)
    {| tables := {["clients" := [client_row (client "c1" "Acme" active); lead; visited_client]]};
       faults := no_faults |}.

(** The sync button of a device that is online, and the notes form of a
    visit. *)
Definition button : SyncButton :=
  {| isLoading := false; pendingCount := 1; sb_isOnline := true; sb_ui := [] |}.

Definition notes_form : VisitClient :=
  {| visitId := Some "v1"; visitNotes := "moved to Friday"; vc_ui := [] |}.

(** Rational numbers as the numbers of an order. *)
#[export] Instance Q_numbers : JsNumber QArith_base.Q := {|
  num_0 := QArith_base.Qmake 0 1;
  num_1 := QArith_base.Qmake 1 1;
  num_100 := QArith_base.Qmake 100 1;
  num_add := QArith_base.Qplus;
  num_sub := QArith_base.Qminus;
  num_mul := QArith_base.Qmult;
  num_div := QArith_base.Qdiv;
  Math_max := Qminmax.Qmax;
  Math_min := Qminmax.Qmin;
  num_truthy := fun x => negb (QArith_base.Qeq_bool x (QArith_base.Qmake 0 1))
|}.

(** Two cases at 50 each, and one case given as free stock. *)
Definition paid_line : OrderUtils.UIOrderItem QArith_base.Q :=
  {| OrderUtils.id := "l1"; OrderUtils.product_id := "p1";
     OrderUtils.quantity := QArith_base.Qmake 2 1;
     OrderUtils.unit_price := QArith_base.Qmake 50 1;
     OrderUtils.is_free := None; OrderUtils.is_free_stock := None;
     OrderUtils.free_stock_reason := VUndefined |}.

Definition free_line : OrderUtils.UIOrderItem QArith_base.Q :=
  {| OrderUtils.id := "l2"; OrderUtils.product_id := "p2";
     OrderUtils.quantity := QArith_base.Qmake 1 1;
     OrderUtils.unit_price := QArith_base.Qmake 30 1;
     OrderUtils.is_free := None; OrderUtils.is_free_stock := Some true;
     OrderUtils.free_stock_reason := VStr "launch promotion" |}.

Definition basket : list (OrderUtils.UIOrderItem QArith_base.Q) := [paid_line; free_line].

End Cases.

Arguments String_of : simpl never.
Arguments padStart2 : simpl never.
Arguments parseInt : simpl never.
Arguments currentMonth_of : simpl never.
Arguments dateRange_of : simpl never.
Arguments iso_date : simpl never.

(** * Properties *)

Section EngineFacts.

Context {R : Type} `{RemoteStore R}.

Implicit Types (w : World R) (m : MutationQueueItem).

(** ** Offline entry points *)

(** C5: while the online flag is false, syncUp and syncDown both reject at
    once with the error "Cannot sync while offline" and leave the world as
    it was: no request is sent, nothing is dequeued, and the queue and the
    cached collections are unchanged. *)
Theorem sync_offline_fails_fast (repId : string) w :
  isOnline w = false →
  syncUp w = (Rejected (JsError "Cannot sync while offline"), w) ∧
  syncDown repId w = (Rejected (JsError "Cannot sync while offline"), w).
Proof.
  intros Hoff. unfold syncUp, syncDown, bind, gets.
  rewrite Hoff. split; reflexivity.
Qed.

(** ** The offline-fallback read wrapper *)

(** C6: withOfflineFallback never rejects.  Offline, its result does not
    depend on the remote operation (which is never run): it is the local
    operation's value, or the fallback value when the local operation
    throws.  Online, it is the remote operation's value when that resolves,
    otherwise the local operation's value, otherwise the fallback value. *)
Theorem withOfflineFallback_absorbs_errors {T} (remoteOp localOp : Async R T)
    (fallbackValue : T) w :
  (∀ e, fst (withOfflineFallback remoteOp localOp fallbackValue w) ≠ Rejected e) ∧
  (isOnline w = false →
    (∀ otherOp : Async R T,
       withOfflineFallback otherOp localOp fallbackValue w =
       withOfflineFallback remoteOp localOp fallbackValue w) ∧
    (∀ a w', localOp w = (Resolved a, w') →
       withOfflineFallback remoteOp localOp fallbackValue w = (Resolved a, w')) ∧
    (∀ e w', localOp w = (Rejected e, w') →
       fst (withOfflineFallback remoteOp localOp fallbackValue w) = Resolved fallbackValue)) ∧
  (isOnline w = true →
    (∀ a w', remoteOp w = (Resolved a, w') →
       withOfflineFallback remoteOp localOp fallbackValue w = (Resolved a, w')) ∧
    (∀ e w1 a w2, remoteOp w = (Rejected e, w1) →
       localOp (print (Warn "Supabase operation failed, falling back to offline:" e) w1)
         = (Resolved a, w2) →
       withOfflineFallback remoteOp localOp fallbackValue w = (Resolved a, w2)) ∧
    (∀ e w1 e2 w2, remoteOp w = (Rejected e, w1) →
       localOp (print (Warn "Supabase operation failed, falling back to offline:" e) w1)
         = (Rejected e2, w2) →
       fst (withOfflineFallback remoteOp localOp fallbackValue w) = Resolved fallbackValue)).
Proof.
  unfold withOfflineFallback, bind, gets, try_catch, console_warn, modify, ret.
  split; [| split].
  - intros e. destruct (isOnline w); cbn.
    + destruct (remoteOp w) as [[a | e1 |] w1]; cbn; try discriminate.
      destruct (localOp _) as [[a | e2 |] w2]; cbn; discriminate.
    + destruct (localOp w) as [[a | e1 |] w1]; cbn; discriminate.
  - intros ->. cbn. split; [reflexivity |]. split.
    + intros a w' ->. reflexivity.
    + intros e w' ->. reflexivity.
  - intros ->. cbn. split; [| split].
    + intros a w' ->. reflexivity.
    + intros e w1 a w2 -> ->. reflexivity.
    + intros e w1 e2 w2 -> ->. reflexivity.
Qed.

(** ** The mutation queue drain *)

Lemma sim_refl m : sim m m.
Proof. split; reflexivity. Qed.

Lemma sim_all_refl (l : list MutationQueueItem) : Forall2 sim l l.
Proof. induction l as [| m l IH]; constructor; [apply sim_refl | exact IH]. Qed.

Lemma sim_with_synced m m' : sim m m' → sim m (with_synced m').
Proof. intros [Hr Hi]. split; [rewrite Hr | rewrite Hi]; reflexivity. Qed.

Lemma sim_mark_in id pre pre' :
  Forall2 sim pre pre' → Forall2 sim pre (mark_in id pre').
Proof.
  induction 1 as [| m m' pre pre' Hm _ IH]; cbn; constructor; [| exact IH].
  destruct (String.eqb (mq_id m') id); [apply sim_with_synced |]; exact Hm.
Qed.

Lemma mark_in_app id q1 q2 :
  mark_in id (q1 ++ q2)%list = (mark_in id q1 ++ mark_in id q2)%list.
Proof. apply map_app. Qed.

Lemma mark_in_absent id q : id ∉ mq_id <$> q → mark_in id q = q.
Proof.
  unfold mark_in. induction q as [| m q IH]; cbn; [reflexivity |].
  intros Hnotin. apply not_elem_of_cons in Hnotin as [Hne Hq].
  rewrite (IH Hq). destruct (String.eqb_spec (mq_id m) id); [congruence | reflexivity].
Qed.

Lemma marks_absent pre rest :
  (∀ m, m ∈ pre → mq_id m ∉ mq_id <$> rest) → marks pre rest = rest.
Proof.
  unfold marks. induction pre as [| m pre IH]; cbn; intros Hd; [reflexivity |].
  rewrite mark_in_absent by (apply Hd; left).
  apply IH. intros m' Hm'. apply Hd. right. exact Hm'.
Qed.

Lemma marks_sim pre : ∀ post l, Forall2 sim post l → Forall2 sim post (marks pre l).
Proof.
  unfold marks. induction pre as [| m pre IH]; intros post l Hl; cbn.
  - exact Hl.
  - apply IH, sim_mark_in, Hl.
Qed.

Lemma marks_length pre : ∀ l, length (marks pre l) = length l.
Proof.
  unfold marks. induction pre as [| m pre IH]; intros l; cbn; [reflexivity |].
  rewrite IH. unfold mark_in. apply length_map.
Qed.

Lemma marks_nil pre : marks pre [] = [].
Proof. unfold marks. induction pre as [| m pre IH]; cbn; [reflexivity | exact IH]. Qed.

Lemma marks_cons_sim pre e post :
  ∃ e', marks pre (e :: post) = e' :: marks pre post ∧ sim e e'.
Proof.
  unfold marks. revert e post. induction pre as [| m pre IH]; intros e post; cbn.
  - exists e. split; [reflexivity | apply sim_refl].
  - destruct (IH (if String.eqb (mq_id e) (mq_id m) then with_synced e else e)
                 (mark_in (mq_id m) post)) as (e' & Heq & Hsim).
    exists e'. split; [exact Heq |].
    destruct (String.eqb (mq_id e) (mq_id m)); [| exact Hsim].
    destruct Hsim as [Hr Hi]. split; [rewrite <- Hr | rewrite <- Hi]; reflexivity.
Qed.

(** [processMutation] reads the entry's table, operation, payload and key
    only. *)
Lemma processMutation_sim m m' : sim m m' → processMutation m' = processMutation m.
Proof.
  intros [Hr _]. unfold processMutation.
  rewrite <- (f_equal mu_table Hr : mq_table m = mq_table m').
  rewrite <- (f_equal mu_operation Hr : mq_operation m = mq_operation m').
  rewrite <- (f_equal mu_payload Hr : mq_payload m = mq_payload m').
  rewrite <- (f_equal mu_key Hr : mq_key m = mq_key m').
  reflexivity.
Qed.

(** [processMutation] neither reads nor writes the stored queue. *)
Lemma processMutation_with_queue m qo w :
  processMutation m (with_queue qo w) =
  (fst (processMutation m w), with_queue qo (snd (processMutation m w))).
Proof.
  unfold processMutation, bind, supabase_call, throw, ret, console_log, modify.
  destruct (mq_operation m); cbn;
    try (destruct (no_key (mq_key m)); [reflexivity |]); cbn;
    match goal with |- context [rs_exec ?q (supabase w)] =>
      destruct (rs_exec q (supabase w)) as [resp r'] end; cbn;
    destruct (error resp) as [e |]; try reflexivity.
  destruct (String.eqb (code e) "23505"); reflexivity.
Qed.

Lemma process_all_with_queue ms qo w :
  process_all ms (with_queue qo w) =
  (fst (process_all ms w), with_queue qo (snd (process_all ms w))).
Proof.
  revert w. induction ms as [| m ms IH]; intros w; cbn; [reflexivity |].
  unfold bind. rewrite processMutation_with_queue.
  destruct (processMutation m w) as [[[] | e |] w']; cbn; try reflexivity.
  apply IH.
Qed.

Lemma with_queue_stored w : with_queue (lf_mutation_queue (localforage w)) w = w.
Proof. destruct w as [o [rows av q] r us uc c cr rq co]. reflexivity. Qed.

Lemma with_queue_twice qo qo' w : with_queue qo (with_queue qo' w) = with_queue qo w.
Proof. reflexivity. Qed.

(** The loop, run over a prefix of the queue whose entries are all
    processed successfully: it has made one iteration per entry, counted
    each, and left queued what the marks leave of the rest. *)
Lemma syncUp_loop_prefix pre :
  ∀ pre' rest fuel n w w1,
    stored_queue w = (pre' ++ rest)%list →
    Forall2 sim pre pre' →
    process_all pre w = (Resolved tt, w1) →
    ∃ qo,
      syncUp_loop (length pre + fuel) n w =
        syncUp_loop fuel (length pre + n) (with_queue qo w1) ∧
      default [] qo = marks pre rest.
Proof.
  induction pre as [| m pre IH]; intros pre' rest fuel n w w1 Hq Hsim Hrun.
  - apply Forall2_nil_inv_l in Hsim as ->. cbn in Hrun. injection Hrun as <-.
    exists (lf_mutation_queue (localforage w)). split.
    + rewrite with_queue_stored. reflexivity.
    + exact Hq.
  - apply Forall2_cons_inv_l in Hsim as (m' & pre'' & Hm & Hpre & ->).
    cbn in Hrun. unfold bind in Hrun.
    destruct (processMutation m w) as [[[] | e |] wm] eqn:Hpm; try discriminate.
    set (wB := with_queue (Some (mark_in (mq_id m') (pre'' ++ rest)%list)) wm).
    destruct (IH (mark_in (mq_id m') pre'') (mark_in (mq_id m') rest) fuel (S n) wB
                 (with_queue (Some (mark_in (mq_id m') (pre'' ++ rest)%list)) w1))
      as (qo & Hloop & Hqo).
    + unfold wB. cbn. apply mark_in_app.
    + apply sim_mark_in. exact Hpre.
    + unfold wB. rewrite process_all_with_queue, Hrun. reflexivity.
    + exists qo. split.
      * replace (length (m :: pre) + n) with (length pre + S n) by (cbn; lia).
        rewrite with_queue_twice in Hloop.
        rewrite <- Hloop. cbn [length Nat.add syncUp_loop].
        unfold bind at 1. unfold dequeueMutation at 1. unfold bind at 1.
        unfold gets at 1. rewrite Hq. cbn [app].
        unfold bind at 1. unfold put_queue at 1, modify at 1. unfold ret at 1.
        unfold bind at 1. unfold try_catch at 1. unfold bind at 1.
        rewrite (processMutation_sim m m' Hm).
        change (set_localforage (set_mutation_queue (pre'' ++ rest)%list) w)
          with (with_queue (Some (pre'' ++ rest)%list) w).
        rewrite processMutation_with_queue, Hpm. cbn [fst snd].
        reflexivity.
      * destruct Hm as [_ Hid]. unfold marks in *. cbn. rewrite Hid. exact Hqo.
Qed.

Lemma syncUp_loop_empty fuel n w :
  stored_queue w = [] → syncUp_loop (S fuel) n w = (Resolved n, w).
Proof.
  intros Hq. cbn [syncUp_loop]. unfold bind, dequeueMutation, bind, gets.
  rewrite Hq. reflexivity.
Qed.

(** A drain in which every entry is processed successfully: syncUp
    resolves with [undefined], the queue is stored empty, and the number of
    entries is in the closing console line. *)
Lemma syncUp_full_drain w q w1 :
  isOnline w = true →
  stored_queue w = q →
  process_all q (syncUp_started w) = (Resolved tt, w1) →
  syncUp w =
    (Resolved VUndefined,
     print (Log ("Sync up completed: " ++ pretty (length q) ++ " mutations processed"))
       (with_queue (Some []) w1)).
Proof.
  intros Hon Hq Hrun.
  destruct (syncUp_loop_prefix q q [] 1 0 (syncUp_started w) w1) as (qo & Hloop & Hqo).
  - rewrite app_nil_r. exact Hq.
  - apply sim_all_refl.
  - exact Hrun.
  - rewrite marks_nil in Hqo.
    rewrite syncUp_loop_empty in Hloop by (destruct qo; exact Hqo).
    unfold syncUp. unfold bind at 1. unfold gets at 1. rewrite Hon. cbn [negb].
    unfold try_catch. unfold bind at 1. unfold console_log at 1, modify at 1.
    fold (syncUp_started w). unfold bind at 1. unfold gets at 1.
    change (stored_queue (syncUp_started w)) with (stored_queue w). rewrite Hq.
    unfold bind at 1. rewrite <- Nat.add_1_r, Hloop.
    rewrite Nat.add_0_r.
    unfold removeSyncedMutations, bind, gets, put_queue, console_log, modify, ret.
    change (stored_queue (with_queue qo w1)) with (default [] qo). rewrite Hqo.
    reflexivity.
Qed.

(** C1: when the entries before [e] are processed successfully, in queue
    order, and processing [e] throws, syncUp rejects with that error; [e]
    has left the head of the queue, the entries behind it are still queued
    and unprocessed, and a fresh entry with the table, operation, payload
    and key of [e], the id and timestamp drawn at that moment and
    synced=false sits at the tail.  Nothing was sent to the remote store
    after the failure.  With distinct ids in the queue the entries behind
    [e] are exactly as they were. *)
Theorem syncUp_requeues_failed_entry w pre e post w1 w2 exn :
  isOnline w = true →
  stored_queue w = (pre ++ e :: post)%list →
  process_all pre (syncUp_started w) = (Resolved tt, w1) →
  processMutation e w1 = (Rejected exn, w2) →
  let w3 := print (Error ("Failed to sync mutation " ++ mq_id e ++ ":") exn) w2 in
  let w' := print (Error "Sync up failed:" exn)
              (with_queue (Some (marks pre post ++ [fresh_copy e w3])%list)
                 (read_clock (draw_uuid w3))) in
  syncUp w = (Rejected exn, w') ∧
  stored_queue w' = (marks pre post ++ [fresh_copy e w3])%list ∧
  Forall2 sim post (marks pre post) ∧
  (NoDup (mq_id <$> (pre ++ e :: post)%list) →
   stored_queue w' = (post ++ [fresh_copy e w3])%list) ∧
  supabase w' = supabase w2 ∧
  requests w' = requests w2.
Proof.
  intros Hon Hq Hrun Hfail w3 w'.
  split; [| split; [reflexivity | split; [| split; [| split; reflexivity]]]].
  - destruct (syncUp_loop_prefix pre pre (e :: post) (S (S (length post))) 0
                (syncUp_started w) w1 Hq (sim_all_refl pre) Hrun) as (qo & Hloop & Hqo).
    destruct (marks_cons_sim pre e post) as (e' & Hcons & [Hr Hi]).
    rewrite Hcons in Hqo.
    unfold syncUp. unfold bind at 1. unfold gets at 1. rewrite Hon. cbn [negb].
    unfold try_catch at 1. unfold bind at 1. unfold console_log at 1, modify at 1.
    fold (syncUp_started w). unfold bind at 1. unfold gets at 1.
    change (stored_queue (syncUp_started w)) with (stored_queue w). rewrite Hq.
    unfold bind at 1.
    replace (S (length (pre ++ e :: post)))
      with (length pre + S (S (length post))) by (rewrite length_app; cbn; lia).
    rewrite Hloop. cbn [syncUp_loop].
    unfold bind at 1. unfold dequeueMutation at 1. unfold bind at 1. unfold gets at 1.
    change (stored_queue (with_queue qo w1)) with (default [] qo). rewrite Hqo.
    unfold bind at 1. unfold put_queue at 1, modify at 1. unfold ret at 1.
    unfold bind at 1. unfold try_catch at 1. unfold bind at 1.
    change (set_localforage (set_mutation_queue (marks pre post)) (with_queue qo w1))
      with (with_queue (Some (marks pre post)) w1).
    rewrite (processMutation_sim e e' (conj Hr Hi)).
    rewrite processMutation_with_queue, Hfail. cbn [fst snd].
    rewrite <- Hr, <- Hi. reflexivity.
  - apply marks_sim, sim_all_refl.
  - intros Hnd. change (stored_queue w') with (marks pre post ++ [fresh_copy e w3])%list.
    rewrite marks_absent; [reflexivity |].
    rewrite fmap_app in Hnd. apply NoDup_app in Hnd as (_ & Hdis & _).
    intros m Hm Hin. apply (Hdis (mq_id m)).
    + apply list_elem_of_fmap. exists m. split; [reflexivity | exact Hm].
    + cbn. right. exact Hin.
Qed.

(** C2: an insert that the remote store refuses with a duplicate-key
    conflict counts as applied: processing it resolves.  With such an entry
    alone in the queue, syncUp resolves and leaves the queue empty, and a
    second syncUp resolves as well, sends nothing and leaves it empty. *)
Theorem syncUp_duplicate_insert_idempotent w m resp r' err :
  isOnline w = true →
  mq_operation m = OpInsert →
  rs_exec (RInsert (mq_table m) (mq_payload m)) (supabase w) = (resp, r') →
  error resp = Some err →
  code err = "23505" →
  fst (processMutation m w) = Resolved tt ∧
  (stored_queue w = [m] →
   ∃ w1 w2,
     syncUp w = (Resolved VUndefined, w1) ∧ stored_queue w1 = [] ∧
     syncUp w1 = (Resolved VUndefined, w2) ∧ stored_queue w2 = [] ∧
     requests w2 = requests w1).
Proof.
  intros Hon Hop Hexec Herr Hcode.
  assert (Hpm : ∀ w0, supabase w0 = supabase w →
            processMutation m w0 =
            (Resolved tt,
             print (Log ("Duplicate key for " ++ mq_table m ++ ", treating as success"))
               (set_remote r' (RInsert (mq_table m) (mq_payload m)) w0))).
  { intros w0 Hw0. unfold processMutation. rewrite Hop.
    unfold bind, supabase_call. rewrite Hw0, Hexec, Herr, Hcode. reflexivity. }
  split.
  - rewrite (Hpm w eq_refl). reflexivity.
  - intros Hq.
    pose proof (syncUp_full_drain w [m] _ Hon Hq
                  (ltac:(cbn; unfold bind; rewrite (Hpm (syncUp_started w) eq_refl);
                         reflexivity))) as Hfirst.
    eexists. eexists. split; [exact Hfirst |]. split; [reflexivity |].
    split.
    + match goal with |- syncUp ?w1 = _ =>
        apply (syncUp_full_drain w1 [] (syncUp_started w1) Hon eq_refl eq_refl) end.
    + split; reflexivity.
Qed.

(** C3, as the code has it: on a fully successful drain while online,
    syncUp resolves with no value; the queue is stored empty, and the
    number of mutations processed in the invocation is written to the
    console in the closing line, which is the only place it goes. *)
Theorem syncUp_resolves_undefined_and_logs_count w q w1 :
  isOnline w = true →
  stored_queue w = q →
  process_all q (syncUp_started w) = (Resolved tt, w1) →
  fst (syncUp w) = Resolved VUndefined ∧
  stored_queue (snd (syncUp w)) = [] ∧
  console (snd (syncUp w)) =
    (console w1 ++
     [Log ("Sync up completed: " ++ pretty (length q) ++ " mutations processed")])%list.
Proof.
  intros Hon Hq Hrun. rewrite (syncUp_full_drain w q w1 Hon Hq Hrun).
  split; [reflexivity |]. split; reflexivity.
Qed.

(** C7, as the code has it: an entry leaves the stored queue when it is
    dequeued, before it is processed, and markMutationSynced runs on a
    queue that no longer holds it.  A drain cut off after [k] entries were
    processed successfully has stored the entries not yet dequeued and no
    others; with distinct ids they are as they were, so none of the
    processed entries is kept, flagged or not, and nothing is flagged that
    was not flagged before. *)
Theorem processed_entries_are_not_kept w q (k : nat) w1 :
  stored_queue w = q →
  (k ≤ length q)%nat →
  process_all (take k q) w = (Resolved tt, w1) →
  ∃ w',
    syncUp_loop k 0 w = (Unsettled, w') ∧
    stored_queue w' = marks (take k q) (drop k q) ∧
    length (stored_queue w') = (length q - k)%nat ∧
    (NoDup (mq_id <$> q) →
     stored_queue w' = drop k q ∧
     (∀ m, m ∈ take k q → m ∉ stored_queue w') ∧
     ((∀ m, m ∈ q → mq_synced m = false) →
      ∀ m, m ∈ stored_queue w' → mq_synced m = false)).
Proof.
  intros Hq Hk Hrun.
  destruct (syncUp_loop_prefix (take k q) (take k q) (drop k q) 0 0 w w1)
    as (qo & Hloop & Hqo).
  - rewrite take_drop. exact Hq.
  - apply sim_all_refl.
  - exact Hrun.
  - rewrite length_take, Nat.min_l, Nat.add_0_r in Hloop by exact Hk.
    exists (with_queue qo w1). split; [exact Hloop |].
    assert (Hst : stored_queue (with_queue qo w1) = marks (take k q) (drop k q))
      by exact Hqo.
    rewrite Hst. split; [reflexivity |]. split.
    + rewrite marks_length. apply length_drop.
    + intros Hnd.
      rewrite <- (take_drop k q), fmap_app in Hnd.
      apply NoDup_app in Hnd as (_ & Hdis & _).
      rewrite marks_absent.
      2:{ intros m Hm. apply Hdis. apply list_elem_of_fmap. exists m.
          split; [reflexivity | exact Hm]. }
      split; [reflexivity |]. split.
      * intros m Hm Hin. apply (Hdis (mq_id m)); apply list_elem_of_fmap; exists m; split;
          (reflexivity || assumption).
      * intros Hall m Hm. apply Hall. rewrite <- (take_drop k q). apply elem_of_app.
        right. exact Hm.
Qed.

(** ** Sync-down *)

Lemma store_all_lookup_other got (rows : gmap string (list Row)) key :
  key ∉ got.*1 → store_all got rows !! key = rows !! key.
Proof.
  unfold store_all. revert rows. induction got as [| [k v] got IH]; intros rows Hk; cbn.
  - reflexivity.
  - cbn in Hk. apply not_elem_of_cons in Hk as [Hne Hk].
    rewrite (IH _ Hk). apply lookup_insert_ne. congruence.
Qed.

Lemma store_all_lookup_written got (rows : gmap string (list Row)) key v :
  NoDup got.*1 → (key, v) ∈ got → store_all got rows !! key = Some v.
Proof.
  revert rows. induction got as [| [k v'] got IH]; intros rows Hnd Hin.
  - inversion Hin.
  - cbn in Hnd. apply NoDup_cons in Hnd as [Hk Hnd].
    apply elem_of_cons in Hin as [Heq | Hin].
    + injection Heq as -> ->.
      change (store_all ((k, v') :: got) rows) with (store_all got (<[k := v']> rows)).
      rewrite (store_all_lookup_other _ _ _ Hk). apply lookup_insert_eq.
    + apply (IH _ Hnd Hin).
Qed.

(** The rows obtained are those of the first fetches of the plan, and all
    fetches were made exactly when there was no error. *)
Lemma fetch_until_error_keys plan :
  ∀ (r : R) got err r',
    fetch_until_error plan r = (got, err, r') →
    got.*1 = take (length got) plan.*1 ∧
    (err = None → length got = length plan) ∧
    (err ≠ None → (length got < length plan)%nat).
Proof.
  induction plan as [| [key query] plan IH]; intros r got err r' Hrun; cbn in Hrun.
  - injection Hrun as <- <- <-. cbn.
    split; [reflexivity |]. split; [reflexivity | congruence].
  - destruct (rs_exec query r) as [resp r1].
    destruct (error resp) as [e |].
    + injection Hrun as <- <- <-. cbn.
      split; [reflexivity |]. split; [discriminate | intros _; lia].
    + destruct (fetch_until_error plan r1) as [[got1 err1] r2] eqn:Hrest.
      injection Hrun as <- <- <-.
      destruct (IH _ _ _ _ Hrest) as (Hkeys & Hnone & Hsome).
      cbn. split; [| split].
      * f_equal. exact Hkeys.
      * intros He. f_equal. apply Hnone, He.
      * intros He. specialize (Hsome He). lia.
Qed.

(** syncDown, online, as the run of its six fetches. *)
Lemma syncDown_run repId w got err r' :
  isOnline w = true →
  fetch_until_error
    (syncDown_fetches repId (clock w (clock_reads w)) (clock w (S (clock_reads w))))
    (supabase w) = (got, err, r') →
  fst (syncDown repId w) =
    match err with
    | None => Resolved VUndefined
    | Some e => Rejected (PgErr e)
    end ∧
  lf_rows (localforage (snd (syncDown repId w))) = store_all got (lf_rows (localforage w)) ∧
  lf_active_visit (localforage (snd (syncDown repId w))) = lf_active_visit (localforage w) ∧
  lf_mutation_queue (localforage (snd (syncDown repId w)))
    = lf_mutation_queue (localforage w) ∧
  supabase (snd (syncDown repId w)) = r' ∧
  isOnline (snd (syncDown repId w)) = true ∧
  requests (snd (syncDown repId w)) =
    (requests w ++
     take (length got + match err with Some _ => 1 | None => 0 end)
       (syncDown_fetches repId (clock w (clock_reads w)) (clock w (S (clock_reads w)))).*2)%list.
Proof.
  intros Hon Hrun.
  destruct (syncDown repId w) as [o wf] eqn:Hsd. cbn [fst snd].
  unfold syncDown in Hsd. unfold bind at 1 in Hsd. unfold gets at 1 in Hsd.
  rewrite Hon in Hsd. cbn [negb] in Hsd.
  unfold syncDown_fetches in Hrun. cbn [fetch_until_error] in Hrun.
  revert Hrun Hsd.
  unfold fetch_rows, supabase_call, console_log, console_error,
    offlineStorage_setClients, offlineStorage_setProducts, offlineStorage_setClientProducts,
    offlineStorage_setBudgets, offlineStorage_setRepTasks, offlineStorage_setClientFollowups,
    setData, getCurrentMonth, getDateRange, new_Date, store_all.
  unfold try_catch, bind, modify, ret, throw.
  cbn.
  repeat
    (match goal with
     | |- context [rs_exec ?q ?r] =>
       let resp := fresh "resp" in
       let r1 := fresh "r" in
       destruct (rs_exec q r) as [resp r1]; cbn;
       destruct (error resp) as [? |]; cbn
     end;
     try (intros Hrun Hsd; injection Hrun as <- <- <-; injection Hsd as <- <-;
          cbn; repeat split;
          first [reflexivity | exact Hon | rewrite <- ?app_assoc; reflexivity])).
Qed.

(** The keys syncDown writes are distinct, so a collection it has written
    is not written again. *)
Lemma syncDown_fetched_keys_distinct repId d1 d2 (r : R) got err r' :
  fetch_until_error (syncDown_fetches repId d1 d2) r = (got, err, r') →
  NoDup got.*1.
Proof.
  intros Hrun. destruct (fetch_until_error_keys _ _ _ _ _ Hrun) as (Hkeys & _).
  rewrite Hkeys. eapply sublist_NoDup; [| apply sublist_take].
  apply NoDup_ListNoDup. repeat constructor; cbn; intuition discriminate.
Qed.

Lemma syncDown_written repId w got err r' :
  isOnline w = true →
  fetch_until_error
    (syncDown_fetches repId (clock w (clock_reads w)) (clock w (S (clock_reads w))))
    (supabase w) = (got, err, r') →
  ∀ key rows, (key, rows) ∈ got →
    lf_rows (localforage (snd (syncDown repId w))) !! key = Some rows.
Proof.
  intros Hon Hrun key rows Hin.
  destruct (syncDown_run repId w got err r' Hon Hrun) as (_ & Hrows & _).
  rewrite Hrows. apply store_all_lookup_written; [| exact Hin].
  exact (syncDown_fetched_keys_distinct _ _ _ _ _ _ _ Hrun).
Qed.

(** C4: online, syncDown makes its six fetches in order until one fails.
    It resolves when none fails and rejects with the error of the first
    that does.  Every collection fetched before that holds exactly the rows
    its fetch returned, whatever it held before; every other collection,
    the active-visit marker and the mutation queue are as they were.  The
    requests sent are the fetches up to and including the failing one. *)
Theorem syncDown_overwrites_fetched_collections repId w got err r' :
  isOnline w = true →
  fetch_until_error
    (syncDown_fetches repId (clock w (clock_reads w)) (clock w (S (clock_reads w))))
    (supabase w) = (got, err, r') →
  let w' := snd (syncDown repId w) in
  fst (syncDown repId w) =
    match err with
    | None => Resolved VUndefined
    | Some e => Rejected (PgErr e)
    end ∧
  got.*1 = take (length got)
             [STORAGE_KEYS.clients; STORAGE_KEYS.products; STORAGE_KEYS.client_products;
              STORAGE_KEYS.budgets; STORAGE_KEYS.rep_tasks; STORAGE_KEYS.client_followups] ∧
  (err = None ↔ length got = 6%nat) ∧
  (∀ key rows, (key, rows) ∈ got → lf_rows (localforage w') !! key = Some rows) ∧
  (∀ key, key ∉ got.*1 →
     lf_rows (localforage w') !! key = lf_rows (localforage w) !! key) ∧
  lf_active_visit (localforage w') = lf_active_visit (localforage w) ∧
  lf_mutation_queue (localforage w') = lf_mutation_queue (localforage w) ∧
  requests w' =
    (requests w ++
     take (length got + match err with Some _ => 1 | None => 0 end)
       (syncDown_fetches repId (clock w (clock_reads w)) (clock w (S (clock_reads w)))).*2)%list.
Proof.
  intros Hon Hrun w'.
  destruct (syncDown_run repId w got err r' Hon Hrun)
    as (Hout & Hrows & Hav & Hqueue & _ & _ & Hreq).
  destruct (fetch_until_error_keys _ _ _ _ _ Hrun) as (Hkeys & Hnone & Hsome).
  cbn in Hkeys, Hnone, Hsome.
  split; [exact Hout |]. split; [exact Hkeys |]. split.
  { split; [exact Hnone |]. intros Hlen. destruct err as [e |]; [| reflexivity].
    assert (length got < 6)%nat by (apply Hsome; discriminate). lia. }
  split.
  { exact (syncDown_written repId w got err r' Hon Hrun). }
  split.
  { intros key Hkey. subst w'. rewrite Hrows. apply store_all_lookup_other, Hkey. }
  split; [assumption |]. split; assumption.
Qed.

(** ** Termination of the drain *)

Lemma processMutation_settles m w : fst (processMutation m w) ≠ Unsettled.
Proof.
  unfold processMutation, bind, supabase_call, throw, ret, console_log, modify.
  destruct (mq_operation m); cbn;
    try (destruct (no_key (mq_key m)); [discriminate |]); cbn;
    match goal with |- context [rs_exec ?q (supabase w)] =>
      destruct (rs_exec q (supabase w)) as [resp r'] end; cbn;
    destruct (error resp) as [e |]; try discriminate.
  destruct (String.eqb (code e) "23505"); discriminate.
Qed.

Lemma syncUp_loop_settles fuel :
  ∀ n w, (length (stored_queue w) < fuel)%nat → fst (syncUp_loop fuel n w) ≠ Unsettled.
Proof.
  induction fuel as [| fuel IH]; intros n w Hlen; [lia |].
  cbn [syncUp_loop]. unfold bind at 1. unfold dequeueMutation at 1.
  unfold bind at 1. unfold gets at 1.
  destruct (stored_queue w) as [| m rest] eqn:Hq; [discriminate |].
  unfold bind at 1. unfold put_queue at 1, modify at 1. unfold ret at 1.
  unfold bind at 1. unfold try_catch at 1. unfold bind at 1.
  change (set_localforage (set_mutation_queue rest) w) with (with_queue (Some rest) w).
  rewrite processMutation_with_queue.
  pose proof (processMutation_settles m w) as Hset.
  destruct (processMutation m w) as [[[] | e |] wm]; cbn [fst snd] in *.
  - unfold bind, markMutationSynced, bind, gets, put_queue, modify, ret.
    apply IH. cbn. unfold mark_in. rewrite length_map. cbn in Hlen. lia.
  - discriminate.
  - congruence.
Qed.

(** syncUp always settles: the loop is never cut off. *)
Lemma syncUp_settles w : fst (syncUp w) ≠ Unsettled.
Proof.
  unfold syncUp. unfold bind at 1. unfold gets at 1.
  destruct (isOnline w); cbn [negb]; [| discriminate].
  unfold try_catch. unfold bind at 1. unfold console_log at 1, modify at 1.
  unfold bind at 1. unfold gets at 1. unfold bind at 1.
  pose proof (syncUp_loop_settles (S (length (stored_queue (print (Log "Starting sync up...") w))))
                0 (print (Log "Starting sync up...") w) (Nat.lt_succ_diag_r _)) as Hloop.
  destruct (syncUp_loop _ 0 _) as [[n | e |] wl]; cbn [fst] in Hloop.
  - discriminate.
  - discriminate.
  - congruence.
Qed.

(** ** Starting a visit *)

Variable REP_ID : string.

(** C10, as the code has it: when the page's activeVisit state is
    non-null, handleStartVisit only shows an error toast.  The world is
    left as it was: no request reaches the remote store, nothing is
    enqueued and the stored active-visit marker is not overwritten; the
    page keeps its active visit. *)
Theorem handleStartVisit_rejects_while_visit_active (st : VisitStart) w v :
  activeVisit st = Some v →
  ∃ text,
    handleStartVisit REP_ID st w = (Resolved (emit (ToastError text) st), w) ∧
    activeVisit (emit (ToastError text) st) = Some v ∧
    (selectedClient st ≠ None →
     text = "Please end your current visit before starting a new one").
Proof.
  intros Hactive. unfold handleStartVisit.
  destruct (selectedClient st) as [client |].
  - rewrite Hactive. eexists. split; [reflexivity |]. split; [exact Hactive | reflexivity].
  - eexists. split; [reflexivity |]. split; [exact Hactive | congruence].
Qed.

End EngineFacts.

(** ** Sync-down against the in-memory store *)

Section MemRemoteFacts.

Implicit Types (w : World MemRemote) (r : MemRemote).

Lemma dateRange_of_months now :
  dateRange_of now = (first_day_of_previous_month now, first_day_of_next_month now).
Proof.
  unfold dateRange_of, first_day_of_previous_month, first_day_of_next_month,
    previous_month, next_month, iso_date.
  destruct (getMonth now =? 0)%Z, (getMonth now =? 11)%Z; reflexivity.
Qed.

(** A select that the store does not refuse returns the matching rows and
    leaves the store as it is. *)
Lemma mem_select r table filters :
  faults r (RSelect table filters) = None →
  rs_exec (RSelect table filters) r =
    (ok (List.filter (matches_all filters) (rows_of r table)), r).
Proof. intros Hf. cbn. unfold mem_exec. rewrite Hf. reflexivity. Qed.

Lemma mem_select_error r table filters :
  error (rs_exec (RSelect table filters) r).1 = None →
  faults r (RSelect table filters) = None.
Proof.
  cbn. unfold mem_exec. destruct (faults r (RSelect table filters)); [discriminate | reflexivity].
Qed.

(** The rows a successful syncDown has fetched from the in-memory store. *)
Lemma mem_fetched repId d1 d2 r got r' :
  fetch_until_error (syncDown_fetches repId d1 d2) r = (got, None, r') →
  got =
    [ (STORAGE_KEYS.clients,
         List.filter (matches_all [FIn "status" [VStr "active"; VStr "inactive"]])
           (rows_of r "clients"));
      (STORAGE_KEYS.products, List.filter (matches_all []) (rows_of r "products"));
      (STORAGE_KEYS.client_products,
         List.filter (matches_all []) (rows_of r "client_products"));
      (STORAGE_KEYS.budgets,
         List.filter
           (matches_all [FEq "rep_id" (VStr repId); FEq "month" (parseInt (currentMonth_of d1))])
           (rows_of r "budgets"));
      (STORAGE_KEYS.rep_tasks,
         List.filter
           (matches_all [FEq "rep_id" (VStr repId);
                         FGte "end_date" (VStr (dateRange_of d2).1);
                         FLt "end_date" (VStr (dateRange_of d2).2)])
           (rows_of r "rep_tasks"));
      (STORAGE_KEYS.client_followups,
         List.filter (matches_all []) (rows_of r "client_followups")) ].
Proof.
  unfold syncDown_fetches, clients_query, budgets_query, rep_tasks_query.
  cbn [fetch_until_error].
  repeat
    (match goal with
     | |- context [rs_exec (RSelect ?t ?fs) r] =>
       destruct (faults r (RSelect t fs)) as [e |] eqn:Hf;
       [ cbn; unfold mem_exec; rewrite Hf; cbn; discriminate
       | rewrite (mem_select r t fs Hf); clear Hf; cbn [error ok] ]
     end).
  intros Hrun. injection Hrun as <- _. reflexivity.
Qed.

Lemma syncDown_resolved_online repId w :
  fst (syncDown repId w) = Resolved VUndefined → isOnline w = true.
Proof.
  unfold syncDown, bind, gets. destruct (isOnline w); [reflexivity | discriminate].
Qed.

(** What a successful syncDown has cached under a key it fetched. *)
Lemma mem_syncDown_cached repId w :
  fst (syncDown repId w) = Resolved VUndefined →
  ∃ got r',
    fetch_until_error
      (syncDown_fetches repId (clock w (clock_reads w)) (clock w (S (clock_reads w))))
      (supabase w) = (got, None, r') ∧
    ∀ key rows, (key, rows) ∈ got →
      lf_rows (localforage (snd (syncDown repId w))) !! key = Some rows.
Proof.
  intros Hok. pose proof (syncDown_resolved_online _ _ Hok) as Hon.
  destruct (fetch_until_error
              (syncDown_fetches repId (clock w (clock_reads w)) (clock w (S (clock_reads w))))
              (supabase w)) as [[got err] r'] eqn:Hrun.
  destruct (syncDown_run repId w got err r' Hon Hrun) as (Hout & _).
  rewrite Hok in Hout. destruct err as [e |]; [discriminate |].
  exists got, r'. split; [reflexivity |].
  exact (syncDown_written repId w got None r' Hon Hrun).
Qed.

Lemma client_row_fetched (c : Client) :
  matches_all [FIn "status" [VStr "active"; VStr "inactive"]] (client_row c) = true.
Proof. destruct c as [? ? ? ? ? [] ?]; reflexivity. Qed.

Lemma status_filter_matches (row : Row) :
  matches_all [FIn "status" [VStr "active"; VStr "inactive"]] row = true ↔
  row !! "status" = Some (VStr "active") ∨ row !! "status" = Some (VStr "inactive").
Proof.
  cbn [matches_all forallb matches]. rewrite andb_true_r.
  destruct (row !! "status") as [x |]; [| split; [discriminate | intros [? | ?]; discriminate]].
  rewrite bool_decide_eq_true. split.
  - intros Hin. apply elem_of_cons in Hin as [-> | Hin]; [left; reflexivity |].
    apply elem_of_cons in Hin as [-> | Hin]; [right; reflexivity |].
    inversion Hin.
  - intros [Heq | Heq]; injection Heq as ->; [left | right; left].
Qed.

(** C8, as the code has it: the clients fetch keeps the rows whose status
    is active or inactive.  After a successful syncDown the cached clients
    collection is the remote clients table filtered on that condition, in
    the order of the table: every row of the table whose status is
    'active' or 'inactive' is cached, whatever its other columns, and
    nothing else is.  A table that holds the rows of typed clients only is
    therefore cached entirely. *)
Theorem syncDown_caches_active_and_inactive_clients (repId : string) w :
  fst (syncDown repId w) = Resolved VUndefined →
  ∃ cached,
    lf_rows (localforage (snd (syncDown repId w))) !! STORAGE_KEYS.clients = Some cached ∧
    cached = List.filter (matches_all [FIn "status" [VStr "active"; VStr "inactive"]])
               (rows_of (supabase w) "clients") ∧
    (∀ row, row ∈ rows_of (supabase w) "clients" →
       row !! "status" = Some (VStr "active") ∨ row !! "status" = Some (VStr "inactive") →
       row ∈ cached) ∧
    (∀ row, row ∈ cached →
       row ∈ rows_of (supabase w) "clients" ∧
       (row !! "status" = Some (VStr "active") ∨ row !! "status" = Some (VStr "inactive"))) ∧
    (∀ cs : list Client,
       rows_of (supabase w) "clients" = client_row <$> cs → cached = client_row <$> cs).
Proof.
  intros Hok.
  destruct (mem_syncDown_cached repId w Hok) as (got & r' & Hrun & Hwritten).
  apply mem_fetched in Hrun.
  eexists. split; [apply Hwritten; rewrite Hrun; left |].
  split; [reflexivity |]. split; [| split].
  - intros row Hin Hstatus. apply list_elem_of_In, filter_In.
    split; [apply list_elem_of_In, Hin | apply status_filter_matches, Hstatus].
  - intros row Hrow. apply list_elem_of_In, filter_In in Hrow as [Hin Hm].
    split; [apply list_elem_of_In, Hin | apply status_filter_matches, Hm].
  - intros cs Hrows. rewrite Hrows. apply forallb_filter_id.
    clear. induction cs as [| c cs IH]; [reflexivity |].
    cbn [fmap list_fmap forallb]. rewrite client_row_fetched. exact IH.
Qed.

Lemma ascii_compare_refl (c : Ascii.ascii) : Ascii.compare c c = Eq.
Proof. unfold Ascii.compare. apply N.compare_refl. Qed.

Lemma string_compare_app (p s t : string) :
  String.compare (p ++ s) (p ++ t) = String.compare s t.
Proof.
  induction p as [| c p IH]; [reflexivity |].
  change (String.compare (String c (p ++ s)) (String c (p ++ t)) = String.compare s t).
  cbn [String.compare]. rewrite ascii_compare_refl. exact IH.
Qed.

(** Text below a bound is below every bound that is not smaller. *)
Lemma string_ltb_leb_trans (s a b : string) :
  String.ltb s a = true → String.leb a b = true → String.ltb s b = true.
Proof.
  unfold String.ltb, String.leb. revert a b.
  induction s as [| c s IH]; intros [| ca a] [| cb b]; cbn; try discriminate; try reflexivity.
  unfold Ascii.compare.
  destruct (N.compare_spec (Ascii.N_of_ascii c) (Ascii.N_of_ascii ca)) as [Hc | Hc | Hc];
    destruct (N.compare_spec (Ascii.N_of_ascii ca) (Ascii.N_of_ascii cb)) as [Ha | Ha | Ha];
    try discriminate.
  - rewrite Hc, Ha, N.compare_refl. apply IH.
  - rewrite Hc. rewrite (proj2 (N.compare_lt_iff _ _) Ha). reflexivity.
  - rewrite <- Ha. rewrite (proj2 (N.compare_lt_iff _ _) Hc). reflexivity.
  - rewrite (proj2 (N.compare_lt_iff _ _) (N.lt_trans _ _ _ Hc Ha)). reflexivity.
Qed.

Lemma first_day_leb_day (day : Z) :
  (1 ≤ day ≤ 31)%Z →
  String.leb (padStart2 (String_of 1)) (padStart2 (String_of day)) = true.
Proof.
  intros Hday.
  assert (Hcases : ∃ n : nat, (n < 31)%nat ∧ day = (1 + Z.of_nat n)%Z).
  { exists (Z.to_nat (day - 1)). lia. }
  destruct Hcases as (n & Hn & ->).
  do 31 (destruct n as [| n]; [vm_compute; reflexivity |]). lia.
Qed.

(** The first day of a month is not after any day of that month. *)
Lemma iso_date_first_day_leb (year month day : Z) :
  (1 ≤ day ≤ 31)%Z →
  String.leb (iso_date year month 1) (iso_date year month day) = true.
Proof.
  intros Hday. unfold iso_date, String.leb.
  rewrite string_compare_app.
  rewrite (string_compare_app "-").
  rewrite string_compare_app.
  rewrite (string_compare_app "-").
  exact (first_day_leb_day day Hday).
Qed.

Lemma matches_FLt_weaken (row : Row) (col a b : string) :
  String.leb a b = true →
  matches row (FLt col (VStr a)) = true → matches row (FLt col (VStr b)) = true.
Proof.
  intros Hab. cbn [matches]. destruct (row !! col) as [[| | | n | x] |]; cbn; try discriminate.
  intros Hlt. exact (string_ltb_leb_trans x a b Hlt Hab).
Qed.

(** C9, as the code has it: a successful syncDown caches the rows its
    rep-tasks fetch returned.  Each of them is a remote task of [repId] due
    on or after the first day of the calendar month before the current
    one and before the first day of the next calendar month, hence before
    one month ahead of the current date; and every remote task of [repId]
    due from that first day up to, and excluding, the first day of the
    next calendar month is among them.  [now] is the date read by
    getDateRange. *)
Theorem syncDown_caches_rep_tasks_by_month (repId : string) w :
  fst (syncDown repId w) = Resolved VUndefined →
  let now := clock w (S (clock_reads w)) in
  ∃ cached,
    lf_rows (localforage (snd (syncDown repId w))) !! STORAGE_KEYS.rep_tasks = Some cached ∧
    (∀ row, row ∈ cached →
       row ∈ rows_of (supabase w) "rep_tasks" ∧
       row !! "rep_id" = Some (VStr repId) ∧
       matches row (FGte "end_date" (VStr (first_day_of_previous_month now))) = true ∧
       matches row (FLt "end_date" (VStr (first_day_of_next_month now))) = true ∧
       ((1 ≤ getDate now ≤ 31)%Z →
        matches row (FLt "end_date" (VStr (one_month_ahead now))) = true)) ∧
    (∀ row, row ∈ rows_of (supabase w) "rep_tasks" →
       row !! "rep_id" = Some (VStr repId) →
       matches row (FGte "end_date" (VStr (first_day_of_previous_month now))) = true →
       matches row (FLt "end_date" (VStr (first_day_of_next_month now))) = true →
       row ∈ cached).
Proof.
  intros Hok now.
  destruct (mem_syncDown_cached repId w Hok) as (got & r' & Hrun & Hwritten).
  apply mem_fetched in Hrun. fold now in Hrun.
  rewrite (dateRange_of_months now) in Hrun. cbn [fst snd] in Hrun.
  eexists. split.
  - apply Hwritten. rewrite Hrun. do 4 right. left.
  - split.
    + intros row Hrow. apply list_elem_of_In, filter_In in Hrow as [Hin Hm].
      apply list_elem_of_In in Hin. split; [exact Hin |].
      cbn [matches_all forallb] in Hm.
      apply andb_prop in Hm as [Hrep Hm]. apply andb_prop in Hm as [Hge Hlt].
      apply andb_prop in Hlt as [Hlt _].
      split; [cbn in Hrep; apply bool_decide_eq_true in Hrep; exact Hrep |].
      split; [exact Hge |]. split; [exact Hlt |].
      intros Hday. revert Hlt. apply matches_FLt_weaken.
      exact (iso_date_first_day_leb _ _ _ Hday).
    + intros row Hin Hrep Hge Hlt. apply list_elem_of_In, filter_In.
      split; [apply list_elem_of_In, Hin |].
      cbn [matches_all forallb]. rewrite Hge, Hlt.
      cbn [matches]. rewrite (bool_decide_eq_true_2 _ Hrep). reflexivity.
Qed.

End MemRemoteFacts.

(** * Concrete runs *)

Section Runs.

Import Scenario.

Lemma queue_ids_distinct : NoDup (mq_id <$> [A; B]).
Proof. apply NoDup_ListNoDup. repeat constructor; cbn; intuition discriminate. Qed.

Lemma queue_ids_distinct' : NoDup (mq_id <$> [B; A]).
Proof. apply NoDup_ListNoDup. repeat constructor; cbn; intuition discriminate. Qed.

(** Queue [A, B] where processing [A] throws: syncUp rejects and the queue
    holds [B] followed by a fresh copy of [A]. *)
Lemma syncUp_requeues_failed_entry_witness :
  fst (syncUp w_requeue) = Rejected (PgErr permission_denied) ∧
  stored_queue (snd (syncUp w_requeue)) = [B; A_again] ∧
  requests (snd (syncUp w_requeue)) = [RInsert "orders" order7].
Proof.
  pose proof (syncUp_requeues_failed_entry (H := MemRemote_store) w_requeue [] A [B] _ _ _
                eq_refl eq_refl eq_refl eq_refl) as Hthm.
  cbv zeta in Hthm. destruct Hthm as (Hrun & _ & _ & Hq & _ & Hreq).
  specialize (Hq queue_ids_distinct).
  rewrite Hrun. split; [reflexivity |]. split; [exact Hq | exact Hreq].
Defined.

(** One insert whose row the remote store already holds, synced twice. *)
Lemma syncUp_duplicate_insert_idempotent_witness :
  fst (syncUp w_duplicate) = Resolved VUndefined ∧
  stored_queue (snd (syncUp w_duplicate)) = [] ∧
  fst (syncUp (snd (syncUp w_duplicate))) = Resolved VUndefined ∧
  stored_queue (snd (syncUp (snd (syncUp w_duplicate)))) = [].
Proof.
  destruct (syncUp_duplicate_insert_idempotent (H := MemRemote_store) w_duplicate B
              (failed duplicate_key) (supabase w_duplicate) duplicate_key
              eq_refl eq_refl eq_refl eq_refl eq_refl) as (_ & Htwice).
  destruct (Htwice eq_refl) as (w1 & w2 & H1 & Hq1 & H2 & Hq2 & _).
  rewrite H1. cbn [fst snd]. rewrite H2. cbn [fst snd].
  split; [reflexivity |]. split; [exact Hq1 |]. split; [reflexivity | exact Hq2].
Defined.

(** C3 as stated fails: with one accepted insert queued, syncUp does not
    resolve with the count 1 (it resolves with [undefined]). *)
Lemma syncUp_does_not_return_count :
  stored_queue w_one_insert = [B] ∧
  fst (syncUp w_one_insert) ≠ Resolved (VNum 1).
Proof. split; [reflexivity |]. vm_compute. discriminate. Qed.

Lemma syncUp_resolves_undefined_and_logs_count_witness :
  fst (syncUp w_one_insert) = Resolved VUndefined ∧
  stored_queue (snd (syncUp w_one_insert)) = [] ∧
  console (snd (syncUp w_one_insert)) =
    [Log "Starting sync up..."; Log "Sync up completed: 1 mutations processed"].
Proof.
  exact (syncUp_resolves_undefined_and_logs_count (H := MemRemote_store) w_one_insert [B] _
           eq_refl eq_refl eq_refl).
Defined.

(** Three clients and nothing else on the remote store: afterwards the
    clients collection holds those three rows and the other fetched
    collections are empty, whatever they held; a collection that is not
    fetched keeps its value. *)
Lemma syncDown_overwrites_fetched_collections_witness :
  fst (syncDown "rep1" w_pull) = Resolved VUndefined ∧
  lf_rows (localforage (snd (syncDown "rep1" w_pull))) !! STORAGE_KEYS.clients
    = Some (client_row <$> three_clients) ∧
  lf_rows (localforage (snd (syncDown "rep1" w_pull))) !! STORAGE_KEYS.products = Some [] ∧
  lf_rows (localforage (snd (syncDown "rep1" w_pull))) !! STORAGE_KEYS.client_products
    = Some [] ∧
  lf_rows (localforage (snd (syncDown "rep1" w_pull))) !! STORAGE_KEYS.budgets = Some [] ∧
  lf_rows (localforage (snd (syncDown "rep1" w_pull))) !! STORAGE_KEYS.rep_tasks = Some [] ∧
  lf_rows (localforage (snd (syncDown "rep1" w_pull))) !! STORAGE_KEYS.client_followups
    = Some [] ∧
  lf_rows (localforage (snd (syncDown "rep1" w_pull))) !! STORAGE_KEYS.visits = None.
Proof.
  pose proof (syncDown_overwrites_fetched_collections (H := MemRemote_store)
                "rep1" w_pull
                [ (STORAGE_KEYS.clients, fmap (M := list) client_row three_clients);
                  (STORAGE_KEYS.products, []);
                  (STORAGE_KEYS.client_products, []);
                  (STORAGE_KEYS.budgets, []);
                  (STORAGE_KEYS.rep_tasks, []);
                  (STORAGE_KEYS.client_followups, []) ]
                None (supabase w_pull) eq_refl eq_refl) as Hthm.
  cbv zeta in Hthm. destruct Hthm as (Hout & _ & _ & Hwritten & Hother & _).
  split; [exact Hout |].
  split; [apply Hwritten; left |].
  split; [apply Hwritten; right; left |].
  split; [apply Hwritten; do 2 right; left |].
  split; [apply Hwritten; do 3 right; left |].
  split; [apply Hwritten; do 4 right; left |].
  split; [apply Hwritten; do 5 right; left |].
  rewrite Hother; [reflexivity |].
  cbn. intros Hin. repeat (apply elem_of_cons in Hin as [Hin | Hin]; [discriminate |]).
  inversion Hin.
Defined.

(** The products fetch fails: syncDown rejects, the clients collection
    stays overwritten and the products collection keeps its old rows. *)
Lemma syncDown_no_rollback_example :
  fst (syncDown "rep1" w_pull_fails) = Rejected (PgErr permission_denied) ∧
  lf_rows (localforage (snd (syncDown "rep1" w_pull_fails))) !! STORAGE_KEYS.clients
    = Some (client_row <$> three_clients) ∧
  lf_rows (localforage (snd (syncDown "rep1" w_pull_fails))) !! STORAGE_KEYS.products
    = Some [stale_product].
Proof. vm_compute. repeat split; reflexivity. Qed.

Lemma sync_offline_fails_fast_witness :
  syncUp w_offline = (Rejected (JsError "Cannot sync while offline"), w_offline) ∧
  syncDown "rep1" w_offline = (Rejected (JsError "Cannot sync while offline"), w_offline).
Proof. exact (sync_offline_fails_fast (H := MemRemote_store) "rep1" w_offline eq_refl). Defined.

(** Offline, the clients read resolves with the cached rows and sends
    nothing. *)
Lemma withOfflineFallback_absorbs_errors_witness :
  withOfflineFallback read_clients_remote read_clients_local [] w_offline
    = (Resolved [acme], w_offline).
Proof.
  destruct (withOfflineFallback_absorbs_errors
              read_clients_remote read_clients_local [] w_offline) as (_ & Hoff & _).
  destruct (Hoff eq_refl) as (_ & Hlocal & _).
  exact (Hlocal [acme] w_offline eq_refl).
Defined.

(** C7 as stated fails: with [B, A] queued and both accepted, right after
    [B] has been processed the stored queue holds [A] alone; [B] is not
    kept with synced=true. *)
Lemma processed_entry_is_gone_mid_drain :
  stored_queue w_two_inserts = [B; A] ∧
  stored_queue (snd (syncUp_loop 1 0 w_two_inserts)) = [A] ∧
  ¬ (∃ m, m ∈ stored_queue (snd (syncUp_loop 1 0 w_two_inserts)) ∧
          mq_id m = "b" ∧ mq_synced m = true).
Proof.
  split; [reflexivity |].
  assert (Hq : stored_queue (snd (syncUp_loop 1 0 w_two_inserts)) = [A])
    by (vm_compute; reflexivity).
  split; [exact Hq |]. rewrite Hq. intros (m & Hm & Hid & _).
  apply list_elem_of_singleton in Hm. subst m. discriminate Hid.
Qed.

Lemma processed_entries_are_not_kept_witness :
  ∃ w',
    syncUp_loop 1 0 w_two_inserts = (Unsettled, w') ∧
    stored_queue w' = [A] ∧
    (∀ m, m ∈ [B] → m ∉ stored_queue w').
Proof.
  destruct (processed_entries_are_not_kept (H := MemRemote_store) w_two_inserts [B; A] 1 _
              eq_refl (le_S 1 1 (le_n 1)) eq_refl) as (w' & Hloop & _ & _ & Hnd).
  destruct (Hnd queue_ids_distinct') as (Hq & Hgone & _).
  exists w'. split; [exact Hloop |]. split; [exact Hq | exact Hgone].
Defined.

(** C8 as stated fails: a row of the remote clients table whose status is
    null is not in the cached clients collection after a successful
    syncDown. *)
Lemma syncDown_skips_client_of_other_status :
  fst (syncDown "rep1" Cases.w_mixed_clients) = Resolved VUndefined ∧
  Cases.lead ∈ rows_of (supabase Cases.w_mixed_clients) "clients" ∧
  Cases.lead ∉ default [] (lf_rows (localforage (snd (syncDown "rep1" Cases.w_mixed_clients)))
                             !! STORAGE_KEYS.clients).
Proof.
  split; [vm_compute; reflexivity |].
  split; [right; left |].
  intros Hin.
  assert (Hstatus : ∀ row : Row,
            row ∈ default [] (lf_rows (localforage (snd (syncDown "rep1" Cases.w_mixed_clients)))
                                !! STORAGE_KEYS.clients) →
            row !! "status" ≠ Some VNull).
  { intros row Hrow.
    apply elem_of_cons in Hrow as [-> | Hrow]; [vm_compute; discriminate |].
    apply elem_of_cons in Hrow as [-> | Hrow]; [vm_compute; discriminate |].
    inversion Hrow. }
  apply (Hstatus _ Hin). reflexivity.
Qed.

(** The same table: the active client and the inactive client with a
    further column are cached, in the order of the table. *)
Lemma syncDown_caches_active_and_inactive_clients_witness :
  lf_rows (localforage (snd (syncDown "rep1" Cases.w_mixed_clients))) !! STORAGE_KEYS.clients
    = Some [client_row (client "c1" "Acme" active); Cases.visited_client] ∧
  lf_rows (localforage (snd (syncDown "rep1" w_pull))) !! STORAGE_KEYS.clients
    = Some (client_row <$> three_clients).
Proof.
  destruct (syncDown_caches_active_and_inactive_clients "rep1" Cases.w_mixed_clients eq_refl)
    as (cached & Hc & -> & _).
  destruct (syncDown_caches_active_and_inactive_clients "rep1" w_pull eq_refl)
    as (cached' & Hc' & _ & _ & _ & Htyped).
  split; [exact Hc |]. rewrite Hc'. f_equal. exact (Htyped three_clients eq_refl).
Defined.

(** C9 as stated fails: on 15 November, with tasks of rep1 due on
    5 October, 20 November and 10 December, the cached rep tasks are not
    the tasks due from 15 October up to 15 December. *)
Lemma rep_tasks_window_is_not_one_month_around_today :
  fst (syncDown "rep1" w_tasks) = Resolved VUndefined ∧
  clock w_tasks 1 = mid_november ∧
  one_month_ago mid_november = "2026-10-15" ∧
  one_month_ahead mid_november = "2026-12-15" ∧
  lf_rows (localforage (snd (syncDown "rep1" w_tasks))) !! STORAGE_KEYS.rep_tasks
    ≠ Some (List.filter (in_spec_window "rep1" mid_november)
              (rows_of (supabase w_tasks) "rep_tasks")).
Proof.
  split; [vm_compute; reflexivity |]. split; [reflexivity |].
  split; [vm_compute; reflexivity |]. split; [vm_compute; reflexivity |].
  intros Heq.
  apply (f_equal (fmap (fmap (fun row : Row => row !! "id")))) in Heq.
  vm_compute in Heq. discriminate Heq.
Qed.

(** On 15 November: the tasks of rep1 due on 5 October and on 20 November
    are cached, and both are due before 15 December. *)
Lemma syncDown_caches_rep_tasks_by_month_witness :
  lf_rows (localforage (snd (syncDown "rep1" w_tasks))) !! STORAGE_KEYS.rep_tasks
    = Some [task_early_october; task_november] ∧
  ∀ row, row ∈ [task_early_october; task_november] →
    matches row (FLt "end_date" (VStr "2026-12-15")) = true.
Proof.
  destruct (syncDown_caches_rep_tasks_by_month "rep1" w_tasks eq_refl)
    as (cached & Hc & Hsound & _).
  assert (Hv : lf_rows (localforage (snd (syncDown "rep1" w_tasks))) !! STORAGE_KEYS.rep_tasks
               = Some [task_early_october; task_november]) by (vm_compute; reflexivity).
  split; [exact Hv |].
  rewrite Hv in Hc. injection Hc as <-.
  intros row Hrow. destruct (Hsound row Hrow) as (_ & _ & _ & _ & Hahead).
  apply Hahead. cbn. lia.
Defined.

(** C10 as stated fails: the store holds an active visit, the page state
    does not show it, and starting a visit sends the insert and overwrites
    the stored marker. *)
Lemma handleStartVisit_overwrites_stored_visit :
  offlineStorage_getActiveVisit w_visiting = (Resolved (Some visit_in_progress), w_visiting) ∧
  requests (snd (handleStartVisit "rep1" page_unaware w_visiting))
    = [RInsert "visits"
         (newVisit_row "rep1" "uuid-0" "c1" "2026-11-15T08:00:00.000Z")] ∧
  lf_active_visit (localforage (snd (handleStartVisit "rep1" page_unaware w_visiting)))
    = Some {| visit_id := "uuid-0"; av_client_id := "c1";
              start_time := "2026-11-15T08:00:00.000Z"; notes := None |}.
Proof. split; [reflexivity |]. split; vm_compute; reflexivity. Qed.

Lemma handleStartVisit_rejects_while_visit_active_witness :
  ∃ text,
    handleStartVisit "rep1" page_aware w_visiting
      = (Resolved (emit (ToastError text) page_aware), w_visiting) ∧
    activeVisit (emit (ToastError text) page_aware) = Some visit_in_progress ∧
    (selectedClient page_aware ≠ None →
     text = "Please end your current visit before starting a new one").
Proof.
  exact (handleStartVisit_rejects_while_visit_active (H := MemRemote_store)
           "rep1" page_aware w_visiting visit_in_progress eq_refl).
Defined.

End Runs.

(** * Further properties of the store, the queue and the sync engine *)

Section StoreFacts.

Context {R : Type} `{RemoteStore R}.

Implicit Types (w : World R) (m : MutationQueueItem) (q : list MutationQueueItem).

(** ** The device store *)

Lemma storage_key_inj (key key' : Collection.key) :
  storage_key key = storage_key key' → key = key'.
Proof. destruct key, key'; intros Heq; try reflexivity; discriminate Heq. Qed.

(** X1: for each of the nine collection keys, [setData] then [getData] on
    the same key gives back exactly the rows written, whatever the key
    held before; the rows read under any other collection key, the
    active-visit marker and the queue are not affected. *)
Theorem setData_getData_roundtrip (key : Collection.key) (rows : list Row) w :
  let w' := snd (setData key rows w) in
  fst (setData key rows w) = Resolved tt ∧
  getData key w' = (Resolved rows, w') ∧
  (∀ key', key' ≠ key → fst (getData key' w') = fst (getData key' w)) ∧
  lf_active_visit (localforage w') = lf_active_visit (localforage w) ∧
  lf_mutation_queue (localforage w') = lf_mutation_queue (localforage w).
Proof.
  cbn zeta. split; [reflexivity |]. split; [| split; [| split; reflexivity]].
  - unfold getData, setData, gets, modify. cbn [fst snd localforage lf_rows
      set_localforage set_rows]. rewrite lookup_insert_eq. reflexivity.
  - intros key' Hne. unfold getData, setData, gets, modify.
    cbn [fst snd localforage lf_rows set_localforage set_rows].
    rewrite lookup_insert_ne; [reflexivity |].
    intros Heq. apply Hne. symmetry. exact (storage_key_inj _ _ Heq).
Qed.

(** X2: [storageSetActiveVisit] then [storageGetActiveVisit] gives back the
    visit stored, and [null] after the marker was cleared with [null], so
    the store never holds more than the one visit written last; cached
    collections and queue are not affected. *)
Theorem activeVisit_roundtrip (first second : option ActiveVisit) w :
  let w' := snd (storageSetActiveVisit second (snd (storageSetActiveVisit first w))) in
  storageGetActiveVisit w' = (Resolved second, w') ∧
  lf_rows (localforage w') = lf_rows (localforage w) ∧
  lf_mutation_queue (localforage w') = lf_mutation_queue (localforage w).
Proof. destruct first, second; cbn; repeat split; reflexivity. Qed.

(** ** The mutation queue *)

Lemma enqueueMutation_run (mu : Mutation) w :
  enqueueMutation mu w =
    (Resolved tt,
     with_queue
       (Some (stored_queue w ++
              [{| mq_id := uuid_src w (uuid_calls w);
                  mq_table := mu_table mu; mq_operation := mu_operation mu;
                  mq_payload := mu_payload mu; mq_key := mu_key mu;
                  mq_timestamp := toISOString (clock w (clock_reads w));
                  mq_synced := false |}])%list)
       (read_clock (draw_uuid w))).
Proof. reflexivity. Qed.

Lemma enqueue_all_run (mus : list Mutation) :
  ∀ w, ∃ new w',
    enqueue_all mus w = (Resolved tt, w') ∧
    stored_queue w' = (stored_queue w ++ new)%list ∧
    requeued <$> new = mus ∧
    Forall (fun m => mq_synced m = false) new ∧
    mq_id <$> new = (fun i => uuid_src w (uuid_calls w + i)) <$> seq 0 (length mus).
Proof.
  induction mus as [| mu mus IH]; intros w.
  - exists [], w. cbn. rewrite app_nil_r. repeat split. constructor.
  - cbn [enqueue_all]. unfold bind. rewrite enqueueMutation_run.
    match goal with |- context [enqueue_all mus ?w1] =>
      destruct (IH w1) as (new & w' & Hrun & Hq & Hmus & Hsync & Hids) end.
    eexists (_ :: new), w'. split; [exact Hrun |]. split.
    { rewrite Hq. cbn. rewrite <- app_assoc. reflexivity. }
    split; [cbn; rewrite Hmus; destruct mu; reflexivity |].
    split; [constructor; [reflexivity | exact Hsync] |].
    cbn [fmap list_fmap length seq]. rewrite Hids. cbn.
    rewrite Nat.add_0_r. f_equal.
    rewrite <- (fmap_S_seq 0), <- list_fmap_compose.
    apply list_fmap_ext. intros _ i _. cbn. f_equal. lia.
Qed.

Lemma dequeueMutation_cons w m q :
  stored_queue w = m :: q →
  dequeueMutation w = (Resolved (Some m), with_queue (Some q) w).
Proof. intros Hq. unfold dequeueMutation, bind, gets. rewrite Hq. reflexivity. Qed.

Lemma dequeueMutation_nil w :
  stored_queue w = [] → dequeueMutation w = (Resolved None, w).
Proof. intros Hq. unfold dequeueMutation, bind, gets. rewrite Hq. reflexivity. Qed.

Lemma dequeue_n_run (n : nat) :
  ∀ w, ∃ w',
    dequeue_n n w = (Resolved (take n (stored_queue w)), w') ∧
    stored_queue w' = drop n (stored_queue w).
Proof.
  induction n as [| n IH]; intros w.
  - exists w. split; reflexivity.
  - cbn [dequeue_n]. unfold bind at 1.
    destruct (stored_queue w) as [| m q] eqn:Hq.
    + rewrite (dequeueMutation_nil w Hq). exists w. split; [reflexivity | exact Hq].
    + rewrite (dequeueMutation_cons w m q Hq).
      destruct (IH (with_queue (Some q) w)) as (w' & Hrun & Hrest).
      exists w'. unfold bind. rewrite Hrun. split; [reflexivity | exact Hrest].
Qed.

(** X3: the queue is first in, first out.  After mutations are enqueued
    one after the other, as many dequeues as there are entries give first
    the entries already queued and then the new ones, in the order they
    were enqueued and with their table, operation, payload and key, each
    with synced=false; the queue is then empty and a further dequeue gives
    [null] and changes nothing. *)
Theorem queue_is_fifo (mus : list Mutation) w :
  ∃ new w1 w2,
    enqueue_all mus w = (Resolved tt, w1) ∧
    dequeue_n (length (stored_queue w) + length mus) w1
      = (Resolved (stored_queue w ++ new)%list, w2) ∧
    requeued <$> new = mus ∧
    Forall (fun m => mq_synced m = false) new ∧
    stored_queue w2 = [] ∧
    dequeueMutation w2 = (Resolved None, w2).
Proof.
  destruct (enqueue_all_run mus w) as (new & w1 & Hrun & Hq & Hmus & Hsync & _).
  destruct (dequeue_n_run (length (stored_queue w) + length mus) w1) as (w2 & Hdeq & Hrest).
  assert (Hlen : (length (stored_queue w) + length mus)%nat = length (stored_queue w1)).
  { rewrite Hq, length_app, <- Hmus, length_fmap. reflexivity. }
  rewrite Hlen, firstn_all in Hdeq. rewrite Hlen, drop_all in Hrest.
  exists new, w1, w2. rewrite Hlen. rewrite <- Hq.
  split; [exact Hrun |]. split; [exact Hdeq |]. split; [exact Hmus |].
  split; [exact Hsync |]. split; [exact Hrest |].
  apply dequeueMutation_nil, Hrest.
Qed.

(** X4: [removeSyncedMutations] keeps exactly the unsynced entries, in
    their order; it does not change what [getPendingMutationsCount]
    reports, after it the count is the length of the queue, and running it
    a second time changes nothing. *)
Theorem removeSyncedMutations_keeps_pending w :
  let w' := snd (removeSyncedMutations w) in
  stored_queue w' = unsynced (stored_queue w) ∧
  fst (getPendingMutationsCount w') = fst (getPendingMutationsCount w) ∧
  fst (getPendingMutationsCount w') = Resolved (length (stored_queue w')) ∧
  removeSyncedMutations w' = (Resolved tt, w').
Proof.
  cbn. unfold getPendingMutationsCount, removeSyncedMutations, bind, gets, put_queue,
    modify, ret. cbn.
  assert (Hidem : unsynced (unsynced (stored_queue w)) = unsynced (stored_queue w)).
  { unfold unsynced. induction (stored_queue w) as [| m q IH]; cbn; [reflexivity |].
    destruct (mq_synced m) eqn:Hm; cbn; [exact IH |]. rewrite Hm. cbn. f_equal. exact IH. }
  split; [reflexivity |]. unfold unsynced in *. rewrite Hidem. repeat split; reflexivity.
Qed.

(** X5: [markMutationSynced] followed by [removeSyncedMutations]
    acknowledges an entry that is in the queue: every entry with that id is
    gone, and the entries left are the unsynced entries with other ids, in
    their order.  For an id that no entry has, the pair only drops the
    entries that were flagged already. *)
Theorem mark_then_remove_acknowledges (mutationId : string) w :
  let w' := snd (removeSyncedMutations (snd (markMutationSynced mutationId w))) in
  stored_queue w' =
    List.filter (fun m => negb (mq_synced m) && negb (String.eqb (mq_id m) mutationId))
      (stored_queue w) ∧
  (∀ m, m ∈ stored_queue w' → mq_id m ≠ mutationId ∧ mq_synced m = false) ∧
  (mutationId ∉ mq_id <$> stored_queue w → stored_queue w' = unsynced (stored_queue w)).
Proof.
  cbn. unfold stored_queue at 1 2 4. cbn. fold (stored_queue w).
  assert (Heq : unsynced (mark_in mutationId (stored_queue w)) =
                List.filter (fun m => negb (mq_synced m) && negb (String.eqb (mq_id m) mutationId))
                  (stored_queue w)).
  { unfold unsynced, mark_in. induction (stored_queue w) as [| m q IH]; cbn; [reflexivity |].
    destruct (String.eqb (mq_id m) mutationId); cbn.
    - rewrite andb_false_r. exact IH.
    - rewrite andb_true_r. destruct (mq_synced m); cbn; [exact IH | f_equal; exact IH]. }
  unfold unsynced in *.
  split; [exact Heq |]. split.
  - intros m Hm. rewrite Heq in Hm.
    apply list_elem_of_In, filter_In in Hm as [_ Hm]. apply andb_prop in Hm as [Hs Hi].
    split.
    + intros Hid. rewrite Hid, String.eqb_refl in Hi. discriminate.
    + destruct (mq_synced m); [discriminate | reflexivity].
  - intros Habsent. rewrite (mark_in_absent _ _ Habsent). reflexivity.
Qed.

End StoreFacts.

Section DrainFacts.

Context {R : Type} `{RemoteStore R}.

Implicit Types (w : World R) (m : MutationQueueItem) (q : list MutationQueueItem).

(** [processMutation] sends at most one request, a write, and touches
    nothing on the device besides the console. *)
Lemma processMutation_effect m w :
  isOnline (snd (processMutation m w)) = isOnline w ∧
  localforage (snd (processMutation m w)) = localforage w ∧
  uuid_src (snd (processMutation m w)) = uuid_src w ∧
  uuid_calls (snd (processMutation m w)) = uuid_calls w ∧
  clock (snd (processMutation m w)) = clock w ∧
  clock_reads (snd (processMutation m w)) = clock_reads w ∧
  ∃ l, requests (snd (processMutation m w)) = (requests w ++ l)%list ∧
       (length l ≤ 1)%nat ∧ Forall (fun req => is_write req = true) l.
Proof.
  unfold processMutation, bind, supabase_call, throw, ret, console_log, modify.
  destruct (mq_operation m); cbn;
    try (destruct (no_key (mq_key m));
         [cbn; repeat split; exists []; rewrite app_nil_r;
          repeat split; [cbn; lia | constructor] |]); cbn;
    match goal with |- context [rs_exec ?q (supabase w)] =>
      destruct (rs_exec q (supabase w)) as [resp r'] end; cbn;
    destruct (error resp) as [e |]; cbn;
    try (destruct (String.eqb (code e) "23505")); cbn;
    repeat split; eexists [_]; repeat split; cbn; try lia;
    repeat constructor.
Qed.

(** One iteration of the loop on a queue that is not empty. *)
Lemma syncUp_loop_step fuel n w m q :
  stored_queue w = m :: q →
  syncUp_loop (S fuel) n w =
    match processMutation m w with
    | (Resolved _, wp) =>
      syncUp_loop fuel (S n) (with_queue (Some (mark_in (mq_id m) q)) wp)
    | (Rejected exn, wp) =>
      let wl := print (Error ("Failed to sync mutation " ++ mq_id m ++ ":") exn) wp in
      (Rejected exn,
       with_queue (Some (q ++ [fresh_copy m wl])%list) (read_clock (draw_uuid wl)))
    | (Unsettled, wp) => (Unsettled, with_queue (Some q) wp)
    end.
Proof.
  intros Hq. cbn [syncUp_loop].
  unfold bind at 1. rewrite (dequeueMutation_cons w m q Hq).
  unfold bind at 1. unfold try_catch at 1. unfold bind at 1.
  rewrite processMutation_with_queue.
  destruct (processMutation m w) as [[[] | exn |] wp]; reflexivity.
Qed.

Lemma Forall2_sim_trans (l1 l2 l3 : list MutationQueueItem) :
  Forall2 sim l1 l2 → Forall2 sim l2 l3 → Forall2 sim l1 l3.
Proof.
  intros H12. revert l3. induction H12 as [| a b l1 l2 [Hr Hi] _ IH]; intros l3 H23.
  - apply Forall2_nil_inv_l in H23 as ->. constructor.
  - apply Forall2_cons_inv_l in H23 as (c & l3' & [Hr' Hi'] & H23 & ->).
    constructor; [split; congruence | apply IH, H23].
Qed.

Lemma Forall2_sim_ids (l1 l2 : list MutationQueueItem) :
  Forall2 sim l1 l2 → mq_id <$> l2 = mq_id <$> l1.
Proof.
  induction 1 as [| a b l1 l2 [_ Hi] _ IH]; cbn; [reflexivity |]. rewrite IH, Hi. reflexivity.
Qed.

Lemma Forall2_sim_requeued (l1 l2 : list MutationQueueItem) :
  Forall2 sim l1 l2 → requeued <$> l2 = requeued <$> l1.
Proof.
  induction 1 as [| a b l1 l2 [Hr _] _ IH]; cbn; [reflexivity |]. rewrite IH, Hr. reflexivity.
Qed.

Lemma sim_mark_in_self id q : Forall2 sim q (mark_in id q).
Proof. apply sim_mark_in, sim_all_refl. Qed.

(** What the loop has done when it ends, given fuel for the whole queue. *)
Lemma syncUp_loop_outcome fuel :
  ∀ n w, (length (stored_queue w) < fuel)%nat →
    drain_frame w (snd (syncUp_loop fuel n w)) ∧
    (∃ l, requests (snd (syncUp_loop fuel n w)) = (requests w ++ l)%list ∧
          (length l ≤ length (stored_queue w))%nat ∧
          Forall (fun req => is_write req = true) l) ∧
    match fst (syncUp_loop fuel n w) with
    | Resolved k =>
      k = (n + length (stored_queue w))%nat ∧
      stored_queue (snd (syncUp_loop fuel n w)) = [] ∧
      uuid_calls (snd (syncUp_loop fuel n w)) = uuid_calls w
    | Rejected exn =>
      ∃ pre e post post' c,
        stored_queue w = (pre ++ e :: post)%list ∧
        stored_queue (snd (syncUp_loop fuel n w)) = (post' ++ [c])%list ∧
        Forall2 sim post post' ∧
        requeued c = requeued e ∧
        mq_synced c = false ∧
        mq_id c = uuid_src w (uuid_calls w) ∧
        uuid_calls (snd (syncUp_loop fuel n w)) = S (uuid_calls w)
    | Unsettled => False
    end.
Proof.
  induction fuel as [| fuel IH]; intros n w Hlen; [lia |].
  destruct (stored_queue w) as [| m q] eqn:Hq.
  - rewrite (syncUp_loop_empty fuel n w Hq). cbn [fst snd].
    split; [repeat split |]. split.
    + exists []. rewrite app_nil_r. repeat split; [cbn; lia | constructor].
    + rewrite Hq. cbn. split; [lia |]. split; reflexivity.
  - rewrite (syncUp_loop_step fuel n w m q Hq).
    destruct (processMutation_effect m w)
      as (Hon & Hlf & Hus & Huc & Hck & Hcr & l1 & Hreq & Hl1 & Hw1).
    pose proof (processMutation_settles m w) as Hset.
    destruct (processMutation m w) as [[[] | exn |] wp]; cbn [fst snd] in *.
    + set (wm := with_queue (Some (mark_in (mq_id m) q)) wp).
      assert (Hqm : stored_queue wm = mark_in (mq_id m) q) by reflexivity.
      destruct (IH (S n) wm) as (Hfr & (l2 & Hreq2 & Hl2 & Hw2) & Hout).
      { rewrite Hqm. unfold mark_in. rewrite length_map. cbn in Hlen. lia. }
      split.
      { destruct Hfr as (F1 & F2 & F3 & F4 & F5). unfold drain_frame.
        rewrite F1, F2, F3, F4, F5. subst wm. cbn. rewrite Hlf. repeat split; assumption. }
      split.
      { exists (l1 ++ l2)%list. rewrite Hreq2. subst wm. cbn. rewrite Hreq, app_assoc.
        split; [reflexivity |]. split.
        - rewrite length_app. rewrite Hqm in Hl2. unfold mark_in in Hl2.
          rewrite length_map in Hl2. cbn. lia.
        - apply Forall_app. split; assumption. }
      destruct (fst (syncUp_loop fuel (S n) wm)) as [k | exn |].
      * destruct Hout as (Hk & Hempty & Hcalls). rewrite Hqm in Hk.
        unfold mark_in in Hk. rewrite length_map in Hk.
        split; [cbn; lia |]. split; [exact Hempty |]. rewrite Hcalls. exact Huc.
      * destruct Hout as (pre & e & post & post' & c & Hdec & Hq' & Hsim & Hrq & Hs & Hid & Hcalls).
        rewrite Hqm in Hdec. unfold mark_in in Hdec.
        apply fmap_app_inv in Hdec as (pre0 & rest0 & Hpre & Hrest & ->).
        symmetry in Hrest.
        apply fmap_cons_inv in Hrest as (e0 & post0 & He & Hpost & ->).
        exists (m :: pre0), e0, post0, post', c.
        split; [reflexivity |]. split; [exact Hq' |]. split.
        { eapply Forall2_sim_trans; [| exact Hsim]. rewrite Hpost.
          apply (sim_mark_in_self (mq_id m) post0). }
        split.
        { rewrite Hrq, He. destruct (String.eqb (mq_id e0) (mq_id m)); reflexivity. }
        split; [exact Hs |]. split.
        { rewrite Hid. subst wm. cbn. rewrite Hus, Huc. reflexivity. }
        rewrite Hcalls. subst wm. cbn. rewrite Huc. reflexivity.
      * exact Hout.
    + split; [unfold drain_frame; cbn; rewrite Hlf; repeat split; assumption |].
      split.
      { exists l1. cbn. split; [exact Hreq |]. split; [cbn; lia | exact Hw1]. }
      exists [], m, q, q, (fresh_copy m (print (Error ("Failed to sync mutation " ++ mq_id m ++ ":") exn) wp)).
      split; [reflexivity |]. split; [reflexivity |]. split; [apply sim_all_refl |].
      split; [reflexivity |]. split; [reflexivity |]. split.
      { cbn. rewrite Hus, Huc. reflexivity. }
      cbn. rewrite Huc. reflexivity.
    + congruence.
Qed.

(** syncUp, online, in terms of its loop. *)
Lemma syncUp_unfold w :
  isOnline w = true →
  syncUp w =
    match syncUp_loop (S (length (stored_queue w))) 0 (syncUp_started w) with
    | (Resolved k, wl) =>
      (Resolved VUndefined,
       print (Log ("Sync up completed: " ++ pretty k ++ " mutations processed"))
         (with_queue (Some (unsynced (stored_queue wl))) wl))
    | (Rejected exn, wl) => (Rejected exn, print (Error "Sync up failed:" exn) wl)
    | (Unsettled, wl) => (Unsettled, wl)
    end.
Proof.
  intros Hon.
  unfold syncUp. unfold bind at 1. unfold gets at 1. rewrite Hon. cbn [negb].
  unfold try_catch. unfold bind at 1. unfold console_log at 1, modify at 1.
  fold (syncUp_started w). unfold bind at 1. unfold gets at 1. unfold bind at 1.
  change (stored_queue (syncUp_started w)) with (stored_queue w).
  destruct (syncUp_loop (S (length (stored_queue w))) 0 (syncUp_started w))
    as [[k | exn |] wl]; reflexivity.
Qed.

(** What syncUp has done when it ends, online. *)
Lemma syncUp_outcome w :
  isOnline w = true →
  drain_frame w (snd (syncUp w)) ∧
  (∃ l, requests (snd (syncUp w)) = (requests w ++ l)%list ∧
        (length l ≤ length (stored_queue w))%nat ∧
        Forall (fun req => is_write req = true) l) ∧
  match fst (syncUp w) with
  | Resolved v =>
    v = VUndefined ∧
    stored_queue (snd (syncUp w)) = [] ∧
    uuid_calls (snd (syncUp w)) = uuid_calls w
  | Rejected exn =>
    ∃ pre e post post' c,
      stored_queue w = (pre ++ e :: post)%list ∧
      stored_queue (snd (syncUp w)) = (post' ++ [c])%list ∧
      Forall2 sim post post' ∧
      requeued c = requeued e ∧
      mq_synced c = false ∧
      mq_id c = uuid_src w (uuid_calls w) ∧
      uuid_calls (snd (syncUp w)) = S (uuid_calls w)
  | Unsettled => False
  end.
Proof.
  intros Hon.
  pose proof (syncUp_loop_outcome (S (length (stored_queue w))) 0
                (syncUp_started w) (Nat.lt_succ_diag_r _))
    as (Hfr & (l & Hreq & Hl & Hw) & Hout).
  rewrite (syncUp_unfold w Hon).
  destruct (syncUp_loop (S (length (stored_queue w))) 0 (syncUp_started w))
    as [[k | exn |] wl]; cbn [fst snd] in *.
  - destruct Hout as (_ & Hempty & Hcalls).
    destruct Hfr as (F1 & F2 & F3 & F4 & F5).
    rewrite Hempty.
    split; [unfold drain_frame; cbn; repeat split; assumption |].
    split; [exists l; repeat split; assumption |].
    split; [reflexivity |]. split; [reflexivity | exact Hcalls].
  - destruct Hfr as (F1 & F2 & F3 & F4 & F5).
    split; [unfold drain_frame; cbn; repeat split; assumption |].
    split; [exists l; repeat split; assumption |].
    exact Hout.
  - destruct Hout.
Qed.

Lemma pending_count w :
  fst (getPendingMutationsCount w) = Resolved (length (unsynced (stored_queue w))).
Proof. reflexivity. Qed.

Lemma syncUp_resolved_queue w v :
  fst (syncUp w) = Resolved v → stored_queue (snd (syncUp w)) = [].
Proof.
  intros Hres.
  assert (Hon : isOnline w = true).
  { destruct (isOnline w) eqn:Hon; [reflexivity |].
    unfold syncUp, bind, gets in Hres. rewrite Hon in Hres. discriminate. }
  destruct (syncUp_outcome w Hon) as (_ & _ & Hout). rewrite Hres in Hout.
  destruct Hout as (_ & Hq & _). exact Hq.
Qed.

(** X6: whenever syncUp resolves, nothing is left pending: the stored
    queue is empty, [getPendingMutationsCount] reports 0, the value it
    resolves with is [undefined], and no new entry id was drawn. *)
Theorem syncUp_resolved_leaves_nothing_pending w v :
  fst (syncUp w) = Resolved v →
  v = VUndefined ∧
  stored_queue (snd (syncUp w)) = [] ∧
  fst (getPendingMutationsCount (snd (syncUp w))) = Resolved 0%nat ∧
  uuid_calls (snd (syncUp w)) = uuid_calls w.
Proof.
  intros Hres.
  assert (Hon : isOnline w = true).
  { destruct (isOnline w) eqn:Hon; [reflexivity |].
    unfold syncUp, bind, gets in Hres. rewrite Hon in Hres. discriminate. }
  destruct (syncUp_outcome w Hon) as (_ & _ & Hout). rewrite Hres in Hout.
  destruct Hout as (Hv & Hq & Hcalls).
  split; [exact Hv |]. split; [exact Hq |]. split; [| exact Hcalls].
  rewrite pending_count, Hq. reflexivity.
Qed.

(** X7: a syncUp that rejects while online loses no mutation.  The queue
    it found splits into the entries before the one that failed, that
    entry, and the entries behind it; the queue it leaves holds the entries
    behind it, in their order, and then the failed one, each with the
    table, operation, payload and key it had.  The entry at the tail is
    unsynced, so at least one mutation is reported pending. *)
Theorem syncUp_failure_loses_no_mutation w exn :
  isOnline w = true →
  fst (syncUp w) = Rejected exn →
  ∃ pre e post c,
    stored_queue w = (pre ++ e :: post)%list ∧
    requeued <$> stored_queue (snd (syncUp w)) = ((requeued <$> post) ++ [requeued e])%list ∧
    last (stored_queue (snd (syncUp w))) = Some c ∧
    mq_synced c = false ∧
    mq_id c = uuid_src w (uuid_calls w) ∧
    ∃ n, fst (getPendingMutationsCount (snd (syncUp w))) = Resolved (S n).
Proof.
  intros Hon Hrej.
  destruct (syncUp_outcome w Hon) as (_ & _ & Hout). rewrite Hrej in Hout.
  destruct Hout as (pre & e & post & post' & c & Hdec & Hq & Hsim & Hrq & Hs & Hid & _).
  exists pre, e, post, c. split; [exact Hdec |]. split.
  { rewrite Hq, fmap_app, (Forall2_sim_requeued _ _ Hsim). cbn. rewrite Hrq. reflexivity. }
  split; [rewrite Hq; apply last_snoc |]. split; [exact Hs |]. split; [exact Hid |].
  rewrite pending_count, Hq.
  unfold unsynced. rewrite List.filter_app, length_app. cbn. rewrite Hs. cbn.
  eexists. rewrite Nat.add_1_r. reflexivity.
Qed.

(** X8: syncUp, whatever its outcome and whether online or not, leaves
    the online flag, every cached collection and the active-visit marker
    as they were; what it sends to the remote store are writes only, never
    a select, and at most one for each entry it found queued. *)
Theorem syncUp_only_drains w :
  drain_frame w (snd (syncUp w)) ∧
  ∃ l, requests (snd (syncUp w)) = (requests w ++ l)%list ∧
       (length l ≤ length (stored_queue w))%nat ∧
       Forall (fun req => is_write req = true) l.
Proof.
  destruct (isOnline w) eqn:Hon.
  - destruct (syncUp_outcome w Hon) as (Hfr & Hreq & _). split; assumption.
  - unfold syncUp, bind, gets. rewrite Hon. cbn.
    split; [repeat split |]. exists []. rewrite app_nil_r.
    split; [reflexivity |]. split; [cbn; lia | constructor].
Qed.

Lemma ids_drawn_sublist u w w' :
  ids_drawn u w →
  uuid_src w' = uuid_src w →
  (uuid_calls w ≤ uuid_calls w')%nat →
  (mq_id <$> stored_queue w') `sublist_of` (mq_id <$> stored_queue w) →
  ids_drawn u w'.
Proof.
  intros (Hu & Hnd & Hb) Hsrc Hcalls Hsub. split; [congruence |]. split.
  - exact (sublist_NoDup _ _ Hnd Hsub).
  - intros id Hid. destruct (Hb id (elem_of_sublist _ _ _ Hid Hsub)) as (i & Hi & ->).
    exists i. split; [lia | reflexivity].
Qed.

Lemma ids_drawn_snoc u w w' (c : MutationQueueItem) (kept : list MutationQueueItem) :
  (∀ i j, u i = u j → i = j) →
  ids_drawn u w →
  uuid_src w' = uuid_src w →
  uuid_calls w' = S (uuid_calls w) →
  (mq_id <$> kept) `sublist_of` (mq_id <$> stored_queue w) →
  mq_id c = u (uuid_calls w) →
  stored_queue w' = (kept ++ [c])%list →
  ids_drawn u w'.
Proof.
  intros Hinj (Hu & Hnd & Hb) Hsrc Hcalls Hsub Hc Hq. split; [congruence |].
  rewrite Hq, fmap_app. cbn. split.
  - apply NoDup_app. split; [exact (sublist_NoDup _ _ Hnd Hsub) |]. split.
    + intros id Hid Hin. apply list_elem_of_singleton in Hin. subst id.
      destruct (Hb _ (elem_of_sublist _ _ _ Hid Hsub)) as (i & Hi & Heq).
      rewrite Hc in Heq. apply Hinj in Heq. lia.
    + apply NoDup_singleton.
  - intros id Hid. apply elem_of_app in Hid as [Hid | Hid].
    + destruct (Hb _ (elem_of_sublist _ _ _ Hid Hsub)) as (i & Hi & ->).
      exists i. split; [lia | reflexivity].
    + apply list_elem_of_singleton in Hid. subst id. exists (uuid_calls w).
      split; [lia | exact Hc].
Qed.

Lemma filter_ids_sublist (f : MutationQueueItem → bool) q :
  (mq_id <$> List.filter f q) `sublist_of` (mq_id <$> q).
Proof.
  induction q as [| m q IH]; cbn; [constructor |].
  destruct (f m); cbn; [apply sublist_skip | apply sublist_cons]; exact IH.
Qed.

Lemma after_call_ids_drawn u (c : QueueCall) w :
  (∀ i j, u i = u j → i = j) →
  ids_drawn u w → ids_drawn u (after_call c w).
Proof.
  intros Hinj Hinv. destruct c as [mu | | id | |]; cbn [after_call].
  - rewrite enqueueMutation_run. cbn [snd].
    eapply (ids_drawn_snoc u w _ _ (stored_queue w) Hinj Hinv); try reflexivity.
    destruct Hinv as (Hu & _). cbn. rewrite Hu. reflexivity.
  - destruct (stored_queue w) as [| m q] eqn:Hq.
    + rewrite (dequeueMutation_nil w Hq). exact Hinv.
    + rewrite (dequeueMutation_cons w m q Hq). cbn [snd].
      apply (ids_drawn_sublist u w); [exact Hinv | reflexivity | cbn; lia |].
      rewrite Hq. cbn. apply sublist_cons. reflexivity.
  - apply (ids_drawn_sublist u w); [exact Hinv | reflexivity | cbn; lia |].
    change (stored_queue (snd (markMutationSynced id w)))
      with (mark_in id (stored_queue w)).
    rewrite (Forall2_sim_ids _ _ (sim_mark_in_self id (stored_queue w))). reflexivity.
  - apply (ids_drawn_sublist u w); [exact Hinv | reflexivity | cbn; lia |].
    apply filter_ids_sublist.
  - destruct (isOnline w) eqn:Hon.
    + destruct (syncUp_outcome w Hon) as ((_ & _ & _ & Hsrc & _) & _ & Hout).
      destruct (fst (syncUp w)) as [v | exn |].
      * destruct Hout as (_ & Hq & Hcalls).
        apply (ids_drawn_sublist u w); [exact Hinv | exact Hsrc | lia |].
        rewrite Hq. apply sublist_nil_l.
      * destruct Hout as (pre & e & post & post' & c & Hdec & Hq & Hsim & _ & _ & Hid & Hcalls).
        apply (ids_drawn_snoc u w _ c post' Hinj Hinv Hsrc Hcalls); [| | exact Hq].
        -- rewrite (Forall2_sim_ids _ _ Hsim), Hdec, fmap_app. cbn.
           apply sublist_inserts_l, sublist_cons. reflexivity.
        -- destruct Hinv as (Hu & _). rewrite Hid, Hu. reflexivity.
      * destruct Hout.
    + unfold syncUp, bind, gets. rewrite Hon. exact Hinv.
Qed.

Lemma after_calls_ids_drawn u (cs : list QueueCall) :
  (∀ i j, u i = u j → i = j) →
  ∀ w, ids_drawn u w → ids_drawn u (after_calls cs w).
Proof.
  intros Hinj. unfold after_calls.
  induction cs as [| c cs IH]; intros w Hinv; cbn; [exact Hinv |].
  apply IH. apply after_call_ids_drawn; assumption.
Qed.

(** X9: entry ids stay distinct.  With a uuid source that never repeats a
    value, starting from an empty queue, after any sequence of
    enqueueMutation, dequeueMutation, markMutationSynced,
    removeSyncedMutations and syncUp calls, whatever the remote store
    answers, no two stored entries have the same id. *)
Theorem queue_ids_stay_distinct (cs : list QueueCall) w :
  (∀ i j, uuid_src w i = uuid_src w j → i = j) →
  stored_queue w = [] →
  NoDup (mq_id <$> stored_queue (after_calls cs w)).
Proof.
  intros Hinj Hempty.
  assert (Hinv : ids_drawn (uuid_src w) w).
  { split; [reflexivity |]. rewrite Hempty. split; [constructor |].
    intros id Hid. inversion Hid. }
  destruct (after_calls_ids_drawn (uuid_src w) cs Hinj w Hinv) as (_ & Hnd & _).
  exact Hnd.
Qed.

End DrainFacts.

Section SyncFacts.

Context {R : Type} `{RemoteStore R}.

Variable REP_ID : string.

Implicit Types (w : World R) (m : MutationQueueItem) (q : list MutationQueueItem).

(** X10: entries flagged synced are sent again.  [syncUp] dequeues and
    processes every stored entry without reading its flag: for a queue of
    flagged entries [getPendingMutationsCount] reports 0, and yet a syncUp
    in which they are all accepted has applied each of them, in order, to
    the remote store. *)
Theorem synced_entries_are_sent_again w q w1 :
  isOnline w = true →
  stored_queue w = q →
  Forall (fun m => mq_synced m = true) q →
  process_all q (syncUp_started w) = (Resolved tt, w1) →
  fst (getPendingMutationsCount w) = Resolved 0%nat ∧
  fst (syncUp w) = Resolved VUndefined ∧
  requests (snd (syncUp w)) = requests w1 ∧
  supabase (snd (syncUp w)) = supabase w1.
Proof.
  intros Hon Hq Hall Hrun. rewrite (syncUp_full_drain w q w1 Hon Hq Hrun).
  split; [| repeat split].
  rewrite pending_count, Hq. clear Hq Hrun. unfold unsynced.
  induction Hall as [| m q Hm _ IH]; cbn; [reflexivity |]. rewrite Hm. exact IH.
Qed.

(** What syncDown sends and what it leaves alone. *)
Lemma syncDown_effect (repId : string) w :
  (∃ l, requests (snd (syncDown repId w)) = (requests w ++ l)%list ∧
        (length l ≤ 6)%nat ∧
        Forall (fun req => is_select req = true) l) ∧
  lf_mutation_queue (localforage (snd (syncDown repId w)))
    = lf_mutation_queue (localforage w) ∧
  lf_active_visit (localforage (snd (syncDown repId w)))
    = lf_active_visit (localforage w) ∧
  isOnline (snd (syncDown repId w)) = isOnline w ∧
  ∀ key,
    key ∉ [STORAGE_KEYS.clients; STORAGE_KEYS.products; STORAGE_KEYS.client_products;
           STORAGE_KEYS.budgets; STORAGE_KEYS.rep_tasks; STORAGE_KEYS.client_followups] →
    lf_rows (localforage (snd (syncDown repId w))) !! key = lf_rows (localforage w) !! key.
Proof.
  destruct (isOnline w) eqn:Hon.
  - destruct (fetch_until_error
                (syncDown_fetches repId (clock w (clock_reads w)) (clock w (S (clock_reads w))))
                (supabase w)) as [[got err] r'] eqn:Hrun.
    destruct (syncDown_run repId w got err r' Hon Hrun)
      as (_ & Hrows & Hav & Hqueue & _ & Hon' & Hreq).
    destruct (fetch_until_error_keys _ _ _ _ _ Hrun) as (Hkeys & _).
    split.
    { eexists. split; [exact Hreq |]. split.
      - rewrite length_take. cbn. lia.
      - apply Forall_take. repeat constructor. }
    split; [exact Hqueue |]. split; [exact Hav |]. split; [exact Hon' |].
    intros key Hkey. rewrite Hrows. apply store_all_lookup_other.
    rewrite Hkeys. intros Hin. apply Hkey.
    exact (elem_of_sublist _ _ _ Hin (sublist_take _ _)).
  - unfold syncDown, bind, gets. rewrite Hon. cbn.
    split; [| split; [reflexivity | split; [reflexivity | split; [exact Hon | reflexivity]]]].
    exists []. rewrite app_nil_r. split; [reflexivity |]. split; [cbn; lia | constructor].
Qed.

(** X11: syncDown only reads the remote store and only writes the six
    collections it fetches.  Whatever its outcome, online or not, the
    requests it sends are selects, six at most; the mutation queue, the
    active-visit marker, the online flag and every collection stored under
    another key (visits, orders, order items) are as they were. *)
Theorem syncDown_only_reads (repId : string) w :
  (∃ l, requests (snd (syncDown repId w)) = (requests w ++ l)%list ∧
        (length l ≤ 6)%nat ∧
        Forall (fun req => is_select req = true) l) ∧
  lf_mutation_queue (localforage (snd (syncDown repId w)))
    = lf_mutation_queue (localforage w) ∧
  lf_active_visit (localforage (snd (syncDown repId w)))
    = lf_active_visit (localforage w) ∧
  isOnline (snd (syncDown repId w)) = isOnline w ∧
  ∀ key,
    key ∉ [STORAGE_KEYS.clients; STORAGE_KEYS.products; STORAGE_KEYS.client_products;
           STORAGE_KEYS.budgets; STORAGE_KEYS.rep_tasks; STORAGE_KEYS.client_followups] →
    lf_rows (localforage (snd (syncDown repId w))) !! key = lf_rows (localforage w) !! key.
Proof. exact (syncDown_effect repId w). Qed.

Lemma syncDown_settles (repId : string) w : fst (syncDown repId w) ≠ Unsettled.
Proof.
  destruct (isOnline w) eqn:Hon.
  - destruct (fetch_until_error
                (syncDown_fetches repId (clock w (clock_reads w)) (clock w (S (clock_reads w))))
                (supabase w)) as [[got err] r'] eqn:Hrun.
    destruct (syncDown_run repId w got err r' Hon Hrun) as (Hout & _).
    rewrite Hout. destruct err; discriminate.
  - unfold syncDown, bind, gets. rewrite Hon. discriminate.
Qed.

(** The world in which the [online] listener starts its sync. *)
Lemma on_online_unfold w :
  let w0 := print (Log "Network connection restored") (set_online true w) in
  on_online REP_ID w =
    match syncUp w0 with
    | (Resolved _, w1) =>
      match syncDown REP_ID w1 with
      | (Resolved _, w2) => (Resolved tt, w2)
      | (Rejected exn, w2) => (Resolved tt, print (Error "Auto-sync failed:" exn) w2)
      | (Unsettled, w2) => (Unsettled, w2)
      end
    | (Rejected exn, w1) => (Resolved tt, print (Error "Auto-sync failed:" exn) w1)
    | (Unsettled, w1) => (Unsettled, w1)
    end.
Proof.
  cbn zeta. unfold on_online, getCurrentRepId.
  unfold bind at 1. unfold modify at 1. unfold bind at 1. unfold console_log at 1, modify at 1.
  unfold try_catch. unfold bind at 1.
  destruct (syncUp _) as [[v | exn |] w1]; [| reflexivity | reflexivity].
  unfold bind at 1.
  destruct (syncDown REP_ID w1) as [[v2 | exn |] w2]; reflexivity.
Qed.

(** X12: the [online] listener never throws.  It sets the online flag,
    which is still set when it is done, and resolves whether or not the
    automatic sync succeeded.  It drains before it pulls: when syncUp
    rejects, syncDown is not called, so no select is sent and the cached
    collections keep their values. *)
Theorem on_online_absorbs_sync_failure w :
  let w0 := print (Log "Network connection restored") (set_online true w) in
  fst (on_online REP_ID w) = Resolved tt ∧
  isOnline (snd (on_online REP_ID w)) = true ∧
  (∀ exn, fst (syncUp w0) = Rejected exn →
     lf_rows (localforage (snd (on_online REP_ID w))) = lf_rows (localforage w) ∧
     ∃ l, requests (snd (on_online REP_ID w)) = (requests w ++ l)%list ∧
          Forall (fun req => is_write req = true) l).
Proof.
  intros w0. rewrite on_online_unfold. fold w0.
  assert (Hon0 : isOnline w0 = true) by reflexivity.
  destruct (syncUp_outcome w0 Hon0) as ((F1 & F2 & _) & (l & Hreq & _ & Hw) & _).
  pose proof (syncUp_settles w0) as Hset.
  destruct (syncUp w0) as [[v | exn |] w1]; cbn [fst snd] in *.
  - pose proof (syncDown_settles REP_ID w1) as Hset2.
    destruct (syncDown_effect REP_ID w1) as (_ & _ & _ & Hon2 & _).
    destruct (syncDown REP_ID w1) as [[v2 | exn |] w2]; cbn [fst snd] in *.
    + split; [reflexivity |]. split; [congruence | discriminate].
    + split; [reflexivity |]. split; [cbn; congruence | discriminate].
    + congruence.
  - split; [reflexivity |]. split; [exact F1 |].
    intros exn' _. split; [exact F2 |]. exists l. split; [exact Hreq | exact Hw].
  - congruence.
Qed.

(** The manual sync, when the button's own online state is true. *)
Lemma handleSync_unfold (st : SyncButton) w :
  sb_isOnline st = true →
  handleSync REP_ID st w =
    match syncUp w with
    | (Resolved _, w1) =>
      match syncDown REP_ID w1 with
      | (Resolved _, w2) =>
        (Resolved
           (setIsLoading false
              (sb_emit (ToastSuccess "Sync completed successfully")
                 (setPendingCount (length (unsynced (stored_queue w2)))
                    (setIsLoading true st)))), w2)
      | (Rejected exn, w2) =>
        (Resolved
           (setIsLoading false
              (sb_emit (ToastError "Sync failed. Please try again.")
                 (setIsLoading true st))),
         print (Error "Sync failed:" exn) w2)
      | (Unsettled, w2) => (Unsettled, w2)
      end
    | (Rejected exn, w1) =>
      (Resolved
         (setIsLoading false
            (sb_emit (ToastError "Sync failed. Please try again.")
               (setIsLoading true st))),
       print (Error "Sync failed:" exn) w1)
    | (Unsettled, w1) => (Unsettled, w1)
    end.
Proof.
  intros Hst. unfold handleSync. rewrite Hst. cbn [negb].
  unfold bind at 1. unfold try_catch. unfold bind at 1.
  destruct (syncUp w) as [[v | exn |] w1]; [| reflexivity | reflexivity].
  unfold bind at 1.
  destruct (syncDown REP_ID w1) as [[v2 | exn |] w2]; reflexivity.
Qed.

(** X13: the manual sync never throws and always ends with the loading
    flag cleared.  When the button's own online state is false it only
    shows an error toast and leaves the world as it is.  Otherwise it
    either succeeds, and then the pending count it shows is 0, the stored
    queue is empty and a success toast is shown; or it fails, and then an
    error toast is shown and the pending count it shows is left as it
    was. *)
Theorem handleSync_outcomes (st : SyncButton) w :
  (sb_isOnline st = false →
   handleSync REP_ID st w
     = (Resolved (sb_emit (ToastError "Cannot sync while offline") st), w)) ∧
  (sb_isOnline st = true →
   ∃ st',
     fst (handleSync REP_ID st w) = Resolved st' ∧
     isLoading st' = false ∧
     ((pendingCount st' = 0%nat ∧
       stored_queue (snd (handleSync REP_ID st w)) = [] ∧
       sb_ui st' = (sb_ui st ++ [ToastSuccess "Sync completed successfully"])%list) ∨
      (pendingCount st' = pendingCount st ∧
       sb_ui st' = (sb_ui st ++ [ToastError "Sync failed. Please try again."])%list))).
Proof.
  split; intros Hst.
  { unfold handleSync. rewrite Hst. reflexivity. }
  rewrite (handleSync_unfold st w Hst).
  pose proof (syncUp_settles w) as Hset.
  destruct (fst (syncUp w)) as [v | exn |] eqn:Hout.
  - pose proof (syncUp_resolved_queue w v Hout) as Hq.
    destruct (syncUp w) as [o w1]. cbn [fst snd] in *. subst o.
    pose proof (syncDown_settles REP_ID w1) as Hset2.
    destruct (syncDown_effect REP_ID w1) as (_ & Hqueue & _).
    destruct (syncDown REP_ID w1) as [[v2 | exn |] w2]; cbn [fst snd] in *.
    + assert (Hq2 : stored_queue w2 = []) by (unfold stored_queue in *; rewrite Hqueue; exact Hq).
      rewrite Hq2. eexists. split; [reflexivity |]. split; [reflexivity |].
      left. repeat split; reflexivity.
    + eexists. split; [reflexivity |]. split; [reflexivity |]. right. split; reflexivity.
    + congruence.
  - destruct (syncUp w) as [o w1]. cbn [fst] in Hout. subst o.
    eexists. split; [reflexivity |]. split; [reflexivity |]. right. split; reflexivity.
  - congruence.
Qed.

End SyncFacts.

Arguments newVisit_row : simpl never.
Arguments notes_row : simpl never.

Section HandlerFacts.

Context {R : Type} `{RemoteStore R}.

Variable REP_ID : string.

Implicit Types (w : World R) (m : MutationQueueItem).

(** [processMutation] does not read the console or the online flag. *)
Lemma processMutation_remote_only m w w0 :
  supabase w0 = supabase w →
  requests w0 = requests w →
  fst (processMutation m w0) = fst (processMutation m w) ∧
  supabase (snd (processMutation m w0)) = supabase (snd (processMutation m w)) ∧
  requests (snd (processMutation m w0)) = requests (snd (processMutation m w)).
Proof.
  intros Hs Hr.
  unfold processMutation, bind, supabase_call, throw, ret, console_log, modify.
  destruct (mq_operation m); cbn;
    try (destruct (no_key (mq_key m)); [cbn; repeat split; assumption |]); cbn;
    rewrite Hs;
    match goal with |- context [rs_exec ?q (supabase w)] =>
      destruct (rs_exec q (supabase w)) as [resp r'] end; cbn;
    destruct (error resp) as [e |]; cbn;
    try (destruct (String.eqb (code e) "23505")); cbn;
    rewrite Hr; repeat split; reflexivity.
Qed.

(** syncUp on a queue of one entry does to the remote store what
    processing that entry does. *)
Lemma syncUp_single w m :
  isOnline w = true →
  stored_queue w = [m] →
  requests (snd (syncUp w)) = requests (snd (processMutation m w)) ∧
  supabase (snd (syncUp w)) = supabase (snd (processMutation m w)) ∧
  (fst (processMutation m w) = Resolved tt →
   fst (syncUp w) = Resolved VUndefined ∧ stored_queue (snd (syncUp w)) = []).
Proof.
  intros Hon Hq.
  destruct (processMutation_remote_only m w (syncUp_started w) eq_refl eq_refl)
    as (Ho & Hs & Hr).
  rewrite (syncUp_unfold w Hon), Hq. cbn [length].
  rewrite (syncUp_loop_step 1 0 (syncUp_started w) m [] Hq).
  pose proof (processMutation_settles m (syncUp_started w)) as Hset.
  destruct (processMutation m (syncUp_started w)) as [[[] | exn |] wp];
    cbn [fst snd] in *.
  - rewrite syncUp_loop_empty by reflexivity. cbn.
    split; [exact Hr |]. split; [exact Hs |]. intros _. split; reflexivity.
  - cbn. split; [exact Hr |]. split; [exact Hs |].
    intros Hres. rewrite Hres in Ho. discriminate.
  - congruence.
Qed.

(** ** Starting a visit *)

(** An offline start, step by step. *)
Lemma handleStartVisit_offline_run (st : VisitStart) w (client : Client) :
  selectedClient st = Some client →
  activeVisit st = None →
  isOnline w = false →
  let visitId := uuid_src w (uuid_calls w) in
  let now := toISOString (clock w (clock_reads w)) in
  let marker := {| visit_id := visitId; av_client_id := c_id client;
                   start_time := now; notes := None |} in
  let item := {| mq_id := uuid_src w (S (uuid_calls w)); mq_table := "visits";
                 mq_operation := OpInsert;
                 mq_payload := newVisit_row REP_ID visitId (c_id client) now;
                 mq_key := None;
                 mq_timestamp := toISOString (clock w (S (clock_reads w)));
                 mq_synced := false |} in
  snd (handleStartVisit REP_ID st w) =
    set_localforage (set_active_visit (Some marker))
      (with_queue (Some (stored_queue w ++ [item])%list)
         (read_clock (draw_uuid (read_clock (draw_uuid w))))).
Proof.
  intros Hclient Hnone Hoff visitId now marker item.
  unfold handleStartVisit. rewrite Hclient, Hnone.
  unfold bind, try_catch, uuidv4, new_Date, isNetworkOnline, gets, bind. cbn.
  rewrite Hoff. reflexivity.
Qed.

(** X14: starting a visit while offline sends nothing.  With a client
    selected and no active visit on the page, it appends one unsynced
    insert for the visits table to the queue, stores the active-visit
    marker and sets it on the page; the queued row and the marker carry the
    same visit id, and the row is the one an online start would insert. *)
Theorem handleStartVisit_offline_queues_the_visit (st : VisitStart) w (client : Client) :
  selectedClient st = Some client →
  activeVisit st = None →
  isOnline w = false →
  let visitId := uuid_src w (uuid_calls w) in
  let now := toISOString (clock w (clock_reads w)) in
  let marker := {| visit_id := visitId; av_client_id := c_id client;
                   start_time := now; notes := None |} in
  ∃ st' item,
    fst (handleStartVisit REP_ID st w) = Resolved st' ∧
    requests (snd (handleStartVisit REP_ID st w)) = requests w ∧
    stored_queue (snd (handleStartVisit REP_ID st w)) = (stored_queue w ++ [item])%list ∧
    requeued item =
      {| mu_table := "visits"; mu_operation := OpInsert;
         mu_payload := newVisit_row REP_ID visitId (c_id client) now; mu_key := None |} ∧
    mq_synced item = false ∧
    mq_payload item !! "id" = Some (VStr (visit_id marker)) ∧
    lf_active_visit (localforage (snd (handleStartVisit REP_ID st w))) = Some marker ∧
    activeVisit st' = Some marker ∧
    isStartingVisit st' = false.
Proof.
  intros Hclient Hnone Hoff visitId now marker.
  unfold handleStartVisit. rewrite Hclient, Hnone.
  unfold bind, try_catch, uuidv4, new_Date, isNetworkOnline, gets, bind. cbn.
  rewrite Hoff. cbn.
  eexists. eexists. split; [reflexivity |]. split; [reflexivity |].
  split; [reflexivity |]. split; [reflexivity |]. split; [reflexivity |].
  split; [| split; [reflexivity | split; reflexivity]].
  unfold newVisit_row. cbn. reflexivity.
Qed.

(** X15: starting a visit while online.  The visits insert is sent first.
    When the remote store accepts it, the marker is stored and set on the
    page; when it refuses, the page shows "Failed to start visit", and no
    marker is stored, nothing is enqueued and the page has no active
    visit.  Either way the starting flag is cleared at the end. *)
Theorem handleStartVisit_online (st : VisitStart) w (client : Client) resp r' :
  selectedClient st = Some client →
  activeVisit st = None →
  isOnline w = true →
  let visitId := uuid_src w (uuid_calls w) in
  let now := toISOString (clock w (clock_reads w)) in
  let marker := {| visit_id := visitId; av_client_id := c_id client;
                   start_time := now; notes := None |} in
  rs_exec (RInsert "visits" (newVisit_row REP_ID visitId (c_id client) now)) (supabase w)
    = (resp, r') →
  ∃ st',
    fst (handleStartVisit REP_ID st w) = Resolved st' ∧
    isStartingVisit st' = false ∧
    requests (snd (handleStartVisit REP_ID st w)) =
      (requests w ++ [RInsert "visits" (newVisit_row REP_ID visitId (c_id client) now)])%list ∧
    lf_mutation_queue (localforage (snd (handleStartVisit REP_ID st w)))
      = lf_mutation_queue (localforage w) ∧
    match error resp with
    | None =>
      lf_active_visit (localforage (snd (handleStartVisit REP_ID st w))) = Some marker ∧
      activeVisit st' = Some marker ∧
      ui st' = (ui st ++ [ToastSuccess "Visit started successfully";
                          Navigate ("/visit/client?visit_id=" ++ visitId ++
                                    "&client_id=" ++ c_id client)])%list
    | Some e =>
      lf_active_visit (localforage (snd (handleStartVisit REP_ID st w)))
        = lf_active_visit (localforage w) ∧
      activeVisit st' = None ∧
      ui st' = (ui st ++ [ToastError "Failed to start visit"])%list
    end.
Proof.
  intros Hclient Hnone Hon visitId now marker Hexec.
  unfold handleStartVisit. rewrite Hclient, Hnone.
  unfold bind, try_catch, uuidv4, new_Date, isNetworkOnline, gets, bind, supabase_call. cbn.
  rewrite Hon. cbn. fold visitId now. rewrite Hexec. cbn.
  destruct (error resp) as [e |]; cbn.
  - eexists. split; [reflexivity |]. split; [reflexivity |]. split; [reflexivity |].
    split; [reflexivity |]. split; [reflexivity |]. split; [exact Hnone | reflexivity].
  - eexists. split; [reflexivity |]. split; [reflexivity |]. split; [reflexivity |].
    split; [reflexivity |]. split; [reflexivity |]. split; [reflexivity |].
    cbn. rewrite <- app_assoc. reflexivity.
Qed.

(** X16: the page and the store agree, and a visit is started once.
    [handleStartVisit] never throws.  Whenever a start from a page without
    an active visit leaves the page with one, the store holds that same
    visit as its marker, and a second start from the page it left is
    refused with an error toast and changes nothing in the world. *)
Theorem handleStartVisit_starts_once (st : VisitStart) w :
  ∃ st',
    fst (handleStartVisit REP_ID st w) = Resolved st' ∧
    ∀ v, activeVisit st = None → activeVisit st' = Some v →
      lf_active_visit (localforage (snd (handleStartVisit REP_ID st w))) = Some v ∧
      handleStartVisit REP_ID st' (snd (handleStartVisit REP_ID st w)) =
        (Resolved
           (emit (ToastError "Please end your current visit before starting a new one") st'),
         snd (handleStartVisit REP_ID st w)).
Proof.
  destruct (handleStartVisit REP_ID st w) as [o wf] eqn:Hrun. cbn [fst snd].
  unfold handleStartVisit in Hrun.
  destruct (selectedClient st) as [client |] eqn:Hclient.
  2:{ injection Hrun as <- <-. eexists. split; [reflexivity |].
      intros v Hnone Hsome. cbn in Hsome. congruence. }
  destruct (activeVisit st) as [v0 |] eqn:Hactive.
  { injection Hrun as <- <-. eexists. split; [reflexivity |]. intros v Hnone. discriminate. }
  revert Hrun.
  unfold bind, try_catch, uuidv4, new_Date, isNetworkOnline, gets, bind, supabase_call. cbn.
  destruct (isOnline w) eqn:Hon; cbn.
  - destruct (rs_exec _ (supabase w)) as [resp r'] eqn:Hexec. cbn.
    destruct (error resp) as [e |]; cbn; intros Hrun; injection Hrun as <- <-.
    + eexists. split; [reflexivity |]. intros v _ Hsome. cbn in Hsome. congruence.
    + eexists. split; [reflexivity |]. intros v _ Hsome. cbn in Hsome.
      injection Hsome as <-. split; [reflexivity |].
      unfold handleStartVisit. cbn. rewrite Hclient. reflexivity.
  - intros Hrun; injection Hrun as <- <-.
    eexists. split; [reflexivity |]. intros v _ Hsome. cbn in Hsome.
    injection Hsome as <-. split; [reflexivity |].
    unfold handleStartVisit. cbn. rewrite Hclient. reflexivity.
Qed.

(** X17: a visit started offline reaches the remote store as the same
    insert.  From an empty queue, starting a visit offline and then
    running syncUp once the device is online sends exactly the request an
    online start would have sent and leaves the remote store in the same
    state; when the store accepts it, syncUp resolves and the queue is
    empty. *)
Theorem offline_visit_start_syncs_like_online (st : VisitStart) w (client : Client) :
  selectedClient st = Some client →
  activeVisit st = None →
  isOnline w = false →
  stored_queue w = [] →
  let w_sync := syncUp (set_online true (snd (handleStartVisit REP_ID st w))) in
  let w_direct := snd (handleStartVisit REP_ID st (set_online true w)) in
  requests (snd w_sync) = requests w_direct ∧
  supabase (snd w_sync) = supabase w_direct ∧
  (error (fst (rs_exec
                 (RInsert "visits"
                    (newVisit_row REP_ID (uuid_src w (uuid_calls w)) (c_id client)
                       (toISOString (clock w (clock_reads w)))))
                 (supabase w))) = None →
   fst w_sync = Resolved VUndefined ∧ stored_queue (snd w_sync) = []).
Proof.
  intros Hclient Hnone Hoff Hq w_sync w_direct. subst w_sync w_direct.
  set (w_off := snd (handleStartVisit REP_ID st w)).
  set (item := {| mq_id := uuid_src w (S (uuid_calls w)); mq_table := "visits";
                  mq_operation := OpInsert;
                  mq_payload := newVisit_row REP_ID (uuid_src w (uuid_calls w)) (c_id client)
                                  (toISOString (clock w (clock_reads w)));
                  mq_key := None;
                  mq_timestamp := toISOString (clock w (S (clock_reads w)));
                  mq_synced := false |}).
  assert (Hqoff : stored_queue (set_online true w_off) = [item]).
  { unfold w_off. rewrite (handleStartVisit_offline_run st w client Hclient Hnone Hoff).
    cbn. fold (stored_queue w). rewrite Hq. reflexivity. }
  destruct (syncUp_single (set_online true w_off) item eq_refl Hqoff) as (Hr & Hs & Hok).
  rewrite Hr, Hs.
  assert (Hoff_req : requests w_off = requests w ∧ supabase w_off = supabase w).
  { unfold w_off. rewrite (handleStartVisit_offline_run st w client Hclient Hnone Hoff).
    split; reflexivity. }
  destruct Hoff_req as [Hreq0 Hsup0]. clearbody w_off.
  unfold handleStartVisit. rewrite Hclient, Hnone.
  unfold processMutation, item in *.
  unfold bind, try_catch, uuidv4, new_Date, isNetworkOnline, gets, bind, supabase_call in *.
  cbn in *. rewrite Hsup0 in *.
  destruct (rs_exec _ (supabase w)) as [resp r'] eqn:Hexec. cbn in *.
  destruct (error resp) as [e |] eqn:Herr; cbn in *.
  - destruct (String.eqb (code e) "23505"); cbn; rewrite Hreq0;
      (split; [reflexivity |]; split; [reflexivity |]; discriminate).
  - rewrite Hreq0. split; [reflexivity |]. split; [reflexivity |]. intros _.
    apply Hok. reflexivity.
Qed.

(** ** Updating the visit notes *)

(** X18: notes updated offline reach the remote store as the same update.
    Without a visit id, [handleNotesUpdate] does nothing at all.  With
    one, from an empty queue, updating the notes offline and then running
    syncUp once the device is online sends exactly the update by id that an
    online notes update sends, and leaves the remote store in the same
    state; the queued entry always carries its key, so it is never refused
    for a missing key. *)
Theorem offline_notes_update_syncs_like_online (st : VisitClient) w :
  (no_key (visitId st) = true → handleNotesUpdate st w = (Resolved st, w)) ∧
  (∀ id, visitId st = Some id → id ≠ "" →
     isOnline w = false →
     stored_queue w = [] →
     let request := RUpdate "visits" (notes_row (visitNotes st)) [FEq "id" (VStr id)] in
     let w_sync := snd (syncUp (set_online true (snd (handleNotesUpdate st w)))) in
     let w_direct := snd (handleNotesUpdate st (set_online true w)) in
     requests w_direct = (requests w ++ [request])%list ∧
     requests w_sync = requests w_direct ∧
     supabase w_sync = supabase w_direct).
Proof.
  split.
  { intros Hno. unfold handleNotesUpdate. rewrite Hno. reflexivity. }
  intros id Hid Hne Hoff Hq request w_sync w_direct. subst w_sync w_direct request.
  assert (Hkey : no_key (visitId st) = false).
  { rewrite Hid. cbn. apply String.eqb_neq. exact Hne. }
  set (w_off := snd (handleNotesUpdate st w)).
  set (item := {| mq_id := uuid_src w (uuid_calls w); mq_table := "visits";
                  mq_operation := OpUpdate; mq_payload := notes_row (visitNotes st);
                  mq_key := Some id;
                  mq_timestamp := toISOString (clock w (clock_reads w));
                  mq_synced := false |}).
  assert (Hoff_run : stored_queue (set_online true w_off) = [item] ∧
                     requests w_off = requests w ∧ supabase w_off = supabase w).
  { unfold w_off, handleNotesUpdate. rewrite Hkey.
    unfold bind, try_catch, isNetworkOnline, gets, bind. cbn.
    rewrite Hoff. cbn. fold (stored_queue w). rewrite Hq, Hid. repeat split. }
  destruct Hoff_run as (Hqoff & Hreq0 & Hsup0).
  destruct (syncUp_single (set_online true w_off) item eq_refl Hqoff) as (Hr & Hs & _).
  rewrite Hr, Hs. clearbody w_off.
  unfold handleNotesUpdate. rewrite Hkey.
  unfold processMutation, item.
  unfold bind, try_catch, isNetworkOnline, gets, bind, supabase_call. cbn.
  rewrite Hid. cbn. rewrite (proj2 (String.eqb_neq id "") Hne). cbn.
  rewrite Hsup0.
  destruct (rs_exec _ (supabase w)) as [resp r'] eqn:Hexec. cbn.
  destruct (error resp) as [e |]; cbn; rewrite Hreq0; repeat split; reflexivity.
Qed.

End HandlerFacts.

(** ** Month keys and date ranges *)

Section DateFacts.









(** X20: the bounds of [getDateRange] are the first days of the two
    calendar months next to the current one, across year ends too: for a
    month index from 0 to 11, the lower bound is the first day of the
    month one before the current month and the upper bound the first day
    of the month one after it, counting months through the years, and
    both month indexes are again between 0 and 11. *)
Theorem getDateRange_adjacent_months (now : JsDate) :
  (0 ≤ getMonth now ≤ 11)%Z →
  let '(y1, m1) := previous_month now in
  let '(y2, m2) := next_month now in
  dateRange_of now = (iso_date y1 m1 1, iso_date y2 m2 1) ∧
  (0 ≤ m1 ≤ 11)%Z ∧ (0 ≤ m2 ≤ 11)%Z ∧
  (12 * y1 + m1 = 12 * getFullYear now + getMonth now - 1)%Z ∧
  (12 * y2 + m2 = 12 * getFullYear now + getMonth now + 1)%Z.
Proof.
  intros Hm. pose proof (dateRange_of_months now) as Hrange.
  unfold first_day_of_previous_month, first_day_of_next_month in Hrange.
  unfold previous_month, next_month in *.
  destruct (Z.eqb_spec (getMonth now) 0), (Z.eqb_spec (getMonth now) 11);
    cbn [fst snd] in *; (split; [exact Hrange | lia]).
Qed.

End DateFacts.

(** ** Requests of a drain, and entries that cannot be drained *)

Section RequestFacts.

Context {R : Type} `{RemoteStore R}.

Implicit Types (w : World R) (m : MutationQueueItem) (q : list MutationQueueItem).

Lemma processMutation_resolved_request m w :
  fst (processMutation m w) = Resolved tt →
  requests (snd (processMutation m w)) = (requests w ++ [request_for m])%list ∧
  keyless m = false.
Proof.
  unfold processMutation, request_for, keyless, bind, supabase_call, throw, ret,
    console_log, modify.
  destruct (mq_operation m); cbn;
    try (destruct (no_key (mq_key m)); [discriminate |]); cbn;
    match goal with |- context [rs_exec ?q (supabase w)] =>
      destruct (rs_exec q (supabase w)) as [resp r'] end; cbn;
    destruct (error resp) as [e |]; cbn;
    try (destruct (String.eqb (code e) "23505")); cbn;
    intros Hres; try discriminate; split; reflexivity.
Qed.

Lemma process_all_requests q :
  ∀ w w1, process_all q w = (Resolved tt, w1) →
    requests w1 = (requests w ++ (request_for <$> q))%list ∧
    Forall (fun m => keyless m = false) q.
Proof.
  induction q as [| m q IH]; intros w w1 Hrun; cbn in Hrun.
  - injection Hrun as <-. cbn. rewrite app_nil_r. split; [reflexivity | constructor].
  - unfold bind in Hrun.
    pose proof (processMutation_resolved_request m w) as Hm.
    destruct (processMutation m w) as [[[] | e |] wm]; try discriminate.
    destruct (Hm eq_refl) as [Hreq Hkey]. cbn [snd] in Hreq.
    destruct (IH wm w1 Hrun) as [Hrest Hkeys].
    split; [| constructor; assumption].
    rewrite Hrest, Hreq. cbn. rewrite <- app_assoc. reflexivity.
Qed.

(** X21: a drain sends one request for each entry, in queue order.  When
    every queued entry is processed successfully, what syncUp has sent to
    the remote store is, entry by entry in the order of the queue, the
    insert, the update by id, the upsert or the delete by id built from
    the entry's table, payload and key; none of the entries lacked a key
    it needed. *)
Theorem syncUp_sends_in_queue_order w q w1 :
  isOnline w = true →
  stored_queue w = q →
  process_all q (syncUp_started w) = (Resolved tt, w1) →
  requests (snd (syncUp w)) = (requests w ++ (request_for <$> q))%list ∧
  Forall (fun m => keyless m = false) q.
Proof.
  intros Hon Hq Hrun. rewrite (syncUp_full_drain w q w1 Hon Hq Hrun).
  exact (process_all_requests q (syncUp_started w) w1 Hrun).
Qed.

Lemma processMutation_keyless m w :
  keyless m = true →
  processMutation m w = (Rejected (key_required (mq_operation m)), w).
Proof.
  unfold keyless, processMutation. destruct (mq_operation m); try discriminate;
    intros Hk; rewrite Hk; reflexivity.
Qed.

(** One syncUp on a queue whose only entry is keyless. *)
Lemma syncUp_keyless_single w m :
  isOnline w = true →
  stored_queue w = [m] →
  keyless m = true →
  fst (syncUp w) = Rejected (key_required (mq_operation m)) ∧
  isOnline (snd (syncUp w)) = true ∧
  requests (snd (syncUp w)) = requests w ∧
  supabase (snd (syncUp w)) = supabase w ∧
  ∃ c, stored_queue (snd (syncUp w)) = [c] ∧ requeued c = requeued m.
Proof.
  intros Hon Hq Hk.
  rewrite (syncUp_unfold w Hon), Hq. cbn [length].
  rewrite (syncUp_loop_step 1 0 (syncUp_started w) m [] Hq).
  rewrite (processMutation_keyless m _ Hk). cbn.
  split; [reflexivity |]. split; [exact Hon |]. split; [reflexivity |].
  split; [reflexivity |]. eexists. split; reflexivity.
Qed.

Lemma keyless_requeued m c : requeued c = requeued m → keyless c = keyless m.
Proof.
  intros Hr. unfold keyless.
  rewrite (f_equal mu_operation Hr : mq_operation c = mq_operation m).
  rewrite (f_equal mu_key Hr : mq_key c = mq_key m). reflexivity.
Qed.

(** X22: an update or a delete queued without a key is never drained.
    With such an entry alone in the queue, every syncUp, however often it
    is run, rejects with the "requires a key" error, sends nothing to the
    remote store, and leaves one entry queued again, with the same table,
    operation, payload and missing key. *)
Theorem keyless_entry_is_never_drained w m (n : nat) :
  isOnline w = true →
  stored_queue w = [m] →
  keyless m = true →
  fst (syncUp (after_syncUps n w)) = Rejected (key_required (mq_operation m)) ∧
  requests (snd (syncUp (after_syncUps n w))) = requests w ∧
  supabase (snd (syncUp (after_syncUps n w))) = supabase w ∧
  ∃ c, stored_queue (snd (syncUp (after_syncUps n w))) = [c] ∧ requeued c = requeued m.
Proof.
  intros Hon Hq Hk.
  assert (Hinv : isOnline (after_syncUps n w) = true ∧
                 requests (after_syncUps n w) = requests w ∧
                 supabase (after_syncUps n w) = supabase w ∧
                 ∃ c, stored_queue (after_syncUps n w) = [c] ∧ requeued c = requeued m).
  { induction n as [| n IH].
    - split; [exact Hon |]. split; [reflexivity |]. split; [reflexivity |].
      exists m. split; [exact Hq | reflexivity].
    - destruct IH as (Hon' & Hr' & Hs' & c & Hq' & Hc).
      change (after_syncUps (S n) w) with (snd (syncUp (after_syncUps n w))).
      destruct (syncUp_keyless_single (after_syncUps n w) c Hon' Hq')
        as (_ & Hon2 & Hr2 & Hs2 & c2 & Hq2 & Hc2).
      { rewrite (keyless_requeued m c Hc). exact Hk. }
      split; [exact Hon2 |]. split; [rewrite Hr2; exact Hr' |].
      split; [rewrite Hs2; exact Hs' |].
      exists c2. split; [exact Hq2 | rewrite Hc2; exact Hc]. }
  destruct Hinv as (Hon' & Hr' & Hs' & c & Hq' & Hc).
  destruct (syncUp_keyless_single (after_syncUps n w) c Hon' Hq')
    as (Hout & _ & Hr2 & Hs2 & c2 & Hq2 & Hc2).
  { rewrite (keyless_requeued m c Hc). exact Hk. }
  split.
  { rewrite Hout. rewrite (f_equal mu_operation Hc : mq_operation c = mq_operation m).
    reflexivity. }
  split; [rewrite Hr2; exact Hr' |]. split; [rewrite Hs2; exact Hs' |].
  exists c2. split; [exact Hq2 | rewrite Hc2; exact Hc].
Qed.

End RequestFacts.

(** ** Order totals and the RPC payload *)

Section OrderFacts.

Import OrderUtils.

Context {Num : Type} `{JsNumber Num}.

Implicit Types (i : UIOrderItem Num) (items : list (UIOrderItem Num)).

Lemma normalizeFreeFlag_flag i :
  truthy (is_free (normalizeFreeFlag i)) =
  match is_free i with
  | Some b => b
  | None => truthy (is_free_stock i)
  end.
Proof.
  unfold normalizeFreeFlag, truthy. cbn. rewrite negb_involutive.
  destruct (is_free i); reflexivity.
Qed.

Lemma normalizeFreeFlag_idem i :
  normalizeFreeFlag (normalizeFreeFlag i) = normalizeFreeFlag i.
Proof. unfold normalizeFreeFlag. cbn. rewrite !negb_involutive. reflexivity. Qed.

Lemma filter_map_normalize (f : UIOrderItem Num → bool) items :
  List.filter f (map normalizeFreeFlag items) =
  map normalizeFreeFlag (List.filter (fun i => f (normalizeFreeFlag i)) items).
Proof.
  induction items as [| i items IH]; cbn; [reflexivity |].
  destruct (f (normalizeFreeFlag i)); cbn; rewrite IH; reflexivity.
Qed.

Lemma filter_idem {A} (f : A → bool) (l : list A) :
  List.filter f (List.filter f l) = List.filter f l.
Proof.
  induction l as [| a l IH]; cbn; [reflexivity |].
  destruct (f a) eqn:Hf; cbn; rewrite ?Hf, IH; reflexivity.
Qed.

Lemma filter_none {A} (f : A → bool) (l : list A) :
  List.filter f (List.filter (fun a => negb (f a)) l) = [].
Proof.
  induction l as [| a l IH]; cbn; [reflexivity |].
  destruct (f a) eqn:Hf; cbn; rewrite ?Hf, IH; reflexivity.
Qed.

(** X23: the free lines of an order change nothing of what is due.
    Whatever the order and the discount, the paid subtotal, the discount
    value and the grand total computed by calculateOrderTotals are those
    of the order with its free lines taken out (a line is free when its
    is_free flag is true or, that flag missing, its is_free_stock flag
    is), and that order has free-stock total 0 and is not an all-free
    order. *)
Theorem free_lines_change_nothing_due items (d : option Num) :
  let all := calculateOrderTotals items d in
  let paid := calculateOrderTotals (paid_lines items) d in
  paidSubtotal all = paidSubtotal paid ∧
  discountValue all = discountValue paid ∧
  grandTotal all = grandTotal paid ∧
  freeStockTotal paid = num_0 ∧
  order_is_free_stock (order paid) = false.
Proof.
  cbn zeta.
  assert (Hpaid :
    List.filter (fun i => negb (truthy (is_free i))) (map normalizeFreeFlag items) =
    List.filter (fun i => negb (truthy (is_free i)))
      (map normalizeFreeFlag (paid_lines items))).
  { unfold paid_lines. rewrite !filter_map_normalize.
    rewrite (filter_idem (fun i => negb (truthy (is_free (normalizeFreeFlag i))))).
    reflexivity. }
  assert (Hfree :
    List.filter (fun i => truthy (is_free i))
      (map normalizeFreeFlag (paid_lines items)) = []).
  { unfold paid_lines. rewrite filter_map_normalize.
    rewrite (filter_none (fun i => truthy (is_free (normalizeFreeFlag i)))).
    reflexivity. }
  unfold calculateOrderTotals. cbn [paidSubtotal discountValue grandTotal
    freeStockTotal order order_is_free_stock].
  rewrite <- Hpaid, Hfree. cbn [fold_left].
  repeat (split; [reflexivity |]).
  destruct (map normalizeFreeFlag (paid_lines items)) as [| i l] eqn:Hl;
    [reflexivity |].
  cbn. destruct (truthy (is_free i)) eqn:Hi; [| reflexivity].
  exfalso. cbn in Hfree. rewrite Hi in Hfree. discriminate.
Qed.

(** X24: when an order counts as free stock.  calculateOrderTotals flags
    the order as free stock exactly when it has at least one line and
    every line is free: its is_free flag is true, or that flag is missing
    and its is_free_stock flag is true.  A line whose is_free flag is
    false is paid for even if its is_free_stock flag is true. *)
Theorem order_is_free_stock_iff items (d : option Num) :
  order_is_free_stock (order (calculateOrderTotals items d)) = true ↔
  items ≠ [] ∧
  Forall (fun i => is_free i = Some true ∨
                   (is_free i = None ∧ is_free_stock i = Some true)) items.
Proof.
  unfold calculateOrderTotals. cbn [order order_is_free_stock].
  rewrite andb_true_iff, Nat.ltb_lt, length_map, forallb_forall.
  rewrite <- List.Forall_forall, Forall_map.
  split.
  - intros [Hlen Hall]. split; [intros ->; cbn in Hlen; lia |].
    eapply Forall_impl; [exact Hall |]. intros i Hi.
    change (truthy (is_free (normalizeFreeFlag i)) = true) in Hi.
    rewrite normalizeFreeFlag_flag in Hi.
    destruct (is_free i) as [[] |]; [left; reflexivity | discriminate |].
    destruct (is_free_stock i) as [[] |]; try discriminate.
    right. split; reflexivity.
  - intros [Hne Hall]. split; [destruct items; [congruence | cbn; lia] |].
    eapply Forall_impl; [exact Hall |]. intros i Hi.
    change (truthy (is_free (normalizeFreeFlag i)) = true).
    rewrite normalizeFreeFlag_flag.
    destruct Hi as [-> | [-> ->]]; reflexivity.
Qed.

(** X25: the RPC payload follows the order lines.  buildRpcItems returns
    one line per order line, in order, with the product and the quantity
    of that line, and every line that calculateOrderTotals treats as
    free (is_free true among its normalized orderItems) has price 0 in
    the payload, whatever the two discounts. *)
Theorem buildRpcItems_follows_order_lines items (d : Num) (d' : option Num)
    (k : nat) i :
  orderItems (calculateOrderTotals items d') !! k = Some i →
  length (buildRpcItems items d) = length items ∧
  ∃ line, buildRpcItems items d !! k = Some line ∧
    rpc_product_id line = product_id i ∧
    rpc_quantity line = quantity i ∧
    (is_free i = Some true → price line = num_0).
Proof.
  unfold calculateOrderTotals, buildRpcItems. cbn [orderItems].
  intros Hk. split; [rewrite !length_map; reflexivity |].
  eexists. split.
  - rewrite list_lookup_fmap. change (map normalizeFreeFlag items)
      with (normalizeFreeFlag <$> items) in *. rewrite Hk. reflexivity.
  - cbn. split; [reflexivity |]. split; [reflexivity |].
    intros ->. reflexivity.
Qed.

End OrderFacts.

(** * Further concrete runs *)

Section FurtherRuns.

Import Scenario Cases.

Lemma device_uuids_distinct online s remote (i j : nat) :
  uuid_src (device online s remote) i = uuid_src (device online s remote) j → i = j.
Proof.
  cbn. intros Heq. apply (inj (String.append "uuid-")) in Heq.
  exact (inj pretty i j Heq).
Qed.

(** One accepted insert: syncUp resolves and nothing is pending. *)
Lemma syncUp_resolved_leaves_nothing_pending_witness :
  fst (syncUp w_one_insert) = Resolved VUndefined ∧
  stored_queue (snd (syncUp w_one_insert)) = [] ∧
  fst (getPendingMutationsCount (snd (syncUp w_one_insert))) = Resolved 0%nat.
Proof.
  destruct (syncUp_resolved_leaves_nothing_pending (H := MemRemote_store)
              w_one_insert VUndefined eq_refl) as (_ & Hq & Hcount & _).
  split; [reflexivity |]. split; [exact Hq | exact Hcount].
Defined.

(** Queue [A, B] with [A] refused: something is still pending. *)
Lemma syncUp_failure_loses_no_mutation_witness :
  fst (syncUp w_requeue) = Rejected (PgErr permission_denied) ∧
  ∃ n, fst (getPendingMutationsCount (snd (syncUp w_requeue))) = Resolved (S n).
Proof.
  destruct (syncUp_failure_loses_no_mutation (H := MemRemote_store)
              w_requeue (PgErr permission_denied) eq_refl eq_refl)
    as (pre & e & post & c & _ & _ & _ & _ & _ & n & Hn).
  split; [reflexivity |]. exists n. exact Hn.
Defined.

(** Enqueues, a failing drain, a mark, a dequeue and a purge. *)
Lemma queue_ids_stay_distinct_witness :
  NoDup (mq_id <$> stored_queue (after_calls calls w_orders_refused)).
Proof.
  exact (queue_ids_stay_distinct (H := MemRemote_store) calls w_orders_refused
           (device_uuids_distinct _ _ _) eq_refl).
Defined.

(** A flagged entry is not counted as pending and is sent all the same. *)
Lemma synced_entries_are_sent_again_witness :
  fst (getPendingMutationsCount w_flagged) = Resolved 0%nat ∧
  requests (snd (syncUp w_flagged)) = [RInsert "clients" acme].
Proof.
  destruct (synced_entries_are_sent_again (H := MemRemote_store) w_flagged
              [with_synced B] (snd (process_all [with_synced B] (syncUp_started w_flagged)))
              eq_refl eq_refl ltac:(repeat constructor) eq_refl)
    as (Hcount & _ & Hreq & _).
  split; [exact Hcount |]. rewrite Hreq. reflexivity.
Defined.

(** The manual sync of one accepted insert. *)
Lemma handleSync_outcomes_witness :
  ∃ st', fst (handleSync "rep1" button w_one_insert) = Resolved st' ∧ isLoading st' = false.
Proof.
  destruct (proj2 (handleSync_outcomes (H := MemRemote_store) "rep1" button w_one_insert)
              eq_refl) as (st' & Hrun & Hload & _).
  exists st'. split; [exact Hrun | exact Hload].
Defined.

(** A visit started offline on an empty device. *)
Lemma handleStartVisit_offline_queues_the_visit_witness :
  requests (snd (handleStartVisit "rep1" page_unaware w_offline_empty)) = [] ∧
  length (stored_queue (snd (handleStartVisit "rep1" page_unaware w_offline_empty))) = 1%nat.
Proof.
  pose proof (handleStartVisit_offline_queues_the_visit (H := MemRemote_store) "rep1"
                page_unaware w_offline_empty (client "c1" "Acme" active)
                eq_refl eq_refl eq_refl) as Hthm.
  cbv zeta in Hthm. destruct Hthm as (st' & item & _ & Hreq & Hq & _).
  split; [exact Hreq |]. rewrite Hq. reflexivity.
Defined.

(** A visit started online on an empty device. *)
Lemma handleStartVisit_online_witness :
  requests (snd (handleStartVisit "rep1" page_unaware w_online_empty)) = [visit_insert] ∧
  lf_mutation_queue (localforage (snd (handleStartVisit "rep1" page_unaware w_online_empty)))
    = None.
Proof.
  pose proof (handleStartVisit_online (H := MemRemote_store) "rep1"
                page_unaware w_online_empty (client "c1" "Acme" active)
                (fst (mem_exec visit_insert (supabase w_online_empty)))
                (snd (mem_exec visit_insert (supabase w_online_empty)))
                eq_refl eq_refl eq_refl (surjective_pairing _)) as Hthm.
  cbv zeta in Hthm. destruct Hthm as (st' & _ & _ & Hreq & Hq & _).
  split; [exact Hreq | exact Hq].
Defined.

(** The visit of [page_unaware], started offline and then synced. *)
Lemma offline_visit_start_syncs_like_online_witness :
  requests (snd (syncUp (set_online true
                           (snd (handleStartVisit "rep1" page_unaware w_offline_empty)))))
    = [visit_insert] ∧
  requests (snd (handleStartVisit "rep1" page_unaware (set_online true w_offline_empty)))
    = [visit_insert].
Proof.
  pose proof (offline_visit_start_syncs_like_online (H := MemRemote_store) "rep1"
                page_unaware w_offline_empty (client "c1" "Acme" active)
                eq_refl eq_refl eq_refl eq_refl) as Hthm.
  cbv zeta in Hthm. destruct Hthm as (Hreq & _).
  split; [rewrite Hreq |]; reflexivity.
Defined.

(** Notes updated offline for visit v1, then synced. *)
Lemma offline_notes_update_syncs_like_online_witness :
  requests (snd (syncUp (set_online true (snd (handleNotesUpdate notes_form w_offline_empty)))))
    = [RUpdate "visits" (notes_row "moved to Friday") [FEq "id" (VStr "v1")]].
Proof.
  pose proof (proj2 (offline_notes_update_syncs_like_online (H := MemRemote_store)
                       notes_form w_offline_empty)
                "v1" eq_refl ltac:(discriminate) eq_refl eq_refl) as Hthm.
  cbv zeta in Hthm. destruct Hthm as (Hdirect & Hsync & _).
  rewrite Hsync, Hdirect. reflexivity.
Defined.


(** Around November 2026: from 1 October to 1 December. *)
Lemma getDateRange_adjacent_months_witness :
  dateRange_of mid_november = ("2026-10-01", "2026-12-01").
Proof.
  pose proof (getDateRange_adjacent_months mid_november ltac:(cbn; lia)) as Hthm.
  destruct Hthm as (Hrange & _). exact Hrange.
Defined.

(** Queue [B, A], both accepted: the clients insert goes first. *)
Lemma syncUp_sends_in_queue_order_witness :
  requests (snd (syncUp w_two_inserts)) = [RInsert "clients" acme; RInsert "orders" order7].
Proof.
  exact (proj1 (syncUp_sends_in_queue_order (H := MemRemote_store) w_two_inserts [B; A] _
                  eq_refl eq_refl eq_refl)).
Defined.

(** The keyless update [K], after three runs of syncUp and one more. *)
Lemma keyless_entry_is_never_drained_witness :
  fst (syncUp (after_syncUps 3 w_keyless))
    = Rejected (JsError "Update operation requires a key") ∧
  requests (snd (syncUp (after_syncUps 3 w_keyless))) = [].
Proof.
  destruct (keyless_entry_is_never_drained (H := MemRemote_store) w_keyless K 3
              eq_refl eq_refl eq_refl) as (Hout & Hreq & _).
  split; [exact Hout | exact Hreq].
Defined.

(** The free line of the basket is sent at price 0, with a 10% discount
    on the rest. *)
Lemma buildRpcItems_follows_order_lines_witness :
  ∃ line,
    OrderUtils.buildRpcItems basket (QArith_base.Qmake 10 1) !! 1%nat = Some line ∧
    OrderUtils.rpc_product_id line = "p2" ∧
    OrderUtils.price line = QArith_base.Qmake 0 1.
Proof.
  destruct (buildRpcItems_follows_order_lines basket (QArith_base.Qmake 10 1) None 1
              (OrderUtils.normalizeFreeFlag free_line) eq_refl)
    as (_ & line & Hline & Hproduct & _ & Hprice).
  exists line. split; [exact Hline |]. split; [exact Hproduct | exact (Hprice eq_refl)].
Defined.

End FurtherRuns.
